(** * Marketplace scraper: listing extraction, request filter, serialization

    A shallow embedding of [src/main.py], [src/block.py] and
    [src/exceptions.py].

    Python values are modelled as follows.
    - The [str] of a page, an address or a price is [string]; a character is
      an [ascii], read as the code point U+0000..U+00FF.  On that range the
      character classes the program relies on are finite tables, written out
      below.
    - The [str] of a [Listing] handed to the serialization is any string: a
      list of code points, [Unicode.str].
    - [int] is [Z].  The limit on the number of digits [int] and [str]
      convert, 4300 as the interpreter starts, is part of [Py.int] and
      [Py.str].
    - A raising computation is a [result]: [Return v] or [Raise e].
    - [None] in an optional position is [None] of [option].

    The browser session (Playwright) is outside the model: the extraction
    loop takes the fragments of the page as a list, and the request filter
    returns the action it takes on the route.  Memory and the depth of the
    interpreter's stack are not modelled, and logging, which changes no
    result, is left out. *)

From Stdlib Require Import String Ascii List ZArith NArith Bool Lia.
From Stdlib Require Import DecimalString DecimalPos DecimalFacts.
Import ListNotations.
Local Open Scope list_scope.
Local Open Scope string_scope.

(* ===================================================================== *)
(** ** Exceptions and the raising monad *)
(* ===================================================================== *)

(** [ValueError] and [IndexError] are built in; [ParseError] and
    [CredentialsError] are the two classes of [exceptions.py].  An exception
    of any other class, none of which is a subclass of these, goes by the name
    of its class. *)
Inductive exn : Type :=
| ValueError (msg : string)
| IndexError (msg : string)
| ParseError (msg : string)
| CredentialsError (msg : string)
| OtherError (class msg : string).

Inductive result (A : Type) : Type :=
| Return (a : A)
| Raise (e : exn).
Arguments Return {A} a.
Arguments Raise {A} e.

Definition bind {A B : Type} (c : result A) (k : A -> result B) : result B :=
  match c with
  | Return a => k a
  | Raise e => Raise e
  end.

Notation "x <- c ;; k" := (bind c (fun x => k))
  (at level 61, c at next level, right associativity).

(** The computations of a list in order, up to the first that raises. *)
Fixpoint sequence {A : Type} (l : list (result A)) : result (list A) :=
  match l with
  | [] => Return []
  | c :: rest => x <- c ;; xs <- sequence rest ;; Return (x :: xs)
  end.

(** [isinstance(e, ParseError)], the test of an [except ParseError] clause. *)
Definition is_ParseError (e : exn) : bool :=
  match e with
  | ParseError _ => true
  | _ => false
  end.

(* ===================================================================== *)
(** ** Python built-ins on [str] *)
(* ===================================================================== *)

Module Py.

Definition ord (c : ascii) : N := N_of_ascii c.

(** [c.isdecimal()]: general category Nd; below U+0100 these are '0'..'9'. *)
Definition isdecimal (c : ascii) : bool :=
  ((48 <=? ord c) && (ord c <=? 57))%N.

(** [c.isdigit()]: Numeric_Type Digit or Decimal, so decimal characters and
    digits that cannot form numbers in base 10, such as the compatibility
    superscripts.  Below U+0100 these are '0'..'9' and the superscripts
    U+00B2, U+00B3 and U+00B9; ["\u00b2".isdigit()] is [True] while
    [int("\u00b2")] raises [ValueError]. *)
Definition isdigit (c : ascii) : bool :=
  isdecimal c || (ord c =? 178)%N || (ord c =? 179)%N || (ord c =? 185)%N.

(** [c.isspace()] below U+0100. *)
Definition isspace (c : ascii) : bool :=
  (((9 <=? ord c) && (ord c <=? 13)) || ((28 <=? ord c) && (ord c <=? 32))
   || (ord c =? 133) || (ord c =? 160))%N.

(** [bool(s)] for a string: non-empty. *)
Definition truthy (s : string) : bool :=
  match s with
  | EmptyString => false
  | String _ _ => true
  end.

(** [s.isdigit()]: every character is a digit and there is at least one. *)
Fixpoint all_chars (p : ascii -> bool) (s : string) : bool :=
  match s with
  | EmptyString => true
  | String c r => p c && all_chars p r
  end.

Definition str_isdigit (s : string) : bool := truthy s && all_chars isdigit s.

(** Iterating over a string yields its characters as one-character strings. *)
Fixpoint iter (s : string) : list string :=
  match s with
  | EmptyString => []
  | String c r => String c EmptyString :: iter r
  end.

(** [sep.join(parts)] *)
Definition join (sep : string) (parts : list string) : string :=
  String.concat sep parts.

(** [s.lstrip()], [s.rstrip()] and [s.strip()] with no argument. *)
Fixpoint lstrip (s : string) : string :=
  match s with
  | EmptyString => EmptyString
  | String c r => if isspace c then lstrip r else s
  end.

Fixpoint rstrip (s : string) : string :=
  match s with
  | EmptyString => EmptyString
  | String c r =>
      match rstrip r with
      | EmptyString => if isspace c then EmptyString else String c EmptyString
      | r' => String c r'
      end
  end.

Definition strip (s : string) : string := rstrip (lstrip s).

(** [s.startswith(p)], returning what follows the prefix. *)
Fixpoint strip_prefix (p s : string) : option string :=
  match p, s with
  | EmptyString, _ => Some s
  | String a p', String b s' => if Ascii.eqb a b then strip_prefix p' s' else None
  | String _ _, EmptyString => None
  end.

(** [key in s] for two strings: [key] occurs in [s] as a contiguous run. *)
Fixpoint contains (key s : string) : bool :=
  match strip_prefix key s with
  | Some _ => true
  | None =>
      match s with
      | EmptyString => false
      | String _ r => contains key r
      end
  end.

(** [s.partition(sep)] at the first occurrence of a non-empty [sep]:
    what is before it and what is after it. *)
Fixpoint find_cut (sep s : string) : option (string * string) :=
  match strip_prefix sep s with
  | Some rest => Some (EmptyString, rest)
  | None =>
      match s with
      | EmptyString => None
      | String c r =>
          match find_cut sep r with
          | Some (a, b) => Some (String c a, b)
          | None => None
          end
      end
  end.

(** [s.split(sep, maxsplit)] for [maxsplit >= 0]; an empty separator raises. *)
Fixpoint split_at_most (sep : string) (maxsplit : nat) (s : string) : list string :=
  match maxsplit with
  | O => [s]
  | S m =>
      match find_cut sep s with
      | Some (a, b) => a :: split_at_most sep m b
      | None => [s]
      end
  end.

Definition split (s sep : string) (maxsplit : nat) : result (list string) :=
  if truthy sep then Return (split_at_most sep maxsplit s)
  else Raise (ValueError "empty separator").

(** [l[i]] for [i >= 0]. *)
Definition getitem {A : Type} (l : list A) (i : nat) : result A :=
  match nth_error l i with
  | Some a => Return a
  | None => Raise (IndexError "list index out of range")
  end.

(** The value of a decimal digit. *)
Definition digit_value (c : ascii) : Z := Z.of_N (ord c) - 48.

(** The body of an integer literal in base 10: decimal digits, with single
    underscores allowed between two digits.  [after_digit] tells whether the
    previous character was a digit. *)
Fixpoint literal_value (after_digit : bool) (acc : Z) (s : string) : option Z :=
  match s with
  | EmptyString => if after_digit then Some acc else None
  | String c r =>
      if isdecimal c then literal_value true (10 * acc + digit_value c) r
      else if Ascii.eqb c "_" then
             if after_digit then literal_value false acc r else None
           else None
  end.

(** The decimal writing of an integer: what [str(n)] returns when it
    returns. *)
Definition str_of_int (n : Z) : string := NilZero.string_of_int (Z.to_int n).

(** [sys.get_int_max_str_digits()], as the interpreter starts. *)
Definition MAX_STR_DIGITS : N := 4300.

(** [str(n)], and [n] in an f-string: the decimal writing, unless it has more
    digits than the limit. *)
Definition str (n : Z) : result string :=
  if (MAX_STR_DIGITS <? N.of_nat (String.length (str_of_int (Z.abs n))))%N
  then Raise (ValueError
                ("Exceeds the limit (4300 digits) for integer string conversion; "
                 ++ "use sys.set_int_max_str_digits() to increase the limit"))
  else Return (str_of_int n).

Definition hex_digit (n : N) : ascii :=
  nth (N.to_nat n) (list_ascii_of_string "0123456789abcdef") "0"%char.

Definition DOUBLE_QUOTE : ascii := "034"%char.

(** [c.isprintable()] below U+0100. *)
Definition isprintable (c : ascii) : bool :=
  negb ((ord c <? 32) || ((127 <=? ord c) && (ord c <=? 160)) || (ord c =? 173))%N.

Fixpoint has (c : ascii) (s : string) : bool :=
  match s with
  | EmptyString => false
  | String d r => Ascii.eqb c d || has c r
  end.

(** [repr(s)]: single quotes around the text, double quotes when it has a
    single quote and no double one; the quote in use and the backslash take a
    backslash, tab, line feed and carriage return their letter, any other
    character that is not printable two hex digits. *)
Definition repr_char (quote c : ascii) : string :=
  if Ascii.eqb c quote || Ascii.eqb c "\" then String "\" (String c "")
  else if (ord c =? 9)%N then "\t"
  else if (ord c =? 10)%N then "\n"
  else if (ord c =? 13)%N then "\r"
  else if isprintable c then String c ""
  else "\x" ++ String (hex_digit (ord c / 16)) (String (hex_digit (ord c mod 16)) "").

Fixpoint repr_body (quote : ascii) (s : string) : string :=
  match s with
  | EmptyString => EmptyString
  | String c r => repr_char quote c ++ repr_body quote r
  end.

Definition repr (s : string) : string :=
  let quote := if has "'" s && negb (has DOUBLE_QUOTE s) then DOUBLE_QUOTE
               else "'"%char in
  String quote (repr_body quote s ++ String quote "").

(** The two errors of [int(s)].  The message of the first shows at most 200
    characters of [repr(s)]; the second gives the number of digits found. *)
Definition invalid_literal (s : string) : exn :=
  ValueError ("invalid literal for int() with base 10: "
              ++ String.substring 0 200 (repr s)).

Definition too_many_digits (digits : N) : exn :=
  ValueError ("Exceeds the limit (4300 digits) for integer string conversion: "
              ++ "value has " ++ str_of_int (Z.of_N digits)
              ++ " digits; use sys.set_int_max_str_digits() to increase the limit").

(** The run of decimal digits and underscores a literal starts with: the
    number of its digits, or [None] when two underscores follow each other or
    the run ends with one. *)
Fixpoint count_digits (after_underscore : bool) (digits : N) (s : string)
  : option N :=
  match s with
  | EmptyString => if after_underscore then None else Some digits
  | String c r =>
      if isdecimal c then count_digits false (digits + 1) r
      else if Ascii.eqb c "_" then
             if after_underscore then None else count_digits true digits r
           else if after_underscore then None else Some digits
  end.

(** The whitespace [int] drops around a literal: the ASCII characters C's
    [isspace] accepts, and below U+0100 the two other characters that are
    whitespace, U+0085 and U+00A0.  U+001C to U+001F, which [str.isspace] and
    [str.strip] take for whitespace, are not among them. *)
Definition int_space (c : ascii) : bool :=
  (((9 <=? ord c) && (ord c <=? 13)) || (ord c =? 32)
   || (ord c =? 133) || (ord c =? 160))%N.

Fixpoint lstrip_by (p : ascii -> bool) (s : string) : string :=
  match s with
  | EmptyString => EmptyString
  | String c r => if p c then lstrip_by p r else s
  end.

Fixpoint rstrip_by (p : ascii -> bool) (s : string) : string :=
  match s with
  | EmptyString => EmptyString
  | String c r =>
      match rstrip_by p r with
      | EmptyString => if p c then EmptyString else String c EmptyString
      | r' => String c r'
      end
  end.

(** [int(s)] for a string: surrounding whitespace is dropped, one sign is
    allowed, and the rest must be a base-10 literal.  The leading run of
    digits is counted first, and more than the limit is an error of its own,
    whatever follows the run; anything else that is no literal, the empty
    string included, is an invalid literal. *)
Definition int (s : string) : result Z :=
  let t := rstrip_by int_space (lstrip_by int_space s) in
  let '(sign, body) :=
    match t with
    | String c r =>
        if Ascii.eqb c "+" then (1%Z, r)
        else if Ascii.eqb c "-" then ((-1)%Z, r)
        else (1%Z, t)
    | EmptyString => (1%Z, t)
    end in
  let run := match body with
             | String c _ => if Ascii.eqb c "_" then None
                             else count_digits false 0 body
             | EmptyString => Some 0%N
             end in
  match run with
  | None => Raise (invalid_literal s)
  | Some digits =>
      if (MAX_STR_DIGITS <? digits)%N then Raise (too_many_digits digits)
      else
        match literal_value false 0 body with
        | Some v => Return (sign * v)%Z
        | None => Raise (invalid_literal s)
        end
  end.

End Py.

(* ===================================================================== *)
(** ** Field cleanup utilities ([main.py]) *)
(* ===================================================================== *)

Definition ORIGIN : string := "https://www.facebook.com".

(** [f"https://www.facebook.com{url.split('?', 1)[0]}"] *)
Definition clean_listing_url (url : string) : result string :=
  parts <- Py.split url "?" 1 ;;
  head <- Py.getitem parts 0 ;;
  Return (ORIGIN ++ head).

(** [price = "".join(filter(str.isdigit, price)); return int(price)] *)
Definition convert_price_to_int (price : string) : result Z :=
  let price := Py.join "" (filter Py.str_isdigit (Py.iter price)) in
  Py.int price.

(* ===================================================================== *)
(** ** The part of BeautifulSoup the program uses *)
(* ===================================================================== *)

(** [BeautifulSoup(html_content, "html.parser")] builds a tree from the markup,
    or raises what the parser raises.  The tree is the input of
    [parse_listing_with_soup] below: a fragment is the list of top-level nodes
    the parser built.  [parse_listing_html], further down, takes the parser as
    a parameter and starts from the markup. *)
Module Bs4.

#[local] Set Warnings "-register-all".

(** The classes of string the tree holds besides the plain
    [NavigableString]: the five [PreformattedString]s and the classes the HTML
    tree builder gives to the strings inside [script], [style], [template],
    [rt] and [rp] elements. *)
Inductive string_class : Type :=
| Comment
| CData
| ProcessingInstruction
| Declaration
| Doctype
| Script
| Stylesheet
| TemplateString
| RubyTextString
| RubyParenthesisString.

(** A tree node: a run of plain text, an element with its attributes in
    markup order (name, raw value) and its children in document order, or a
    string of one of the other classes. *)
Inductive node : Type :=
| NavigableString (s : string)
| Tag (name : string) (attrs : list (string * string)) (contents : list node)
| SpecialString (class : string_class) (s : string).

Definition soup : Type := list node.

(** An attribute read through the tree is a string, or a list of strings for
    the attributes the tree builder treats as whitespace-separated lists. *)
Inductive attr_value : Type :=
| AttrStr (s : string)
| AttrList (l : list string).

Definition mem (x : string) (l : list string) : bool := existsb (String.eqb x) l.

(** The HTML tree builder's table of list-valued attributes. *)
Definition list_valued (tag_name key : string) : bool :=
  mem key ["class"; "accesskey"; "dropzone"]
  || (mem tag_name ["a"; "link"; "area"] && mem key ["rel"])
  || (mem tag_name ["a"; "link"] && mem key ["rev"])
  || (mem tag_name ["td"; "th"] && mem key ["headers"])
  || (String.eqb tag_name "form" && String.eqb key "accept-charset")
  || (String.eqb tag_name "object" && String.eqb key "archive")
  || (String.eqb tag_name "icon" && String.eqb key "sizes")
  || (String.eqb tag_name "iframe" && String.eqb key "sandbox")
  || (String.eqb tag_name "output" && String.eqb key "for").

(** The HTML tree builder's [string_containers]: the class of a plain string
    inside an element of that name. *)
Definition string_containers (tag_name : string) : option string_class :=
  if String.eqb tag_name "rt" then Some RubyTextString
  else if String.eqb tag_name "rp" then Some RubyParenthesisString
  else if String.eqb tag_name "style" then Some Stylesheet
  else if String.eqb tag_name "script" then Some Script
  else if String.eqb tag_name "template" then Some TemplateString
  else None.

(** What the builder's [string_container] does while the tree is built: a
    plain string takes the class of the innermost open element that is a string
    container, [container]; strings of another class keep theirs. *)
Fixpoint classify (container : option string_class) (t : node) : node :=
  match t with
  | NavigableString s =>
      match container with
      | Some class => SpecialString class s
      | None => NavigableString s
      end
  | SpecialString class s => SpecialString class s
  | Tag name attrs contents =>
      let inner := match string_containers name with
                   | Some class => Some class
                   | None => container
                   end in
      Tag name attrs (map (classify inner) contents)
  end.

(** The tree as the builder leaves it. *)
Definition built (s : soup) : soup := map (classify None) s.

(** The maximal runs of non-whitespace characters of [s], in order. *)
Fixpoint nonspace_runs (s : string) : list string :=
  match s with
  | EmptyString => []
  | String c r =>
      if Py.isspace c then nonspace_runs r
      else
        match r with
        | EmptyString => [String c EmptyString]
        | String d _ =>
            if Py.isspace d then String c EmptyString :: nonspace_runs r
            else
              match nonspace_runs r with
              | w :: ws => String c w :: ws
              | [] => [String c EmptyString]
              end
        end
  end.

(** The value of attribute [key]; when the markup repeats a name, the last
    value is the one the tree keeps. *)
Fixpoint lookup (key : string) (attrs : list (string * string)) : option string :=
  match attrs with
  | [] => None
  | (k, v) :: rest =>
      match lookup key rest with
      | Some later => Some later
      | None => if String.eqb k key then Some v else None
      end
  end.

(** [tag.get(key, None)] *)
Definition get (t : node) (key : string) : option attr_value :=
  match t with
  | NavigableString _ => None
  | SpecialString _ _ => None
  | Tag name attrs _ =>
      match lookup key attrs with
      | Some raw =>
          Some (if list_valued name key then AttrList (nonspace_runs raw)
                else AttrStr raw)
      | None => None
      end
  end.

Definition class_eqb (a b : string_class) : bool :=
  match a, b with
  | Comment, Comment | CData, CData
  | ProcessingInstruction, ProcessingInstruction
  | Declaration, Declaration | Doctype, Doctype | Script, Script
  | Stylesheet, Stylesheet | TemplateString, TemplateString
  | RubyTextString, RubyTextString
  | RubyParenthesisString, RubyParenthesisString => true
  | _, _ => false
  end.

(** [type(descendant) in tag.interesting_string_types], the class of a plain
    string being [None]: an element that is a string container is interested
    in its own class of string alone, any other element in
    [(NavigableString, CData)]. *)
Definition interesting (tag_name : string) (class : option string_class) : bool :=
  match string_containers tag_name with
  | Some own =>
      match class with
      | Some c => class_eqb c own
      | None => false
      end
  | None =>
      match class with
      | None => true
      | Some CData => true
      | Some _ => false
      end
  end.

(** [_all_strings], joined: the strings at or below [t] whose class passes
    [wanted], in document order. *)
Fixpoint strings (wanted : option string_class -> bool) (t : node) : string :=
  match t with
  | NavigableString s => if wanted None then s else ""
  | SpecialString class s => if wanted (Some class) then s else ""
  | Tag _ _ contents => String.concat "" (map (strings wanted) contents)
  end.

(** [tag.text]: the strings below the tag that are of the classes the tag is
    interested in, concatenated in document order.  The text of the other
    strings, a comment or the body of a nested script for instance, is left
    out. *)
Definition text (t : node) : string :=
  match t with
  | NavigableString s => s
  | SpecialString _ s => s
  | Tag name _ _ => strings (interesting name) t
  end.

(** The nodes below [t] in document order. *)
Fixpoint descendants (t : node) : list node :=
  match t with
  | NavigableString _ => []
  | SpecialString _ _ => []
  | Tag _ _ contents => flat_map (fun c => c :: descendants c) contents
  end.

Definition all_nodes (s : soup) : list node :=
  flat_map (fun c => c :: descendants c) s.

(** A compound selector [name.class1.class2...]: a tag name and the classes
    an element must all carry. *)
Definition selector_parts (sel : string) : string * list string :=
  match Py.split_at_most "." (String.length sel) sel with
  | name :: classes => (name, classes)
  | [] => (sel, [])
  end.

Definition classes_of (t : node) : list string :=
  match get t "class" with
  | Some (AttrList l) => l
  | Some (AttrStr s) => nonspace_runs s
  | None => []
  end.

Definition matches (sel : string) (t : node) : bool :=
  match t with
  | NavigableString _ => false
  | SpecialString _ _ => false
  | Tag name _ _ =>
      let '(wanted, classes) := selector_parts sel in
      String.eqb name wanted
      && forallb (fun c => mem c (classes_of t)) classes
  end.

(** [soup.select_one(sel)]: the first matching element of the built tree in
    document order. *)
Definition select_one (sel : string) (s : soup) : option node :=
  find (matches sel) (all_nodes (built s)).

End Bs4.

(* ===================================================================== *)
(** ** Resource request filter ([block.py]) *)
(* ===================================================================== *)

Definition BLOCK_RESOURCE_TYPES : list string :=
  [ "beacon"; "csp_report"; "font"; "image"; "imageset"; "media"; "object";
    "texttrack"; "xhr"; "eventsource" ].

Definition BLOCK_RESOURCE_NAMES : list string :=
  [ "adzerk"; "analytics"; "cdn.api.twitter"; "doubleclick"; "exelator";
    "fontawesome"; "google"; "google-analytics"; "googletagmanager" ].

(** [route.request]: what the filter reads of a request. *)
Record Request : Type := mkRequest {
  resource_type : string;
  url : string
}.

(** What the filter does with the route: [route.abort()] or
    [route.continue_()]. *)
Inductive decision : Type := Abort | Continue.

Definition blocking_intercept (request : Request) : decision :=
  if existsb (String.eqb (resource_type request)) BLOCK_RESOURCE_TYPES then Abort
  else if existsb (fun key => Py.contains key (url request)) BLOCK_RESOURCE_NAMES
       then Abort
       else Continue.

(* ===================================================================== *)
(** ** Listing extraction ([main.py]) *)
(* ===================================================================== *)

Record Listing : Type := mkListing {
  image_url : string;
  title : string;
  price : Z;
  post_url : string;
  location : string;
  description : option string
}.

Definition IMAGE_SELECTOR : string := "img.xt7dq6l.xl1xv1r.x6ikm8r.x10wlt62.xh8yej3".
Definition TITLE_SELECTOR : string := "span.x1lliihq.x6ikm8r.x10wlt62.x1n2onr6".
Definition PRICE_SELECTOR : string := "span.x193iq5w".
Definition URL_SELECTOR : string := "a.x1i10hfl".
Definition LOCATION_SELECTOR : string :=
  "span.x1lliihq.x6ikm8r.x10wlt62.x1n2onr6.xlyipyv.xuxw1ft".

(** [if isinstance(v, list): v = v[0]].  The source repeats the test on the
    image once more, where the value is a string or [None] already. *)
Definition first_if_list (v : option Bs4.attr_value) : result (option string) :=
  match v with
  | Some (Bs4.AttrList l) => x <- Py.getitem l 0 ;; Return (Some x)
  | Some (Bs4.AttrStr s) => Return (Some s)
  | None => Return None
  end.

(** Truth values of the entries of [all([image, title, price, link, location])]. *)
Definition truthy_str (v : option string) : bool :=
  match v with
  | Some s => Py.truthy s
  | None => false
  end.

Definition truthy_int (v : option Z) : bool :=
  match v with
  | Some n => negb (n =? 0)%Z
  | None => false
  end.

(** [parse_listing_with_soup], from the tree of [html_content] on.  A [Tag] is
    always true, so [x if locator else None] tests for [None]. *)
Definition parse_listing_with_soup (soup : Bs4.soup) : result Listing :=
  let image_locator := Bs4.select_one IMAGE_SELECTOR soup in
  let image := match image_locator with
               | Some t => Bs4.get t "src"
               | None => None
               end in
  image <- first_if_list image ;;
  let title_locator := Bs4.select_one TITLE_SELECTOR soup in
  let title := match title_locator with
               | Some t => Some (Py.strip (Bs4.text t))
               | None => None
               end in
  let price_locator := Bs4.select_one PRICE_SELECTOR soup in
  let price := match price_locator with
               | Some t => Some (Py.strip (Bs4.text t))
               | None => None
               end in
  price <- (match price with
            | Some p => if Py.truthy p
                        then n <- convert_price_to_int p ;; Return (Some n)
                        else Return None
            | None => Return None
            end) ;;
  let link_locator := Bs4.select_one URL_SELECTOR soup in
  let link := match link_locator with
              | Some t => Bs4.get t "href"
              | None => None
              end in
  link <- first_if_list link ;;
  link <- (match link with
           | Some l => if Py.truthy l
                       then u <- clean_listing_url l ;; Return (Some u)
                       else Return None
           | None => Return None
           end) ;;
  let location_locator := Bs4.select_one LOCATION_SELECTOR soup in
  let location := match location_locator with
                  | Some t => Some (Py.strip (Bs4.text t))
                  | None => None
                  end in
  if negb (forallb (fun b : bool => b)
             [ truthy_str image; truthy_str title; truthy_int price;
               truthy_str link; truthy_str location ])
  then Raise (ParseError "Failed to parse listing.")
  else
    match image, title, price, link, location with
    | Some i, Some t, Some p, Some l, Some loc =>
        Return (mkListing i t p l loc None)
    | _, _, _, _, _ => Raise (ParseError "Failed to parse listing.")
    end.

(** [parse_listing_with_soup(html_content)] from the markup on.  The tree is
    built first, and [BeautifulSoup(html_content, "html.parser")] either
    returns it or raises what the parser raises on markup it rejects, a marked
    section with an unknown keyword for instance; the parser is a parameter
    here. *)
Definition parse_listing_html (BeautifulSoup : string -> result Bs4.soup)
           (html_content : string) : result Listing :=
  soup <- BeautifulSoup html_content ;;
  parse_listing_with_soup soup.

(** The extraction loop of [fetch_marketplace_listings]: the fragments of the
    page in order, each parsed under [try ... except ParseError]. *)
Definition num_listings (count : nat) (max_listings : Z) : Z :=
  if (max_listings =? 0)%Z then Z.of_nat count
  else Z.min (Z.of_nat count) max_listings.

Fixpoint parse_each (fragments : list Bs4.soup) (parsed : list Listing)
  : result (list Listing) :=
  match fragments with
  | [] => Return parsed
  | listing_html :: rest =>
      match parse_listing_with_soup listing_html with
      | Return parsed_listing => parse_each rest (parsed ++ [parsed_listing])%list
      | Raise e => if is_ParseError e then parse_each rest parsed else Raise e
      end
  end.

Definition fetch_marketplace_listings (page : list Bs4.soup) (max_listings : Z)
  : result (list Listing) :=
  let n := num_listings (List.length page) max_listings in
  parse_each (firstn (Z.to_nat n) page) [].

(** Sample fragments. *)
Definition span (classes body : string) : Bs4.node :=
  Bs4.Tag "span" [("class", classes)] [Bs4.NavigableString body].

Definition card (src title_text price_text href location_text : string) : Bs4.soup :=
  [ Bs4.Tag "div" [("class", "x9f619")]
      [ Bs4.Tag "a" [("class", "x1i10hfl xjbqb8w"); ("href", href)]
          [ Bs4.Tag "img"
              [("class", "xt7dq6l xl1xv1r x6ikm8r x10wlt62 xh8yej3"); ("src", src)] [];
            span "x193iq5w xeuugli" price_text;
            span "x1lliihq x6ikm8r x10wlt62 x1n2onr6" title_text;
            span "x1lliihq x6ikm8r x10wlt62 x1n2onr6 xlyipyv xuxw1ft" location_text ] ] ].

Definition card_500 : Bs4.soup :=
  card "https://scontent.example/bike.jpg" " Mountain bike " "$500"
       "/marketplace/item/42?x=1" "Toronto, ON".

Definition listing_500 : Listing :=
  mkListing "https://scontent.example/bike.jpg" "Mountain bike" 500
            "https://www.facebook.com/marketplace/item/42" "Toronto, ON" None.

(** A listing offered for free, and one priced at zero dollars. *)
Definition card_free : Bs4.soup :=
  card "https://scontent.example/sofa.jpg" "Sofa" "Free"
       "/marketplace/item/7?ref=search" "Ottawa, ON".

Definition card_zero : Bs4.soup :=
  card "https://scontent.example/desk.jpg" "Desk" "$0"
       "/marketplace/item/8" "Guelph, ON".

(** A card with no price element. *)
Definition card_without_price : Bs4.soup :=
  [ Bs4.Tag "a" [("class", "x1i10hfl"); ("href", "/marketplace/item/9")]
      [ Bs4.Tag "img"
          [("class", "xt7dq6l xl1xv1r x6ikm8r x10wlt62 xh8yej3");
           ("src", "https://scontent.example/lamp.jpg")] [];
        span "x1lliihq x6ikm8r x10wlt62 x1n2onr6" "Lamp";
        span "x1lliihq x6ikm8r x10wlt62 x1n2onr6 xlyipyv xuxw1ft" "Barrie, ON" ] ].

(** The price text made of the digit five and U+00B2, superscript two. *)
Definition five_squared : string := String "5" (String "178" "").



(** A card priced at 4301 nines. *)
Fixpoint nines (n : nat) : string :=
  match n with
  | O => EmptyString
  | S m => String "9" (nines m)
  end.

Definition card_overlong : Bs4.soup :=
  card "https://scontent.example/yacht.jpg" "Yacht" ("$" ++ nines 4301)
       "/marketplace/item/13" "Toronto, ON".

(* ===================================================================== *)
(** ** Strings over all of Unicode *)
(* ===================================================================== *)

(** A [Listing] handed to [listings_to_json] holds any strings, not only
    those of the pages modelled above.  Such a string is here the list of its
    code points, each below U+110000; [of_string] gives the strings with code
    points below U+0100 their place among them.  A code point from U+D800 to
    U+DFFF, a surrogate, is a character of a Python string like any other. *)
Module Unicode.

Definition str : Type := list N.

Definition of_string (s : string) : str := map Py.ord (list_ascii_of_string s).

Definition is_code_point (c : N) : bool := (c <? 0x110000)%N.

Definition is_high_surrogate (c : N) : bool := ((0xD800 <=? c) && (c <=? 0xDBFF))%N.

Definition is_low_surrogate (c : N) : bool := ((0xDC00 <=? c) && (c <=? 0xDFFF))%N.

Fixpoint eqb (a b : str) : bool :=
  match a, b with
  | [], [] => true
  | x :: a', y :: b' => (x =? y)%N && eqb a' b'
  | _, _ => false
  end.

End Unicode.

(* ===================================================================== *)
(** ** The part of the [json] module the program uses, and its reader *)
(* ===================================================================== *)

Module Json.

#[local] Set Warnings "-register-all".

Definition QUOTE : ascii := "034"%char.
Definition NEWLINE : ascii := "010"%char.

(** What [json.dumps] accepts here and what [json.loads] returns: [None],
    booleans, integers, strings, lists, and dicts with string keys in
    insertion order.  A number with a fraction or an exponent is kept as the
    text the reader saw. *)
Inductive value : Type :=
| Null
| Bool (b : bool)
| Int (n : Z)
| Float (literal : string)
| Str (s : Unicode.str)
| List (items : list value)
| Dict (items : list (Unicode.str * value)).

(** *** Encoder: [json.dumps(obj, indent=n)] with the default
    [ensure_ascii=True], whose output is ASCII *)

(** ['{0:04x}'.format(n)] for [n] below 0x10000. *)
Definition hex4 (n : N) : string :=
  String (Py.hex_digit (n / 4096 mod 16))
    (String (Py.hex_digit (n / 256 mod 16))
       (String (Py.hex_digit (n / 16 mod 16))
          (String (Py.hex_digit (n mod 16)) ""))).

(** [ESCAPE_DCT] and the fallback of [encode_basestring_ascii]: a backslash
    escape for the quote, the backslash and five control characters; any
    other character outside [' '..'~'] as [\uXXXX], and from U+10000 on as the
    two escapes of its surrogate pair.  The shifts and masks of the source are
    written as the divisions they are. *)
Definition escape_char (c : N) : string :=
  (if c =? 92 then "\\"
   else if c =? 34 then String "\" (String QUOTE "")
   else if c =? 8 then "\b"
   else if c =? 12 then "\f"
   else if c =? 10 then "\n"
   else if c =? 13 then "\r"
   else if c =? 9 then "\t"
   else if (32 <=? c) && (c <=? 126) then String (ascii_of_N c) ""
   else if c <? 0x10000 then "\u" ++ hex4 c
   else let v := c - 0x10000 in
        "\u" ++ hex4 (0xD800 + v / 1024) ++ "\u" ++ hex4 (0xDC00 + v mod 1024))%N.

Fixpoint escape (s : Unicode.str) : string :=
  match s with
  | [] => EmptyString
  | c :: r => escape_char c ++ escape r
  end.

Definition encode_basestring_ascii (s : Unicode.str) : string :=
  String QUOTE (escape s ++ String QUOTE "").

Fixpoint spaces (n : nat) : string :=
  match n with
  | O => EmptyString
  | S m => String " " (spaces m)
  end.

(** ['\n' + _indent * _current_indent_level] *)
Definition newline_indent (indent level : nat) : string :=
  String NEWLINE (spaces (indent * level)).

(** [_iterencode] at indent level [level], its chunks joined.  An integer is
    written by [int.__repr__], which raises when it has more digits than the
    limit; the first that does ends the encoding. *)
Fixpoint encode (indent level : nat) (v : value) {struct v} : result string :=
  match v with
  | Null => Return "null"
  | Bool true => Return "true"
  | Bool false => Return "false"
  | Int n => Py.str n
  | Float literal => Return literal
  | Str s => Return (encode_basestring_ascii s)
  | List items =>
      match items with
      | [] => Return "[]"
      | _ :: _ =>
          chunks <- sequence (map (encode indent (S level)) items) ;;
          Return ("[" ++ newline_indent indent (S level)
                  ++ Py.join ("," ++ newline_indent indent (S level)) chunks
                  ++ newline_indent indent level ++ "]")
      end
  | Dict items =>
      match items with
      | [] => Return "{}"
      | _ :: _ =>
          chunks <- sequence
                      (map (fun '(k, x) =>
                              chunk <- encode indent (S level) x ;;
                              Return (encode_basestring_ascii k ++ ": " ++ chunk))
                           items) ;;
          Return ("{" ++ newline_indent indent (S level)
                  ++ Py.join ("," ++ newline_indent indent (S level)) chunks
                  ++ newline_indent indent level ++ "}")
      end
  end.

Definition dumps (obj : value) (indent : nat) : result string :=
  encode indent 0 obj.

(** *** Reader: [json.loads], on a text with characters below U+0100 *)

(** [WHITESPACE]: space, tab, line feed, carriage return. *)
Definition is_ws (c : ascii) : bool :=
  let n := Py.ord c in
  ((n =? 32) || (n =? 9) || (n =? 10) || (n =? 13))%N.

Fixpoint skip_ws (s : string) : string :=
  match s with
  | EmptyString => EmptyString
  | String c r => if is_ws c then skip_ws r else s
  end.

Definition hex_value (c : ascii) : option N :=
  let n := Py.ord c in
  if ((48 <=? n) && (n <=? 57))%N then Some (n - 48)%N
  else if ((97 <=? n) && (n <=? 102))%N then Some (n - 87)%N
  else if ((65 <=? n) && (n <=? 70))%N then Some (n - 55)%N
  else None.

(** The four hex digits of a [\uXXXX] escape. *)
Definition hex4_value (a b c d : ascii) : option N :=
  match hex_value a, hex_value b, hex_value c, hex_value d with
  | Some x, Some y, Some z, Some w => Some (((x * 16 + y) * 16 + z) * 16 + w)%N
  | _, _, _, _ => None
  end.

(** [Py_UNICODE_JOIN_SURROGATES] *)
Definition join_surrogates (high low : N) : N :=
  (0x10000 + ((high - 0xD800) * 1024 + (low - 0xDC00)))%N.

(** [BACKSLASH]: the one-letter escapes. *)
Definition simple_escape (e : ascii) : option N :=
  let n := Py.ord e in
  if (n =? 34)%N then Some 34%N
  else if (n =? 92)%N then Some 92%N
  else if (n =? 47)%N then Some 47%N
  else if (n =? 98)%N then Some 8%N
  else if (n =? 102)%N then Some 12%N
  else if (n =? 110)%N then Some 10%N
  else if (n =? 114)%N then Some 13%N
  else if (n =? 116)%N then Some 9%N
  else None.

Definition cons_char (c : N) (r : option (Unicode.str * string))
  : option (Unicode.str * string) :=
  match r with
  | Some (s, rest) => Some (c :: s, rest)
  | None => None
  end.

(** [scanstring] in strict mode, from just after the opening quote: the
    decoded string and what follows the closing quote.  After the escape of a
    high surrogate a second [\u] escape is read at once: when it is that of a
    low surrogate the two make one character, otherwise the second is read
    again as an escape of its own. *)
Fixpoint scanstring (s : string) : option (Unicode.str * string) :=
  match s with
  | EmptyString => None
  | String c r =>
      if Ascii.eqb c QUOTE then Some ([], r)
      else if Ascii.eqb c "\" then
        match r with
        | EmptyString => None
        | String e r1 =>
            if Ascii.eqb e "u" then
              match r1 with
              | String h1 (String h2 (String h3 (String h4 r2))) =>
                  match hex4_value h1 h2 h3 h4 with
                  | None => None
                  | Some u =>
                      if Unicode.is_high_surrogate u then
                        match r2 with
                        | String b (String e2 r3) =>
                            if Ascii.eqb b "\" && Ascii.eqb e2 "u" then
                              match r3 with
                              | String k1 (String k2 (String k3 (String k4 r4))) =>
                                  match hex4_value k1 k2 k3 k4 with
                                  | None => None
                                  | Some u2 =>
                                      if Unicode.is_low_surrogate u2
                                      then cons_char (join_surrogates u u2)
                                                     (scanstring r4)
                                      else cons_char u (scanstring r2)
                                  end
                              | _ => None
                              end
                            else cons_char u (scanstring r2)
                        | _ => cons_char u (scanstring r2)
                        end
                      else cons_char u (scanstring r2)
                  end
              | _ => None
              end
            else
              match simple_escape e with
              | Some ch => cons_char ch (scanstring r1)
              | None => None
              end
        end
      else if (Py.ord c <? 32)%N then None
      else cons_char (Py.ord c) (scanstring r)
  end.

Fixpoint span_decimal (s : string) : string * string :=
  match s with
  | EmptyString => (EmptyString, EmptyString)
  | String c r =>
      if Py.isdecimal c
      then let '(d, rest) := span_decimal r in (String c d, rest)
      else (EmptyString, s)
  end.

(** The fraction of [NUMBER_RE], when present: a dot and at least one digit. *)
Definition take_fraction (s : string) : string * string :=
  match s with
  | String c r =>
      if Ascii.eqb c "." then
        match span_decimal r with
        | (EmptyString, _) => (EmptyString, s)
        | (d, rest) => (String c d, rest)
        end
      else (EmptyString, s)
  | EmptyString => (EmptyString, s)
  end.

(** The exponent of [NUMBER_RE], when present: e or E, an optional sign and
    at least one digit. *)
Definition take_exponent (s : string) : string * string :=
  match s with
  | String c r =>
      if Ascii.eqb c "e" || Ascii.eqb c "E" then
        let '(sign, r1) :=
          match r with
          | String g r' =>
              if Ascii.eqb g "-" || Ascii.eqb g "+" then (String g "", r') else ("", r)
          | EmptyString => ("", r)
          end in
        match span_decimal r1 with
        | (EmptyString, _) => (EmptyString, s)
        | (d, rest) => (String c (sign ++ d), rest)
        end
      else (EmptyString, s)
  | EmptyString => (EmptyString, s)
  end.

(** The integer part of [NUMBER_RE]: an optional minus sign, then a single
    zero or a run of digits that does not start with zero. *)
Definition take_integer (s : string) : option (string * string) :=
  let '(sign, s1) :=
    match s with
    | String c r => if Ascii.eqb c "-" then (String c "", r) else ("", s)
    | EmptyString => ("", s)
    end in
  match s1 with
  | String c r =>
      if Ascii.eqb c "0" then Some (sign ++ "0", r)
      else if Py.isdecimal c then
             let '(d, rest) := span_decimal s1 in Some (sign ++ d, rest)
           else None
  | EmptyString => None
  end.

(** A number: an [int] unless it has a fraction or an exponent.  The reader
    raises what [int] raises, on more digits than the limit. *)
Definition parse_number (s : string) : option (value * string) :=
  match take_integer s with
  | None => None
  | Some (integer, r1) =>
      let '(frac, r2) := take_fraction r1 in
      let '(exp, r3) := take_exponent r2 in
      if Py.truthy frac || Py.truthy exp
      then Some (Float (integer ++ frac ++ exp), r3)
      else match Py.int integer with
           | Return n => Some (Int n, r3)
           | Raise _ => None
           end
  end.

(** [d[k] = v] on a dict in insertion order. *)
Fixpoint dict_set (k : Unicode.str) (v : value) (d : list (Unicode.str * value))
  : list (Unicode.str * value) :=
  match d with
  | [] => [(k, v)]
  | (k', v') :: r =>
      if Unicode.eqb k' k then (k', v) :: r else (k', v') :: dict_set k v r
  end.

(** What [scan_once] tries on a text that opens neither a string, an object
    nor an array: the three constants, then a number, then the names of the
    floats that are no numbers. *)
Definition scan_literal (s : string) : option (value * string) :=
  match Py.strip_prefix "null" s with
  | Some rest => Some (Null, rest)
  | None =>
      match Py.strip_prefix "true" s with
      | Some rest => Some (Bool true, rest)
      | None =>
          match Py.strip_prefix "false" s with
          | Some rest => Some (Bool false, rest)
          | None =>
              match parse_number s with
              | Some r => Some r
              | None =>
                  match Py.strip_prefix "NaN" s with
                  | Some rest => Some (Float "NaN", rest)
                  | None =>
                      match Py.strip_prefix "Infinity" s with
                      | Some rest => Some (Float "Infinity", rest)
                      | None =>
                          match Py.strip_prefix "-Infinity" s with
                          | Some rest => Some (Float "-Infinity", rest)
                          | None => None
                          end
                      end
                  end
              end
          end
      end
  end.

(** [scan_once], [JSONArray] and [JSONObject]; [None] when the reader raises.
    [fuel] bounds the depth of the calls; [loads] gives the length of the
    text, which is enough for every text the encoder writes ([size_le_length]
    below). *)
Fixpoint parse_value (fuel : nat) (s : string) {struct fuel}
  : option (value * string) :=
  match fuel with
  | O => None
  | S fuel' =>
      match s with
      | EmptyString => None
      | String c r =>
          if Ascii.eqb c QUOTE then
            match scanstring r with
            | Some (str, rest) => Some (Str str, rest)
            | None => None
            end
          else if Ascii.eqb c "{" then
            match skip_ws r with
            | EmptyString => None
            | String c1 r1 =>
                if Ascii.eqb c1 "}" then Some (Dict [], r1)
                else parse_members fuel' [] (String c1 r1)
            end
          else if Ascii.eqb c "[" then
            match skip_ws r with
            | EmptyString => None
            | String c1 r1 =>
                if Ascii.eqb c1 "]" then Some (List [], r1)
                else parse_items fuel' [] (String c1 r1)
            end
          else scan_literal s
      end
  end

with parse_items (fuel : nat) (acc : list value) (s : string) {struct fuel}
  : option (value * string) :=
  match fuel with
  | O => None
  | S fuel' =>
      match parse_value fuel' s with
      | None => None
      | Some (v, rest) =>
          match skip_ws rest with
          | EmptyString => None
          | String c r =>
              if Ascii.eqb c "," then parse_items fuel' (acc ++ [v])%list (skip_ws r)
              else if Ascii.eqb c "]" then Some (List (acc ++ [v])%list, r)
              else None
          end
      end
  end

with parse_members (fuel : nat) (acc : list (Unicode.str * value)) (s : string)
       {struct fuel} : option (value * string) :=
  match fuel with
  | O => None
  | S fuel' =>
      match s with
      | EmptyString => None
      | String c r =>
          if Ascii.eqb c QUOTE then
            match scanstring r with
            | None => None
            | Some (key, rest) =>
                match skip_ws rest with
                | EmptyString => None
                | String c1 r1 =>
                    if Ascii.eqb c1 ":" then
                      match parse_value fuel' (skip_ws r1) with
                      | None => None
                      | Some (v, rest1) =>
                          match skip_ws rest1 with
                          | EmptyString => None
                          | String c2 r2 =>
                              if Ascii.eqb c2 "," then
                                parse_members fuel' (dict_set key v acc) (skip_ws r2)
                              else if Ascii.eqb c2 "}" then
                                Some (Dict (dict_set key v acc), r2)
                              else None
                          end
                      end
                    else None
                end
            end
          else None
      end
  end.

(** [json.loads(s)]: one value, whitespace allowed around it, nothing else;
    [None] when it raises. *)
Definition loads (s : string) : option value :=
  match parse_value (S (String.length s)) (skip_ws s) with
  | Some (v, rest) =>
      match skip_ws rest with
      | EmptyString => Some v
      | String _ _ => None
      end
  | None => None
  end.

End Json.

(* ===================================================================== *)
(** ** Record serialization ([main.py]) *)
(* ===================================================================== *)

(** A [Listing] as [listings_to_json] may be given one: the fields of the
    dataclass with strings over all of Unicode.  [widen] is the listing the
    extraction built, as such an object. *)
Record WideListing : Type := mkWideListing {
  wide_image_url : Unicode.str;
  wide_title : Unicode.str;
  wide_price : Z;
  wide_post_url : Unicode.str;
  wide_location : Unicode.str;
  wide_description : option Unicode.str
}.

Definition widen (listing : Listing) : WideListing :=
  mkWideListing (Unicode.of_string (image_url listing))
                (Unicode.of_string (title listing))
                (price listing)
                (Unicode.of_string (post_url listing))
                (Unicode.of_string (location listing))
                (option_map Unicode.of_string (description listing)).

(** [listing.__dict__]: the fields in declaration order. *)
Definition __dict__ (listing : WideListing) : Json.value :=
  Json.Dict
    [ (Unicode.of_string "image_url", Json.Str (wide_image_url listing));
      (Unicode.of_string "title", Json.Str (wide_title listing));
      (Unicode.of_string "price", Json.Int (wide_price listing));
      (Unicode.of_string "post_url", Json.Str (wide_post_url listing));
      (Unicode.of_string "location", Json.Str (wide_location listing));
      (Unicode.of_string "description",
       match wide_description listing with
       | Some d => Json.Str d
       | None => Json.Null
       end) ].

(** [json.dumps([listing.__dict__ for listing in listings], indent=4)] *)
Definition listings_to_json (listings : list WideListing) : result string :=
  Json.dumps (Json.List (map __dict__ listings)) 4.

(** Two sample listings.  The title of the first is
    the two surrogates U+D83D and U+DEB2: it is written as two escapes and
    read back as the one character U+1F6B2.  The price of the second is
    10^4300, of 4301 digits: [json.dumps] raises. *)
Definition surrogate_listing : WideListing :=
  mkWideListing (Unicode.of_string "https://scontent.example/bike.jpg")
                [0xD83D; 0xDEB2]%N 500
                (Unicode.of_string "https://www.facebook.com/marketplace/item/42")
                (Unicode.of_string "Toronto, ON") None.

Definition overpriced_listing : WideListing :=
  mkWideListing (Unicode.of_string "https://scontent.example/bike.jpg")
                (Unicode.of_string "Mountain bike") (10 ^ 4300)
                (Unicode.of_string "https://www.facebook.com/marketplace/item/42")
                (Unicode.of_string "Toronto, ON") None.

(* ===================================================================== *)
(** ** The rest of [main.py]: printing, search address, session passes *)
(* ===================================================================== *)


(** [create_marketplace_url]: the arguments are pasted into the address as
    they are; a bound is written when it [is not None], zero included.  A
    bound is the caller's own number and is written by its decimal digits;
    the limit of [Py.str] on their number is left out here. *)
Definition create_marketplace_url (city query : string)
           (max_price min_price : option Z) (exact : bool) : string :=
  let url := "https://www.facebook.com/marketplace/" ++ city
             ++ "/search?query=" ++ query in
  let url := match max_price with
             | Some m => url ++ "&maxPrice=" ++ Py.str_of_int m
             | None => url
             end in
  let url := match min_price with
             | Some m => url ++ "&minPrice=" ++ Py.str_of_int m
             | None => url
             end in
  if negb exact then url ++ "&exact=false" else url.

(** The check at import: [if not email or not password: raise
    CredentialsError(...)], on the two values [os.getenv] returned. *)
Definition check_credentials (email password : option string)
  : result (string * string) :=
  if negb (truthy_str email) || negb (truthy_str password)
  then Raise (CredentialsError
                "Facebook email and password must be set as environment variables.")
  else
    match email, password with
    | Some e, Some p => Return (e, p)
    | _, _ => Raise (CredentialsError
                       "Facebook email and password must be set as environment variables.")
    end.

(** What one browser session answers.  [session_login] is [open_browser]
    followed by [login_to_facebook]; [listings_on url] is [page.goto(url)]
    followed by the inner HTML of the nodes under [LISTINGS_SELECTOR], as
    trees; [description_at n url] is the [n]-th [page.goto] of a pass, to
    [url], followed by the inner text under [DESCRIPTION_SELECTOR].  Each may
    raise, and nothing in [main.py] catches what they raise. *)
Record Session : Type := mkSession {
  session_login : result unit;
  listings_on : string -> result (list Bs4.soup);
  description_at : nat -> string -> result string
}.

(** [fetch_marketplace_listings(city, query, max_price, min_price,
    max_listings)] in a session: the address is built with [exact] left at
    [False], and the fragments found there go through the extraction loop. *)
Definition fetch_in_session (session : Session) (city query : string)
           (max_price min_price : option Z) (max_listings : Z)
  : result (list Listing) :=
  let marketplace_url := create_marketplace_url city query max_price min_price false in
  _ <- session_login session ;;
  page <- listings_on session marketplace_url ;;
  fetch_marketplace_listings page max_listings.

(** [Listing] objects are mutable and passed by reference: a heap gives the
    object at each address, and a Python list of listings is a list of
    addresses. *)
Definition heap : Type := nat -> Listing.

(** [listing.description = description] on the object at [address]. *)
Definition set_description (h : heap) (address : nat) (text : string) : heap :=
  fun a =>
    if Nat.eqb a address
    then mkListing (image_url (h a)) (title (h a)) (price (h a))
                   (post_url (h a)) (location (h a)) (Some text)
    else h a.

(** The loop of [get_descriptions]: the objects are visited in list order;
    [visit] counts the navigations of the pass.  The heap comes back as the
    loop left it, also when a navigation raised. *)
Fixpoint describe_each (session : Session) (visit : nat) (h : heap)
         (listings : list nat) : heap * result unit :=
  match listings with
  | [] => (h, Return tt)
  | listing :: rest =>
      match description_at session visit (post_url (h listing)) with
      | Return text =>
          describe_each session (S visit) (set_description h listing text) rest
      | Raise e => (h, Raise e)
      end
  end.

Definition get_descriptions (session : Session) (h : heap) (listings : list nat)
  : heap * result unit :=
  match session_login session with
  | Return _ => describe_each session 0 h listings
  | Raise e => (h, Raise e)
  end.

(** The objects a fresh list of listings occupies: the [i]-th at address
    [i]. *)
Definition allocate (listings : list Listing) : heap :=
  fun a => nth a listings (mkListing "" "" 0 "" "" None).

(** The script: the credentials check, then the fixed search in a first
    session, the descriptions in a second one, and the text written to the
    output file. *)
Definition main (email password : option string) (first second : Session)
  : result string :=
  _ <- check_credentials email password ;;
  scraped_listings <- fetch_in_session first "toronto" "mountain bike"
                        (Some 500%Z) None 15 ;;
  let addresses := seq 0 (List.length scraped_listings) in
  let '(h, outcome) := get_descriptions second (allocate scraped_listings) addresses in
  _ <- outcome ;;
  listings_to_json (map widen (map h addresses)).

(** Sample sessions.  The first shows three cards, the second without a
    price, and a description for every address.  The second raises on its
    second navigation of a pass; the class of what a session raises plays no
    part in the program, which catches none of it. *)
Definition sample_session : Session :=
  mkSession (Return tt)
            (fun _ => Return [card_500; card_without_price; card_500])
            (fun _ address => Return ("Seen at " ++ address)).

Definition stalling_session : Session :=
  mkSession (Return tt)
            (fun _ => Return [card_500; card_500])
            (fun n address =>
               if Nat.eqb n 1 then Raise (ValueError "Timeout 30000ms exceeded.")
               else Return ("Seen at " ++ address)).

(* ===================================================================== *)
(** ** Vocabulary of the statements *)
(* ===================================================================== *)

(** The characters of [s] that satisfy [p], in order. *)
Fixpoint keep (p : ascii -> bool) (s : string) : string :=
  match s with
  | EmptyString => EmptyString
  | String c r => if p c then String c (keep p r) else keep p r
  end.

(** [c] occurs in [s]. *)
Fixpoint occurs (c : ascii) (s : string) : Prop :=
  match s with
  | EmptyString => False
  | String d r => c = d \/ occurs c r
  end.

(** [key] is a contiguous run of [s]. *)
Definition substring_of (key s : string) : Prop :=
  exists pre post, s = pre ++ key ++ post.

(** The number a string of decimal digits denotes, most significant first. *)
Fixpoint horner (acc : Z) (s : string) : Z :=
  match s with
  | EmptyString => acc
  | String c r => horner (10 * acc + Py.digit_value c) r
  end.

Definition decimal_value (s : string) : Z := horner 0 s.

(** The number of decimal digits [s] starts with. *)
Fixpoint leading_decimals (s : string) : N :=
  match s with
  | EmptyString => 0
  | String c r => if Py.isdecimal c then 1 + leading_decimals r else 0
  end%N.

(** What [url.split('?', 1)[0]] is: [url] up to its first question mark. *)
Definition before_question (url : string) : string :=
  match Py.find_cut "?" url with
  | Some (a, _) => a
  | None => url
  end.

(** A text after which a number cannot go on. *)
Definition number_stop (rest : string) : bool :=
  match rest with
  | EmptyString => true
  | String c _ =>
      negb (Py.isdecimal c || Ascii.eqb c "." || Ascii.eqb c "e" || Ascii.eqb c "E")
  end.

(** The number of digits of an integer. *)
Definition digits_of (n : Z) : nat := String.length (Py.str_of_int (Z.abs n)).

(** A high surrogate directly followed by a low one. *)
Fixpoint has_surrogate_pair (s : Unicode.str) : bool :=
  match s with
  | [] => false
  | a :: r =>
      match r with
      | b :: _ => Unicode.is_high_surrogate a && Unicode.is_low_surrogate b
      | [] => false
      end
      || has_surrogate_pair r
  end.

(** A string of code points that reads back as itself: no surrogate pair
    written as two characters. *)
Definition plain (s : Unicode.str) : Prop :=
  Forall (fun c => Unicode.is_code_point c = true) s
  /\ has_surrogate_pair s = false.

(** Values the round trip covers: integers within the limit on digits, plain
    strings and keys, no number kept as text, and no key twice in a dict. *)
Fixpoint wf (v : Json.value) : Prop :=
  match v with
  | Json.Int n => digits_of n <= 4300
  | Json.Float _ => False
  | Json.Str s => plain s
  | Json.List items => fold_right (fun x P => wf x /\ P) True items
  | Json.Dict items =>
      NoDup (map fst items)
      /\ fold_right (fun kv P => (plain (fst kv) /\ wf (snd kv)) /\ P) True items
  | _ => True
  end.

(** The text the encoder writes for a value it accepts. *)
Fixpoint text_of (indent level : nat) (v : Json.value) {struct v} : string :=
  match v with
  | Json.Null => "null"
  | Json.Bool true => "true"
  | Json.Bool false => "false"
  | Json.Int n => Py.str_of_int n
  | Json.Float literal => literal
  | Json.Str s => Json.encode_basestring_ascii s
  | Json.List items =>
      match items with
      | [] => "[]"
      | _ :: _ =>
          "[" ++ Json.newline_indent indent (S level)
          ++ Py.join ("," ++ Json.newline_indent indent (S level))
               (map (text_of indent (S level)) items)
          ++ Json.newline_indent indent level ++ "]"
      end
  | Json.Dict items =>
      match items with
      | [] => "{}"
      | _ :: _ =>
          "{" ++ Json.newline_indent indent (S level)
          ++ Py.join ("," ++ Json.newline_indent indent (S level))
               (map (fun '(k, x) =>
                       Json.encode_basestring_ascii k ++ ": "
                       ++ text_of indent (S level) x)
                    items)
          ++ Json.newline_indent indent level ++ "}"
      end
  end.

(** The depth of calls reading [v] takes. *)
Fixpoint size (v : Json.value) : nat :=
  match v with
  | Json.List items => S (fold_right (fun x n => S (size x) + n) 0 items)
  | Json.Dict items => S (fold_right (fun kv n => S (size (snd kv)) + n) 0 items)
  | _ => 1
  end.

(** A character a value may start with: not whitespace, not a closing
    bracket. *)
Definition opens_value (c : ascii) : bool :=
  negb (Json.is_ws c) && negb (Ascii.eqb c "]") && negb (Ascii.eqb c "}").

Definition head_opens (s : string) : Prop :=
  exists c r, s = String c r /\ opens_value c = true.

(** What reading [v] back means: with enough fuel, and before any text a
    number cannot run into, the reader returns [v] and that text. *)
Definition reads_back (v : Json.value) : Prop :=
  forall indent level fuel rest,
    size v <= fuel ->
    number_stop rest = true ->
    Json.parse_value fuel (text_of indent level v ++ rest) = Some (v, rest).

Definition sum_sizes (items : list Json.value) : nat :=
  fold_right (fun x n => S (size x) + n) 0 items.

Definition encode_member (indent level : nat) (kv : Unicode.str * Json.value)
  : string :=
  let '(k, x) := kv in
  Json.encode_basestring_ascii k ++ ": " ++ text_of indent level x.

Definition sum_member_sizes (items : list (Unicode.str * Json.value)) : nat :=
  fold_right (fun kv n => S (size (snd kv)) + n) 0 items.

(** What the reader may find after the escape of a high surrogate without
    joining the two: anything but the escape of a low surrogate. *)
Definition no_low_escape (tail : string) : Prop :=
  match tail with
  | String b (String e2 r3) =>
      if Ascii.eqb b "\" && Ascii.eqb e2 "u" then
        match r3 with
        | String k1 (String k2 (String k3 (String k4 _))) =>
            match Json.hex4_value k1 k2 k3 k4 with
            | Some u2 => Unicode.is_low_surrogate u2 = false
            | None => False
            end
        | _ => False
        end
      else True
  | _ => True
  end.

(** The mapping a listing reads back as. *)
Definition mapping_of (listing : WideListing) : list (Unicode.str * Json.value) :=
  [ (Unicode.of_string "image_url", Json.Str (wide_image_url listing));
    (Unicode.of_string "title", Json.Str (wide_title listing));
    (Unicode.of_string "price", Json.Int (wide_price listing));
    (Unicode.of_string "post_url", Json.Str (wide_post_url listing));
    (Unicode.of_string "location", Json.Str (wide_location listing));
    (Unicode.of_string "description",
     match wide_description listing with
     | Some d => Json.Str d
     | None => Json.Null
     end) ].

(** The listings whose serialization reads back as they are. *)
Definition serializable (listing : WideListing) : Prop :=
  plain (wide_image_url listing) /\ plain (wide_title listing)
  /\ digits_of (wide_price listing) <= 4300
  /\ plain (wide_post_url listing) /\ plain (wide_location listing)
  /\ match wide_description listing with
     | Some d => plain d
     | None => True
     end.

(** What the lookups of a fragment yield. *)
Definition found_attr (sel key : string) (soup : Bs4.soup) : option string :=
  match Bs4.select_one sel soup with
  | Some (Bs4.Tag _ attrs _) => Bs4.lookup key attrs
  | _ => None
  end.

Definition found_text (sel : string) (soup : Bs4.soup) : option string :=
  match Bs4.select_one sel soup with
  | Some t => Some (Py.strip (Bs4.text t))
  | None => None
  end.

Definition price_of (price_text : option string) : result (option Z) :=
  match price_text with
  | Some p => if Py.truthy p
              then n <- convert_price_to_int p ;; Return (Some n)
              else Return None
  | None => Return None
  end.

Definition link_of (href : option string) : option string :=
  match href with
  | Some l => if Py.truthy l then Some (ORIGIN ++ before_question l) else None
  | None => None
  end.

Definition assemble (image title : option string) (price : option Z)
           (link location : option string) : result Listing :=
  if negb (forallb (fun b : bool => b)
             [ truthy_str image; truthy_str title; truthy_int price;
               truthy_str link; truthy_str location ])
  then Raise (ParseError "Failed to parse listing.")
  else
    match image, title, price, link, location with
    | Some i, Some t, Some p, Some l, Some loc =>
        Return (mkListing i t p l loc None)
    | _, _, _, _, _ => Raise (ParseError "Failed to parse listing.")
    end.

(** What a fragment adds to the result of the loop, and the exception of its
    extraction that the loop does not catch. *)
Definition extracted (fragment : Bs4.soup) : list Listing :=
  match parse_listing_with_soup fragment with
  | Return listing => [listing]
  | Raise _ => []
  end.

Definition uncaught (fragment : Bs4.soup) : option exn :=
  match parse_listing_with_soup fragment with
  | Return _ => None
  | Raise e => if is_ParseError e then None else Some e
  end.

(** The data-model invariant of a listing as extraction leaves it. *)
Definition valid_listing (listing : Listing) : Prop :=
  image_url listing <> "" /\ title listing <> "" /\ (0 < price listing)%Z
  /\ post_url listing <> "" /\ location listing <> "".

(** The same five required fields. *)
Definition same_required_fields (a b : Listing) : Prop :=
  image_url a = image_url b /\ title a = title b /\ price a = price b
  /\ post_url a = post_url b /\ location a = location b.

(* ===================================================================== *)
(** * Properties *)
(* ===================================================================== *)

(** ** Strings *)

Ltac ascii_cases c :=
  destruct c as [[|] [|] [|] [|] [|] [|] [|] [|]].

Lemma append_empty_r (s : string) : s ++ "" = s.
Proof. induction s as [|c r IH]; simpl; [reflexivity | now rewrite IH]. Qed.

Lemma append_assoc (a b c : string) : (a ++ b) ++ c = a ++ (b ++ c).
Proof. induction a as [|x a IH]; simpl; [reflexivity | now rewrite IH]. Qed.

Lemma concat_empty_cons (x : string) (xs : list string) :
  String.concat "" (x :: xs) = x ++ String.concat "" xs.
Proof.
  destruct xs as [|y ys]; simpl; [now rewrite append_empty_r | reflexivity].
Qed.

Lemma strip_prefix_some (p s rest : string) :
  Py.strip_prefix p s = Some rest <-> s = p ++ rest.
Proof.
  revert s; induction p as [|a p IH]; intros s; simpl.
  - split; [now intros [= ->] | now intros ->].
  - destruct s as [|b s].
    + split; discriminate.
    + destruct (Ascii.eqb_spec a b) as [->|Hne].
      * rewrite IH. split; [now intros -> | now intros [= ->]].
      * split; [discriminate | intros [= E _]; now elim Hne].
Qed.

Lemma contains_spec (key s : string) :
  Py.contains key s = true <-> substring_of key s.
Proof.
  unfold substring_of. induction s as [|c r IH].
  - simpl. destruct (Py.strip_prefix key "") as [rest|] eqn:E.
    + apply strip_prefix_some in E. split; [|reflexivity].
      intros _. exists "", rest. exact E.
    + split; [discriminate|]. intros (pre & post & H).
      destruct pre; simpl in H.
      * apply strip_prefix_some in H. congruence.
      * discriminate.
  - cbn [Py.contains]. destruct (Py.strip_prefix key (String c r)) as [rest|] eqn:E.
    + apply strip_prefix_some in E. split; [|reflexivity].
      intros _. exists "", rest. exact E.
    + rewrite IH. split.
      * intros (pre & post & ->). now exists (String c pre), post.
      * intros (pre & post & H). destruct pre as [|d pre]; simpl in H.
        -- apply strip_prefix_some in H. congruence.
        -- injection H as _ ->. now exists pre, post.
Qed.

Lemma contains_false (key s : string) :
  Py.contains key s = false <-> ~ substring_of key s.
Proof.
  rewrite <- contains_spec. destruct (Py.contains key s); split; congruence.
Qed.

Lemma existsb_eqb_In (x : string) (l : list string) :
  existsb (String.eqb x) l = true <-> In x l.
Proof.
  rewrite existsb_exists. split.
  - intros (y & Hin & E). apply String.eqb_eq in E. now subst.
  - intros Hin. exists x. split; [exact Hin | apply String.eqb_refl].
Qed.

(** ** Splitting at the first question mark *)

Lemma find_cut_question_some (s a b : string) :
  Py.find_cut "?" s = Some (a, b) -> s = a ++ "?" ++ b /\ ~ occurs "?" a.
Proof.
  revert a b; induction s as [|c r IH]; intros a b;
    cbn [Py.find_cut Py.strip_prefix].
  - discriminate.
  - destruct (Ascii.eqb_spec "?"%char c) as [<-|Hne].
    + intros [= <- <-]. split; [reflexivity | intros []].
    + destruct (Py.find_cut "?" r) as [[a' b']|]; [|discriminate].
      intros [= <- <-]. destruct (IH a' b' eq_refl) as [-> Hno].
      split; [reflexivity|]. intros [E|H]; [now elim Hne | now elim Hno].
Qed.

Lemma find_cut_question_none (s : string) :
  Py.find_cut "?" s = None -> ~ occurs "?" s.
Proof.
  induction s as [|c r IH]; cbn [Py.find_cut Py.strip_prefix].
  - intros _ [].
  - destruct (Ascii.eqb_spec "?"%char c) as [<-|Hne]; [discriminate|].
    destruct (Py.find_cut "?" r) as [[a' b']|]; [discriminate|].
    intros _ [E|H]; [now elim Hne | now apply IH].
Qed.

Lemma find_cut_no_question (s : string) :
  ~ occurs "?" s -> Py.find_cut "?" s = None.
Proof.
  induction s as [|c r IH]; cbn [Py.find_cut Py.strip_prefix]; [reflexivity|].
  intros Hno.
  destruct (Ascii.eqb_spec "?"%char c) as [<-|Hne].
  - elim Hno. now left.
  - rewrite IH; [reflexivity|]. intros H. apply Hno. now right.
Qed.

Lemma clean_listing_url_eq (url : string) :
  clean_listing_url url = Return (ORIGIN ++ before_question url).
Proof.
  unfold clean_listing_url, before_question, Py.split. cbn.
  destruct (Py.find_cut "?" url) as [[a b]|]; reflexivity.
Qed.

Lemma before_question_spec (url : string) :
  exists rest,
    url = before_question url ++ rest
    /\ ~ occurs "?" (before_question url)
    /\ (rest = "" \/ exists tail, rest = String "?" tail).
Proof.
  unfold before_question.
  destruct (Py.find_cut "?" url) as [[a b]|] eqn:E.
  - apply find_cut_question_some in E as [-> Hno].
    exists ("?" ++ b). repeat split; [exact Hno | right; now exists b].
  - apply find_cut_question_none in E. exists "".
    rewrite append_empty_r. repeat split; [exact E | now left].
Qed.

Lemma before_question_origin (s : string) :
  before_question (ORIGIN ++ s) = ORIGIN ++ before_question s.
Proof.
  unfold before_question, ORIGIN. cbn.
  destruct (Py.find_cut "?" s) as [[a b]|]; reflexivity.
Qed.

Lemma before_question_idem (s : string) :
  before_question (before_question s) = before_question s.
Proof.
  destruct (before_question_spec s) as (rest & _ & Hno & _).
  unfold before_question at 1. now rewrite (find_cut_no_question _ Hno).
Qed.

Lemma append_length (a b : string) :
  String.length (a ++ b) = String.length a + String.length b.
Proof. induction a as [|c a IH]; simpl; [reflexivity | now rewrite IH]. Qed.

Lemma origin_append_neq (s : string) : ORIGIN ++ s <> s.
Proof.
  intros E. apply (f_equal String.length) in E.
  rewrite append_length in E. unfold ORIGIN in E. simpl in E. lia.
Qed.

(** ** Digits and [int] *)

Lemma isdigit_not_sign (c : ascii) :
  Py.isdigit c = true -> Ascii.eqb c "+" = false /\ Ascii.eqb c "-" = false.
Proof. ascii_cases c; vm_compute; intros; split; congruence. Qed.

Lemma isdigit_not_underscore (c : ascii) :
  Py.isdigit c = true -> Py.isdecimal c = false -> Ascii.eqb c "_" = false.
Proof. ascii_cases c; vm_compute; congruence. Qed.

Lemma isdecimal_isdigit (c : ascii) : Py.isdecimal c = true -> Py.isdigit c = true.
Proof. unfold Py.isdigit. now intros ->. Qed.

Lemma digit_value_range (c : ascii) :
  Py.isdecimal c = true -> (0 <= Py.digit_value c <= 9)%Z.
Proof.
  unfold Py.isdecimal, Py.digit_value. intros H.
  apply andb_true_iff in H as [H1 H2].
  apply N.leb_le in H1, H2. lia.
Qed.

Lemma join_filter_iter (s : string) :
  Py.join "" (filter Py.str_isdigit (Py.iter s)) = keep Py.isdigit s.
Proof.
  unfold Py.join. induction s as [|c r IH]; [reflexivity|].
  cbn [Py.iter filter keep].
  replace (Py.str_isdigit (String c "")) with (Py.isdigit c)
    by (unfold Py.str_isdigit; simpl; now rewrite andb_true_r).
  destruct (Py.isdigit c); [|exact IH].
  rewrite concat_empty_cons, IH. reflexivity.
Qed.

Lemma keep_all (p : ascii -> bool) (s : string) : Py.all_chars p (keep p s) = true.
Proof.
  induction s as [|c r IH]; [reflexivity|]. simpl.
  destruct (p c) eqn:E; [simpl; now rewrite E | exact IH].
Qed.

Lemma keep_id (p : ascii -> bool) (s : string) :
  Py.all_chars p s = true -> keep p s = s.
Proof.
  induction s as [|c r IH]; [reflexivity|]. simpl.
  intros H. apply andb_true_iff in H as [-> H]. now rewrite IH.
Qed.

Lemma all_chars_impl (p q : ascii -> bool) (s : string) :
  (forall c, p c = true -> q c = true) ->
  Py.all_chars p s = true -> Py.all_chars q s = true.
Proof.
  intros Hpq. induction s as [|c r IH]; [reflexivity|]. simpl.
  intros H. apply andb_true_iff in H as [Hc Hr].
  now rewrite (Hpq _ Hc), (IH Hr).
Qed.

Lemma literal_value_decimals (s : string) (acc : Z) :
  Py.all_chars Py.isdecimal s = true ->
  Py.literal_value true acc s = Some (horner acc s).
Proof.
  revert acc; induction s as [|c r IH]; intros acc; [reflexivity|]. simpl.
  intros H. apply andb_true_iff in H as [-> Hr]. now apply IH.
Qed.

Lemma literal_value_not_decimal (s : string) (b : bool) (acc : Z) :
  Py.all_chars Py.isdigit s = true ->
  Py.all_chars Py.isdecimal s = false ->
  Py.literal_value b acc s = None.
Proof.
  revert b acc; induction s as [|c r IH]; intros b acc; [discriminate|]. simpl.
  intros Hd Hn. apply andb_true_iff in Hd as [Hc Hr].
  destruct (Py.isdecimal c) eqn:E.
  - now apply IH.
  - now rewrite (isdigit_not_underscore c Hc E).
Qed.

Lemma isdigit_not_int_space (c : ascii) :
  Py.isdigit c = true -> Py.int_space c = false.
Proof. ascii_cases c; vm_compute; congruence. Qed.

Lemma rstrip_by_none (p : ascii -> bool) (s : string) :
  Py.all_chars (fun c => negb (p c)) s = true -> Py.rstrip_by p s = s.
Proof.
  induction s as [|c r IH]; [reflexivity|]. simpl.
  intros H. apply andb_true_iff in H as [Hc Hr]. rewrite (IH Hr).
  apply negb_true_iff in Hc. rewrite Hc. now destruct r.
Qed.

Lemma strip_by_none (p : ascii -> bool) (s : string) :
  Py.all_chars (fun c => negb (p c)) s = true ->
  Py.rstrip_by p (Py.lstrip_by p s) = s.
Proof.
  intros H.
  replace (Py.lstrip_by p s) with s; [now apply rstrip_by_none|].
  destruct s as [|c r]; [reflexivity|]. simpl in *.
  apply andb_true_iff in H as [Hc _]. apply negb_true_iff in Hc. now rewrite Hc.
Qed.

Lemma int_strip_digits (d : string) :
  Py.all_chars Py.isdigit d = true ->
  Py.rstrip_by Py.int_space (Py.lstrip_by Py.int_space d) = d.
Proof.
  intros Hd. apply strip_by_none.
  apply (all_chars_impl Py.isdigit); [|exact Hd].
  intros c Hc. now rewrite (isdigit_not_int_space c Hc).
Qed.

Lemma count_digits_of_digits (d : string) (k : N) :
  Py.all_chars Py.isdigit d = true ->
  Py.count_digits false k d = Some (k + leading_decimals d)%N.
Proof.
  revert k; induction d as [|c r IH]; intros k Hd.
  - cbn. now rewrite N.add_0_r.
  - cbn [Py.all_chars] in Hd. apply andb_true_iff in Hd as [Hc Hr].
    cbn [Py.count_digits leading_decimals].
    destruct (Py.isdecimal c) eqn:E.
    + rewrite (IH _ Hr). f_equal. lia.
    + rewrite (isdigit_not_underscore c Hc E). now rewrite N.add_0_r.
Qed.

Lemma leading_decimals_all (d : string) :
  Py.all_chars Py.isdecimal d = true ->
  leading_decimals d = N.of_nat (String.length d).
Proof.
  induction d as [|c r IH]; [reflexivity|].
  cbn [Py.all_chars leading_decimals String.length].
  intros H. apply andb_true_iff in H as [-> Hr]. rewrite (IH Hr). lia.
Qed.

(** [int] on a string made of digit characters only. *)
Lemma int_of_digits (d : string) :
  Py.all_chars Py.isdigit d = true ->
  Py.int d =
    if (Py.MAX_STR_DIGITS <? leading_decimals d)%N
    then Raise (Py.too_many_digits (leading_decimals d))
    else if Py.truthy d && Py.all_chars Py.isdecimal d
         then Return (decimal_value d)
         else Raise (Py.invalid_literal d).
Proof.
  intros Hd. unfold Py.int. rewrite (int_strip_digits d Hd).
  destruct d as [|c r]; [reflexivity|].
  pose proof Hd as Hd'. simpl in Hd'. apply andb_true_iff in Hd' as [Hc Hr].
  destruct (isdigit_not_sign c Hc) as [-> ->].
  assert (Ascii.eqb c "_" = false) as ->
    by (revert Hc; clear; ascii_cases c; vm_compute; congruence).
  rewrite (count_digits_of_digits _ 0 Hd). rewrite N.add_0_l.
  destruct (Py.MAX_STR_DIGITS <? leading_decimals (String c r))%N; [reflexivity|].
  cbn [Py.truthy andb].
  destruct (Py.all_chars Py.isdecimal (String c r)) eqn:E.
  - simpl in E. apply andb_true_iff in E as [Ec Er].
    cbn [Py.literal_value]. rewrite Ec.
    rewrite (literal_value_decimals r _ Er).
    unfold decimal_value. cbn [horner]. rewrite Z.mul_1_l. reflexivity.
  - now rewrite (literal_value_not_decimal _ false 0%Z Hd E).
Qed.

Lemma convert_price_to_int_eq (price : string) :
  convert_price_to_int price = Py.int (keep Py.isdigit price).
Proof. unfold convert_price_to_int. now rewrite join_filter_iter. Qed.

Lemma horner_nonneg (s : string) (acc : Z) :
  Py.all_chars Py.isdecimal s = true -> (0 <= acc)%Z -> (0 <= horner acc s)%Z.
Proof.
  revert acc; induction s as [|c r IH]; intros acc; [now simpl|].
  cbn [horner Py.all_chars].
  intros H Hacc. apply andb_true_iff in H as [Hc Hr].
  apply IH; [exact Hr|]. pose proof (digit_value_range c Hc). lia.
Qed.

(** Every outcome of [convert_price_to_int]. *)
Lemma convert_price_to_int_cases (price : string) :
  let digits := keep Py.isdigit price in
  convert_price_to_int price =
    if (Py.MAX_STR_DIGITS <? leading_decimals digits)%N
    then Raise (Py.too_many_digits (leading_decimals digits))
    else if Py.truthy digits && Py.all_chars Py.isdecimal digits
         then Return (decimal_value digits)
         else Raise (Py.invalid_literal digits).
Proof.
  intros digits. rewrite convert_price_to_int_eq.
  apply int_of_digits, keep_all.
Qed.

(** The conversion of decimal digits within the limit. *)
Lemma convert_price_to_int_within (price : string) :
  keep Py.isdigit price <> "" ->
  Py.all_chars Py.isdecimal (keep Py.isdigit price) = true ->
  (String.length (keep Py.isdigit price) <= 4300)%nat ->
  convert_price_to_int price = Return (decimal_value (keep Py.isdigit price)).
Proof.
  intros Hne Hall Hlen. rewrite convert_price_to_int_cases. cbv zeta.
  rewrite (leading_decimals_all _ Hall).
  assert ((Py.MAX_STR_DIGITS <? N.of_nat (String.length (keep Py.isdigit price)))%N
          = false) as ->
    by (apply N.ltb_ge; unfold Py.MAX_STR_DIGITS; lia).
  rewrite Hall. destruct (keep Py.isdigit price); [congruence | reflexivity].
Qed.

(** The digit characters of a price the conversion accepts. *)
Lemma convert_price_to_int_return (price : string) (n : Z) :
  convert_price_to_int price = Return n ->
  keep Py.isdigit price <> ""
  /\ Py.all_chars Py.isdecimal (keep Py.isdigit price) = true
  /\ (String.length (keep Py.isdigit price) <= 4300)%nat
  /\ n = decimal_value (keep Py.isdigit price).
Proof.
  rewrite convert_price_to_int_cases. cbv zeta.
  destruct (Py.MAX_STR_DIGITS <? _)%N eqn:L; [discriminate|].
  destruct (Py.truthy _ && Py.all_chars _ _) eqn:E; [|discriminate].
  intros [= <-]. apply andb_true_iff in E as [T E].
  rewrite (leading_decimals_all _ E) in L. apply N.ltb_ge in L.
  unfold Py.MAX_STR_DIGITS in L.
  repeat split; [|exact E|lia].
  destruct (keep Py.isdigit price); [discriminate | congruence].
Qed.

(** ** Printing and reading integers *)

Lemma string_of_uint_decimal (d : Decimal.uint) :
  Py.all_chars Py.isdecimal (NilEmpty.string_of_uint d) = true.
Proof. induction d; cbn [NilEmpty.string_of_uint Py.all_chars]; try rewrite IHd; reflexivity. Qed.

Lemma horner_of_uint_acc (d : Decimal.uint) (acc : positive) :
  horner (Zpos acc) (NilEmpty.string_of_uint d) = Zpos (Pos.of_uint_acc d acc).
Proof.
  revert acc; induction d; intros acc;
    cbn [NilEmpty.string_of_uint horner Pos.of_uint_acc]; try reflexivity;
    rewrite <- IHd; f_equal; vm_compute Py.digit_value; lia.
Qed.

Lemma horner_of_uint (d : Decimal.uint) :
  horner 0 (NilEmpty.string_of_uint d) = Z.of_N (Pos.of_uint d).
Proof.
  induction d; cbn [NilEmpty.string_of_uint horner Pos.of_uint]; try reflexivity;
    try (cbn [Z.of_N]; rewrite <- horner_of_uint_acc; reflexivity).
  exact IHd.
Qed.

Lemma decimal_value_str_of_pos (p : positive) :
  decimal_value (NilEmpty.string_of_uint (Pos.to_uint p)) = Zpos p.
Proof.
  unfold decimal_value. rewrite horner_of_uint, DecimalPos.Unsigned.of_to. reflexivity.
Qed.

Lemma nzhead_not_D0 (d : Decimal.uint) :
  match Decimal.nzhead d with Decimal.D0 _ => False | _ => True end.
Proof. induction d; simpl; auto. Qed.

Lemma to_uint_head (p : positive) :
  exists c r, NilEmpty.string_of_uint (Pos.to_uint p) = String c r
              /\ Py.isdecimal c = true /\ Ascii.eqb c "0" = false.
Proof.
  pose proof (DecimalPos.Unsigned.to_of (Pos.to_uint p)) as H.
  rewrite DecimalPos.Unsigned.of_to in H. cbn [N.to_uint] in H.
  pose proof (DecimalPos.Unsigned.to_uint_nonzero p) as Hz.
  pose proof (nzhead_not_D0 (Pos.to_uint p)) as Hh.
  unfold Decimal.unorm in H.
  destruct (Decimal.nzhead (Pos.to_uint p)) eqn:E; rewrite H in *;
    try contradiction; try (now elim Hz);
    cbn [NilEmpty.string_of_uint]; do 2 eexists; repeat split.
Qed.

Lemma str_of_int_pos (p : positive) :
  Py.str_of_int (Zpos p) = NilEmpty.string_of_uint (Pos.to_uint p).
Proof.
  unfold Py.str_of_int.
  cbn [Z.to_int NilZero.string_of_int]. unfold NilZero.string_of_uint.
  pose proof (DecimalPos.Unsigned.to_uint_nonnil p).
  destruct (Pos.to_uint p); try reflexivity. congruence.
Qed.

Lemma str_of_int_neg (p : positive) :
  Py.str_of_int (Zneg p) = String "-" (NilEmpty.string_of_uint (Pos.to_uint p)).
Proof.
  unfold Py.str_of_int.
  cbn [Z.to_int NilZero.string_of_int]. unfold NilZero.string_of_uint.
  pose proof (DecimalPos.Unsigned.to_uint_nonnil p).
  destruct (Pos.to_uint p); try reflexivity. congruence.
Qed.

Lemma str_of_int_cases (n : Z) :
  (n = 0%Z /\ Py.str_of_int n = "0")
  \/ (exists p, n = Zpos p
                /\ Py.str_of_int n = NilEmpty.string_of_uint (Pos.to_uint p))
  \/ (exists p, n = Zneg p
                /\ Py.str_of_int n = String "-" (NilEmpty.string_of_uint (Pos.to_uint p))).
Proof.
  destruct n as [|p|p].
  - left. split; reflexivity.
  - right; left. exists p. split; [reflexivity | apply str_of_int_pos].
  - right; right. exists p. split; [reflexivity | apply str_of_int_neg].
Qed.

Lemma digits_of_pos (p : positive) :
  digits_of (Zpos p) = String.length (NilEmpty.string_of_uint (Pos.to_uint p)).
Proof. unfold digits_of. cbn [Z.abs]. now rewrite str_of_int_pos. Qed.

Lemma digits_of_neg (p : positive) :
  digits_of (Zneg p) = String.length (NilEmpty.string_of_uint (Pos.to_uint p)).
Proof. unfold digits_of. cbn [Z.abs]. now rewrite str_of_int_pos. Qed.

(** [str] within the limit. *)
Lemma str_within (n : Z) :
  digits_of n <= 4300 -> Py.str n = Return (Py.str_of_int n).
Proof.
  intros H. unfold Py.str. fold (digits_of n).
  assert ((Py.MAX_STR_DIGITS <? N.of_nat (digits_of n))%N = false) as ->
    by (apply N.ltb_ge; unfold Py.MAX_STR_DIGITS; lia).
  reflexivity.
Qed.

Lemma str_return (n : Z) (text : string) :
  Py.str n = Return text -> digits_of n <= 4300 /\ text = Py.str_of_int n.
Proof.
  unfold Py.str. fold (digits_of n).
  destruct (Py.MAX_STR_DIGITS <? N.of_nat (digits_of n))%N eqn:L; [discriminate|].
  intros [= <-]. apply N.ltb_ge in L. unfold Py.MAX_STR_DIGITS in L.
  split; [lia | reflexivity].
Qed.

Lemma span_decimal_app (s rest : string) :
  Py.all_chars Py.isdecimal s = true ->
  number_stop rest = true ->
  Json.span_decimal (s ++ rest) = (s, rest).
Proof.
  intros Hs Hr. induction s as [|c r IH].
  - simpl. destruct rest as [|d rest]; [reflexivity|].
    simpl in Hr. cbn [Json.span_decimal].
    destruct (Py.isdecimal d); [discriminate | reflexivity].
  - simpl in Hs. apply andb_true_iff in Hs as [Hc Hs].
    cbn [append Json.span_decimal]. rewrite Hc, (IH Hs). reflexivity.
Qed.

Lemma isdecimal_not_minus (c : ascii) :
  Py.isdecimal c = true -> Ascii.eqb c "-" = false.
Proof. ascii_cases c; vm_compute; congruence. Qed.

Lemma take_integer_str_of_int (n : Z) (rest : string) :
  number_stop rest = true ->
  Json.take_integer (Py.str_of_int n ++ rest) = Some (Py.str_of_int n, rest).
Proof.
  intros Hr.
  assert (Hpos : forall p,
    Json.take_integer (NilEmpty.string_of_uint (Pos.to_uint p) ++ rest)
    = Some (NilEmpty.string_of_uint (Pos.to_uint p), rest)
    /\ (forall sign, match NilEmpty.string_of_uint (Pos.to_uint p) ++ rest with
        | String c r =>
            if Ascii.eqb c "0" then Some (sign ++ "0", r)
            else if Py.isdecimal c
                 then let '(d, rest0) :=
                        Json.span_decimal (NilEmpty.string_of_uint (Pos.to_uint p) ++ rest)
                      in Some (sign ++ d, rest0)
                 else None
        | EmptyString => None
        end = Some (sign ++ NilEmpty.string_of_uint (Pos.to_uint p), rest))).
  { intros p. destruct (to_uint_head p) as (c & r & E & Hc & Hz).
    pose proof (string_of_uint_decimal (Pos.to_uint p)) as Hall.
    pose proof (span_decimal_app _ rest Hall Hr) as Hspan.
    split.
    - unfold Json.take_integer. rewrite E in *. cbn [append].
      rewrite (isdecimal_not_minus c Hc), Hz, Hc.
      cbn [append] in Hspan. rewrite Hspan. reflexivity.
    - intros sign. rewrite E in *. cbn [append].
      rewrite Hz, Hc. cbn [append] in Hspan. rewrite Hspan. reflexivity. }
  destruct (str_of_int_cases n) as [[-> ->]|[(p & -> & ->)|(p & -> & ->)]].
  - reflexivity.
  - apply Hpos.
  - unfold Json.take_integer. cbn [append].
    change (Ascii.eqb "-" "-") with true. cbv iota beta.
    apply (proj2 (Hpos p) "-").
Qed.

Lemma isdecimal_not_underscore (c : ascii) :
  Py.isdecimal c = true -> Ascii.eqb c "_" = false.
Proof. ascii_cases c; vm_compute; congruence. Qed.

Lemma isdecimal_plain (c : ascii) :
  Py.isdecimal c = true ->
  Py.int_space c = false /\ Ascii.eqb c "+" = false /\ Ascii.eqb c "-" = false.
Proof. ascii_cases c; vm_compute; intros; repeat split; congruence. Qed.

(** [int] on decimal digits within the limit, with or without a minus sign. *)
Lemma int_signed_digits (d : string) (negative : bool) :
  Py.all_chars Py.isdecimal d = true ->
  d <> "" ->
  String.length d <= 4300 ->
  Py.int ((if negative then "-" else "") ++ d)
  = Return ((if negative then -1 else 1) * decimal_value d)%Z.
Proof.
  intros Hall Hne Hlen.
  assert (Hdig : Py.all_chars Py.isdigit d = true)
    by (apply (all_chars_impl Py.isdecimal); [apply isdecimal_isdigit | exact Hall]).
  assert (Hsp : Py.all_chars (fun c => negb (Py.int_space c)) d = true).
  { apply (all_chars_impl Py.isdecimal); [|exact Hall].
    intros c Hc. now rewrite (proj1 (isdecimal_plain c Hc)). }
  assert (Hrun : Py.count_digits false 0 d = Some (N.of_nat (String.length d))).
  { rewrite (count_digits_of_digits d 0 Hdig), N.add_0_l.
    now rewrite (leading_decimals_all d Hall). }
  assert (Hcap : (Py.MAX_STR_DIGITS <? N.of_nat (String.length d))%N = false)
    by (apply N.ltb_ge; unfold Py.MAX_STR_DIGITS; lia).
  destruct d as [|c r]; [congruence|].
  pose proof Hall as Hall'. cbn [Py.all_chars] in Hall'.
  apply andb_true_iff in Hall' as [Hc Hr].
  destruct (isdecimal_plain c Hc) as (Hs & Hplus & Hminus).
  unfold Py.int. destruct negative.
  - rewrite strip_by_none
      by (cbn [append Py.all_chars]; apply andb_true_iff; split;
          [reflexivity | exact Hsp]).
    cbn [append]. change (Ascii.eqb "-" "+") with false.
    change (Ascii.eqb "-" "-") with true. cbv iota beta.
    rewrite (isdecimal_not_underscore c Hc), Hrun, Hcap.
    cbn [Py.literal_value]. rewrite Hc, (literal_value_decimals r _ Hr).
    unfold decimal_value. cbn [horner]. reflexivity.
  - cbn [append]. rewrite strip_by_none by exact Hsp.
    rewrite Hplus, Hminus. cbv iota beta.
    rewrite (isdecimal_not_underscore c Hc), Hrun, Hcap.
    cbn [Py.literal_value]. rewrite Hc, (literal_value_decimals r _ Hr).
    unfold decimal_value. cbn [horner]. reflexivity.
Qed.

Lemma to_uint_not_empty (p : positive) :
  NilEmpty.string_of_uint (Pos.to_uint p) <> "".
Proof. destruct (to_uint_head p) as (c & r & E & _). now rewrite E. Qed.

Lemma int_str_of_int (n : Z) :
  digits_of n <= 4300 -> Py.int (Py.str_of_int n) = Return n.
Proof.
  destruct n as [|p|p]; intros Hd.
  - reflexivity.
  - rewrite digits_of_pos in Hd. rewrite str_of_int_pos.
    pose proof (int_signed_digits _ false (string_of_uint_decimal _)
                  (to_uint_not_empty p) Hd) as H.
    cbn [append] in H. rewrite H, decimal_value_str_of_pos. reflexivity.
  - rewrite digits_of_neg in Hd. rewrite str_of_int_neg.
    pose proof (int_signed_digits _ true (string_of_uint_decimal _)
                  (to_uint_not_empty p) Hd) as H.
    cbn [append] in H. rewrite H, decimal_value_str_of_pos. reflexivity.
Qed.

Lemma parse_number_str_of_int (n : Z) (rest : string) :
  digits_of n <= 4300 ->
  number_stop rest = true ->
  Json.parse_number (Py.str_of_int n ++ rest) = Some (Json.Int n, rest).
Proof.
  intros Hd Hr. unfold Json.parse_number.
  rewrite (take_integer_str_of_int n rest Hr).
  assert (Hf : Json.take_fraction rest = ("", rest) /\ Json.take_exponent rest = ("", rest)).
  { destruct rest as [|c r]; [split; reflexivity|].
    unfold number_stop in Hr. apply negb_true_iff in Hr.
    apply orb_false_iff in Hr as [Hr HE]. apply orb_false_iff in Hr as [Hr He].
    apply orb_false_iff in Hr as [_ Hdot].
    unfold Json.take_fraction, Json.take_exponent. now rewrite Hdot, He, HE. }
  destruct Hf as [-> ->]. cbn [Py.truthy orb].
  now rewrite int_str_of_int.
Qed.

(** ** Reading back an encoded string *)

Ltac euclid := zify; Z.to_euclidean_division_equations; lia.

Ltac decide_tests :=
  repeat match goal with
         | |- context [N.eqb ?a ?b] => destruct (N.eqb_spec a b); [lia|]
         | |- context [N.leb ?a ?b] => destruct (N.leb_spec a b); [|lia]
         | |- context [N.leb ?a ?b] => destruct (N.leb_spec a b); [lia|]
         | |- context [N.ltb ?a ?b] => destruct (N.ltb_spec a b); [|lia]
         | |- context [N.ltb ?a ?b] => destruct (N.ltb_spec a b); [lia|]
         end.

Lemma unicode_eqb_spec (a b : Unicode.str) : Unicode.eqb a b = true <-> a = b.
Proof.
  revert b; induction a as [|x a IH]; intros [|y b]; cbn [Unicode.eqb];
    try (split; congruence).
  rewrite andb_true_iff, N.eqb_eq, IH. split; [intros [-> ->] | intros [= -> ->]]; auto.
Qed.

Lemma hex_value_hex_digit (k : N) :
  (k < 16)%N -> Json.hex_value (Py.hex_digit k) = Some k.
Proof.
  intros H. rewrite <- (N2Nat.id k).
  assert (Hk : N.to_nat k < 16) by lia. revert Hk. generalize (N.to_nat k) as m.
  intros m Hm. do 16 (destruct m as [|m]; [reflexivity|]). lia.
Qed.

Lemma hex4_value_hex4 (n : N) :
  (n < 65536)%N ->
  Json.hex4_value (Py.hex_digit (n / 4096 mod 16)) (Py.hex_digit (n / 256 mod 16))
                  (Py.hex_digit (n / 16 mod 16)) (Py.hex_digit (n mod 16))
  = Some n.
Proof.
  intros H. unfold Json.hex4_value.
  rewrite !hex_value_hex_digit by (apply N.mod_lt; discriminate).
  f_equal. euclid.
Qed.

Lemma scanstring_u (h1 h2 h3 h4 : ascii) (r2 : string) :
  Json.scanstring (String "\" (String "u" (String h1 (String h2 (String h3 (String h4 r2))))))
  = match Json.hex4_value h1 h2 h3 h4 with
    | None => None
    | Some u =>
        if Unicode.is_high_surrogate u then
          match r2 with
          | String b (String e2 r3) =>
              if Ascii.eqb b "\" && Ascii.eqb e2 "u" then
                match r3 with
                | String k1 (String k2 (String k3 (String k4 r4))) =>
                    match Json.hex4_value k1 k2 k3 k4 with
                    | None => None
                    | Some u2 =>
                        if Unicode.is_low_surrogate u2
                        then Json.cons_char (Json.join_surrogates u u2)
                                            (Json.scanstring r4)
                        else Json.cons_char u (Json.scanstring r2)
                    end
                | _ => None
                end
              else Json.cons_char u (Json.scanstring r2)
          | _ => Json.cons_char u (Json.scanstring r2)
          end
        else Json.cons_char u (Json.scanstring r2)
    end.
Proof. reflexivity. Qed.

(** The escape of a code point that is no high surrogate is read on its
    own. *)
Lemma scanstring_hex4_single (c : N) (tail : string) :
  (c < 65536)%N ->
  Unicode.is_high_surrogate c = false ->
  Json.scanstring ("\u" ++ Json.hex4 c ++ tail)
  = Json.cons_char c (Json.scanstring tail).
Proof.
  intros Hc Hh. unfold Json.hex4. cbn [append].
  now rewrite scanstring_u, hex4_value_hex4, Hh.
Qed.

(** The escape of a high surrogate is read on its own when no escape of a
    low surrogate follows. *)
Lemma scanstring_hex4_high (c : N) (tail : string) :
  Unicode.is_high_surrogate c = true ->
  no_low_escape tail ->
  Json.scanstring ("\u" ++ Json.hex4 c ++ tail)
  = Json.cons_char c (Json.scanstring tail).
Proof.
  intros Hh Htail.
  assert (Hc : (c < 65536)%N).
  { unfold Unicode.is_high_surrogate in Hh. apply andb_true_iff in Hh as [_ Hh].
    apply N.leb_le in Hh. lia. }
  unfold Json.hex4. cbn [append].
  rewrite scanstring_u, hex4_value_hex4, Hh by exact Hc.
  destruct tail as [|b [|e2 r3]]; try reflexivity.
  unfold no_low_escape in Htail.
  destruct (Ascii.eqb b "\" && Ascii.eqb e2 "u"); [|reflexivity].
  destruct r3 as [|k1 [|k2 [|k3 [|k4 r4]]]]; try contradiction.
  destruct (Json.hex4_value k1 k2 k3 k4); [|contradiction].
  now rewrite Htail.
Qed.

Lemma escape_char_bmp (c : N) :
  (256 <= c < 65536)%N -> Json.escape_char c = "\u" ++ Json.hex4 c.
Proof.
  intros H. unfold Json.escape_char. decide_tests.
  rewrite ?andb_false_r. decide_tests. reflexivity.
Qed.

Lemma escape_char_astral (c : N) :
  (65536 <= c)%N ->
  Json.escape_char c
  = "\u" ++ Json.hex4 (55296 + (c - 65536) / 1024)
    ++ "\u" ++ Json.hex4 (56320 + (c - 65536) mod 1024).
Proof.
  intros H. unfold Json.escape_char. decide_tests.
  rewrite ?andb_false_r. decide_tests. reflexivity.
Qed.

(** The two escapes of a character from U+10000 on are read as that
    character. *)
Lemma scanstring_astral (c : N) (tail : string) :
  (65536 <= c < 1114112)%N ->
  Json.scanstring (Json.escape_char c ++ tail)
  = Json.cons_char c (Json.scanstring tail).
Proof.
  intros H. rewrite escape_char_astral by lia.
  set (high := (55296 + (c - 65536) / 1024)%N).
  set (low := (56320 + (c - 65536) mod 1024)%N).
  assert (Hhigh : (55296 <= high <= 56319)%N) by (subst high; euclid).
  assert (Hlow : (56320 <= low <= 57343)%N) by (subst low; euclid).
  assert (Hjoin : Json.join_surrogates high low = c)
    by (unfold Json.join_surrogates; subst high low; euclid).
  rewrite !append_assoc.
  unfold Json.hex4. cbn [append].
  rewrite scanstring_u, hex4_value_hex4 by lia.
  assert (Unicode.is_high_surrogate high = true) as ->
    by (unfold Unicode.is_high_surrogate; apply andb_true_iff;
        split; apply N.leb_le; lia).
  rewrite !Ascii.eqb_refl. cbn [andb].
  rewrite hex4_value_hex4 by lia.
  assert (Unicode.is_low_surrogate low = true) as ->
    by (unfold Unicode.is_low_surrogate; apply andb_true_iff;
        split; apply N.leb_le; lia).
  now rewrite Hjoin.
Qed.

Lemma scanstring_latin (a : ascii) (tail : string) :
  Json.scanstring (Json.escape_char (Py.ord a) ++ tail)
  = Json.cons_char (Py.ord a) (Json.scanstring tail).
Proof. ascii_cases a; reflexivity. Qed.

Lemma latin_code_point (c : N) : (c < 256)%N -> exists a, c = Py.ord a.
Proof.
  intros H. exists (ascii_of_N c). unfold Py.ord.
  now rewrite N_ascii_embedding.
Qed.

Lemma scanstring_escape_char (c : N) (tail : string) :
  Unicode.is_code_point c = true ->
  Unicode.is_high_surrogate c = false ->
  Json.scanstring (Json.escape_char c ++ tail)
  = Json.cons_char c (Json.scanstring tail).
Proof.
  intros Hc Hh. unfold Unicode.is_code_point in Hc. apply N.ltb_lt in Hc.
  destruct (N.lt_ge_cases c 256) as [L|L].
  - destruct (latin_code_point c L) as [a ->]. apply scanstring_latin.
  - destruct (N.lt_ge_cases c 65536) as [B|B].
    + rewrite escape_char_bmp, append_assoc by lia.
      now apply scanstring_hex4_single.
    + apply scanstring_astral. lia.
Qed.

Lemma no_low_escape_latin (a : ascii) (tail : string) :
  no_low_escape (Json.escape_char (Py.ord a) ++ tail).
Proof.
  ascii_cases a; destruct tail as [|x tail]; vm_compute;
    try exact I; reflexivity.
Qed.

Lemma no_low_escape_hex4 (c : N) (tail : string) :
  (c < 65536)%N ->
  Unicode.is_low_surrogate c = false ->
  no_low_escape ("\u" ++ Json.hex4 c ++ tail).
Proof.
  intros Hc Hl. unfold Json.hex4, no_low_escape. cbn [append].
  rewrite !Ascii.eqb_refl. cbn [andb]. now rewrite hex4_value_hex4.
Qed.

Lemma no_low_escape_char (c : N) (tail : string) :
  Unicode.is_code_point c = true ->
  Unicode.is_low_surrogate c = false ->
  no_low_escape (Json.escape_char c ++ tail).
Proof.
  intros Hc Hl. unfold Unicode.is_code_point in Hc. apply N.ltb_lt in Hc.
  destruct (N.lt_ge_cases c 256) as [L|L].
  - destruct (latin_code_point c L) as [a ->]. apply no_low_escape_latin.
  - destruct (N.lt_ge_cases c 65536) as [B|B].
    + rewrite escape_char_bmp, append_assoc by lia.
      now apply no_low_escape_hex4.
    + rewrite escape_char_astral, !append_assoc by lia.
      apply no_low_escape_hex4; [euclid|].
      unfold Unicode.is_low_surrogate. apply andb_false_iff. left.
      apply N.leb_gt. euclid.
Qed.

Lemma plain_tail (c : N) (r : Unicode.str) : plain (c :: r) -> plain r.
Proof.
  intros [Hv Hp]. split; [now inversion Hv|].
  cbn [has_surrogate_pair] in Hp. now apply orb_false_iff in Hp as [_ Hp].
Qed.

(** A plain string is read back from its escapes. *)
Lemma scanstring_escape (s : Unicode.str) (rest : string) :
  plain s ->
  Json.scanstring (Json.escape s ++ String Json.QUOTE rest) = Some (s, rest).
Proof.
  induction s as [|c r IH]; intros Hs.
  - reflexivity.
  - pose proof (plain_tail c r Hs) as Hr. destruct Hs as [Hv Hp].
    inversion Hv as [|? ? Hc Hvr]; subst.
    cbn [Json.escape]. rewrite append_assoc.
    destruct (Unicode.is_high_surrogate c) eqn:Hh.
    + assert (Hb : (256 <= c < 65536)%N).
      { unfold Unicode.is_high_surrogate in Hh.
        apply andb_true_iff in Hh as [H1 H2].
        apply N.leb_le in H1, H2. lia. }
      rewrite escape_char_bmp, append_assoc by exact Hb.
      rewrite scanstring_hex4_high; [now rewrite (IH Hr) | exact Hh |].
      destruct r as [|c' r']; [destruct rest; exact I|].
      cbn [Json.escape]. rewrite append_assoc.
      inversion Hvr; subst. apply no_low_escape_char; [assumption|].
      cbn [has_surrogate_pair] in Hp. rewrite Hh in Hp.
      apply orb_false_iff in Hp as [Hp _]. exact Hp.
    + rewrite scanstring_escape_char by assumption. now rewrite (IH Hr).
Qed.

(** ** Reading back an encoded value *)

Lemma value_nested_ind (P : Json.value -> Prop) :
  P Json.Null ->
  (forall b, P (Json.Bool b)) ->
  (forall n, P (Json.Int n)) ->
  (forall literal, P (Json.Float literal)) ->
  (forall s, P (Json.Str s)) ->
  (forall items, Forall P items -> P (Json.List items)) ->
  (forall items, Forall (fun kv => P (snd kv)) items -> P (Json.Dict items)) ->
  forall v, P v.
Proof.
  intros HN HB HI HF HS HL HD. fix self 1.
  intros [ | b | n | literal | s | items | items].
  - exact HN.
  - apply HB.
  - apply HI.
  - apply HF.
  - apply HS.
  - apply HL. induction items as [|x xs IHxs]; constructor; [apply self | exact IHxs].
  - apply HD. induction items as [|[k x] xs IHxs]; constructor; [apply self | exact IHxs].
Qed.

Lemma isdecimal_opens (c : ascii) : Py.isdecimal c = true -> opens_value c = true.
Proof. ascii_cases c; vm_compute; congruence. Qed.

Lemma str_of_int_head (n : Z) :
  exists c r, Py.str_of_int n = String c r
              /\ (Py.isdecimal c = true \/ c = "-"%char).
Proof.
  destruct (str_of_int_cases n) as [[-> ->]|[(p & -> & ->)|(p & -> & ->)]].
  - exists "0"%char, "". split; [reflexivity | now left].
  - destruct (to_uint_head p) as (c & r & E & Hc & _).
    exists c, r. split; [exact E | now left].
  - eexists _, _. split; [reflexivity | now right].
Qed.

Lemma text_of_head (indent level : nat) (v : Json.value) :
  wf v -> head_opens (text_of indent level v).
Proof.
  unfold head_opens. destruct v as [ | [|] | n | literal | s | items | items]; intros Hwf.
  - now eexists _, _.
  - now eexists _, _.
  - now eexists _, _.
  - destruct (str_of_int_head n) as (c & r & E & [Hc | ->]).
    + exists c, r. split; [exact E | now apply isdecimal_opens].
    + eexists _, _. split; [exact E | reflexivity].
  - destruct Hwf.
  - now eexists _, _.
  - destruct items; now eexists _, _.
  - destruct items; now eexists _, _.
Qed.

Lemma head_opens_app (s t : string) : head_opens s -> head_opens (s ++ t).
Proof. intros (c & r & -> & H). now exists c, (r ++ t). Qed.

Lemma skip_ws_head (s : string) : head_opens s -> Json.skip_ws s = s.
Proof.
  intros (c & r & -> & H). cbn [Json.skip_ws].
  unfold opens_value in H. destruct (Json.is_ws c); [discriminate | reflexivity].
Qed.

Lemma skip_ws_spaces (n : nat) (s : string) :
  Json.skip_ws (Json.spaces n ++ s) = Json.skip_ws s.
Proof. induction n as [|n IH]; [reflexivity | exact IH]. Qed.

Lemma skip_ws_newline_indent (indent level : nat) (s : string) :
  Json.skip_ws (Json.newline_indent indent level ++ s) = Json.skip_ws s.
Proof. unfold Json.newline_indent. cbn [append Json.skip_ws]. apply skip_ws_spaces. Qed.

Lemma number_stop_newline_indent (indent level : nat) (s : string) :
  number_stop (Json.newline_indent indent level ++ s) = true.
Proof. reflexivity. Qed.

Lemma parse_value_string (fuel : nat) (s : Unicode.str) (rest : string) :
  plain s ->
  Json.parse_value (S fuel) (Json.encode_basestring_ascii s ++ rest)
  = Some (Json.Str s, rest).
Proof.
  intros Hs. unfold Json.encode_basestring_ascii. cbn [append Json.parse_value].
  rewrite Ascii.eqb_refl, append_assoc. cbn [append].
  now rewrite scanstring_escape.
Qed.

Lemma minus_or_decimal_is_number (c : ascii) (r : string) (fuel : nat)
      (x : Json.value * string) :
  Py.isdecimal c = true \/ c = "-"%char ->
  Json.parse_number (String c r) = Some x ->
  Json.parse_value (S fuel) (String c r) = Some x.
Proof.
  intros Hc Hn.
  assert (E : Json.parse_value (S fuel) (String c r)
              = match Json.parse_number (String c r) with
                | Some y => Some y
                | None => Json.scan_literal (String c r)
                end).
  { destruct (Json.parse_number (String c r)) as [y|] eqn:P.
    - destruct Hc as [H | ->].
      + cbn [Json.parse_value]. unfold Json.scan_literal. rewrite P.
        ascii_cases c; try discriminate H; reflexivity.
      + cbn [Json.parse_value]. unfold Json.scan_literal. rewrite P. reflexivity.
    - discriminate. }
  now rewrite E, Hn.
Qed.

Lemma parse_value_int (fuel : nat) (n : Z) (rest : string) :
  digits_of n <= 4300 ->
  number_stop rest = true ->
  Json.parse_value (S fuel) (Py.str_of_int n ++ rest) = Some (Json.Int n, rest).
Proof.
  intros Hd Hr. pose proof (parse_number_str_of_int n rest Hd Hr) as Hn.
  destruct (str_of_int_head n) as (c & r & E & Hc). rewrite E in *.
  cbn [append] in *. now apply minus_or_decimal_is_number.
Qed.

Lemma parse_items_step (fuel : nat) (acc : list Json.value) (s : string) :
  Json.parse_items (S fuel) acc s =
    match Json.parse_value fuel s with
    | None => None
    | Some (v, rest) =>
        match Json.skip_ws rest with
        | EmptyString => None
        | String c r =>
            if Ascii.eqb c "," then Json.parse_items fuel (acc ++ [v])%list (Json.skip_ws r)
            else if Ascii.eqb c "]" then Some (Json.List (acc ++ [v])%list, r)
            else None
        end
    end.
Proof. reflexivity. Qed.

Lemma parse_members_step (fuel : nat) (acc : list (Unicode.str * Json.value))
      (key : Unicode.str) (tail : string) :
  plain key ->
  Json.parse_members (S fuel) acc (Json.encode_basestring_ascii key ++ ": " ++ tail) =
    match Json.parse_value fuel (Json.skip_ws tail) with
    | None => None
    | Some (v, rest1) =>
        match Json.skip_ws rest1 with
        | EmptyString => None
        | String c2 r2 =>
            if Ascii.eqb c2 "," then
              Json.parse_members fuel (Json.dict_set key v acc) (Json.skip_ws r2)
            else if Ascii.eqb c2 "}" then Some (Json.Dict (Json.dict_set key v acc), r2)
            else None
        end
    end.
Proof.
  intros Hk. unfold Json.encode_basestring_ascii. cbn [append Json.parse_members].
  rewrite Ascii.eqb_refl, append_assoc. cbn [append].
  rewrite scanstring_escape by exact Hk. reflexivity.
Qed.

Lemma parse_value_open_list (fuel indent level : nat) (s : string) :
  head_opens s ->
  Json.parse_value (S fuel) (String "[" (Json.newline_indent indent level ++ s))
  = Json.parse_items fuel [] s.
Proof.
  intros H. cbn [Json.parse_value].
  change (Ascii.eqb "[" Json.QUOTE) with false.
  change (Ascii.eqb "[" "{") with false. change (Ascii.eqb "[" "[") with true.
  cbv iota. rewrite skip_ws_newline_indent, (skip_ws_head s H).
  destruct H as (c & r & -> & H). unfold opens_value in H.
  destruct (Ascii.eqb c "]"); [|reflexivity].
  rewrite andb_false_r in H. discriminate.
Qed.

Lemma parse_value_open_dict (fuel indent level : nat) (s : string) :
  head_opens s ->
  Json.parse_value (S fuel) (String "{" (Json.newline_indent indent level ++ s))
  = Json.parse_members fuel [] s.
Proof.
  intros H. cbn [Json.parse_value].
  change (Ascii.eqb "{" Json.QUOTE) with false. change (Ascii.eqb "{" "{") with true.
  cbv iota. rewrite skip_ws_newline_indent, (skip_ws_head s H).
  destruct H as (c & r & -> & H). unfold opens_value in H.
  destruct (Ascii.eqb c "}"); [|reflexivity].
  rewrite andb_false_r in H. discriminate.
Qed.

Lemma dict_set_fresh (k : Unicode.str) (v : Json.value)
      (acc : list (Unicode.str * Json.value)) :
  ~ In k (map fst acc) -> Json.dict_set k v acc = (acc ++ [(k, v)])%list.
Proof.
  induction acc as [|[k' v'] acc IH]; intros Hn; [reflexivity|].
  cbn [Json.dict_set app]. destruct (Unicode.eqb k' k) eqn:E.
  - apply unicode_eqb_spec in E. subst. elim Hn. now left.
  - rewrite IH; [reflexivity|]. intros Hin. apply Hn. now right.
Qed.

Lemma parse_items_encoded (indent level : nat) (items : list Json.value) :
  Forall reads_back items ->
  Forall wf items ->
  items <> [] ->
  forall acc fuel rest,
    sum_sizes items <= fuel ->
    Json.parse_items fuel acc
      (Py.join ("," ++ Json.newline_indent indent (S level))
         (map (text_of indent (S level)) items)
       ++ Json.newline_indent indent level ++ "]" ++ rest)
    = Some (Json.List (acc ++ items)%list, rest).
Proof.
  unfold Py.join. intros Hrb Hwf.
  induction items as [|x xs IH]; intros Hne acc fuel rest Hfuel; [congruence|].
  inversion Hrb as [|? ? Hx Hxs]; subst. inversion Hwf as [|? ? Wx Wxs]; subst.
  cbn [sum_sizes fold_right] in Hfuel. fold (sum_sizes xs) in Hfuel.
  destruct fuel as [|fuel]; [lia|]. rewrite parse_items_step.
  destruct xs as [|y ys].
  - cbn [map String.concat].
    rewrite Hx by (lia || reflexivity).
    rewrite skip_ws_newline_indent. reflexivity.
  - change (String.concat ?sep (map ?f (x :: y :: ys)))
      with (f x ++ sep ++ String.concat sep (map f (y :: ys))).
    rewrite !append_assoc.
    rewrite Hx by (lia || reflexivity).
    cbn [append Json.skip_ws]. change (Json.is_ws ",") with false. cbv iota.
    change (Ascii.eqb "," ",") with true. cbv iota.
    rewrite skip_ws_newline_indent.
    rewrite <- !append_assoc.
    assert (Hhead : head_opens (String.concat ("," ++ Json.newline_indent indent (S level))
                       (map (text_of indent (S level)) (y :: ys)))).
    { inversion Wxs; subst. cbn [map].
      destruct ys; cbn [String.concat map]; [now apply text_of_head|].
      apply head_opens_app. now apply text_of_head. }
    rewrite !append_assoc.
    rewrite skip_ws_head by (now apply head_opens_app).
    replace (acc ++ x :: y :: ys)%list with ((acc ++ [x]) ++ y :: ys)%list
      by (now rewrite <- app_assoc).
    apply IH; (assumption || congruence || lia).
Qed.

Lemma encode_member_head (indent level : nat) (kv : Unicode.str * Json.value)
      (t : string) :
  head_opens (encode_member indent level kv ++ t).
Proof. destruct kv as [k x]. now eexists _, _. Qed.

Lemma parse_members_encoded (indent level : nat)
      (items : list (Unicode.str * Json.value)) :
  Forall (fun kv => reads_back (snd kv)) items ->
  Forall (fun kv => plain (fst kv) /\ wf (snd kv)) items ->
  items <> [] ->
  forall acc fuel rest,
    NoDup (map fst (acc ++ items)%list) ->
    sum_member_sizes items <= fuel ->
    Json.parse_members fuel acc
      (Py.join ("," ++ Json.newline_indent indent (S level))
         (map (encode_member indent (S level)) items)
       ++ Json.newline_indent indent level ++ "}" ++ rest)
    = Some (Json.Dict (acc ++ items)%list, rest).
Proof.
  unfold Py.join. intros Hrb Hwf.
  induction items as [|[k x] xs IH]; intros Hne acc fuel rest Hnd Hfuel; [congruence|].
  inversion Hrb as [|? ? Hx Hxs]; subst. inversion Hwf as [|? ? [Wk Wx] Wxs]; subst.
  cbn [snd fst] in Hx, Wx, Wk.
  cbn [sum_member_sizes fold_right snd] in Hfuel. fold (sum_member_sizes xs) in Hfuel.
  assert (Hfresh : Json.dict_set k x acc = (acc ++ [(k, x)])%list).
  { apply dict_set_fresh. rewrite map_app in Hnd. cbn [map fst] in Hnd.
    apply NoDup_remove_2 in Hnd. intros Hin. apply Hnd.
    apply in_or_app. now left. }
  assert (Hnd' : NoDup (map fst ((acc ++ [(k, x)]) ++ xs)%list))
    by (now rewrite <- app_assoc).
  destruct fuel as [|fuel]; [lia|].
  destruct xs as [|y ys].
  - cbn [map String.concat encode_member].
    rewrite !append_assoc, parse_members_step by exact Wk.
    rewrite skip_ws_head by (apply head_opens_app; now apply text_of_head).
    rewrite Hx by (lia || reflexivity).
    rewrite skip_ws_newline_indent, Hfresh. reflexivity.
  - change (String.concat ?sep (map ?f ((k, x) :: y :: ys)))
      with (f (k, x) ++ sep ++ String.concat sep (map f (y :: ys))).
    cbn [encode_member].
    rewrite !append_assoc, parse_members_step by exact Wk.
    rewrite skip_ws_head by (apply head_opens_app; now apply text_of_head).
    rewrite Hx by (lia || reflexivity).
    cbn [append Json.skip_ws]. change (Json.is_ws ",") with false. cbv iota.
    change (Ascii.eqb "," ",") with true. cbv iota.
    rewrite skip_ws_newline_indent, Hfresh.
    rewrite skip_ws_head
      by (cbn [map]; destruct ys; cbn [String.concat map];
          [|rewrite append_assoc]; apply encode_member_head).
    replace (acc ++ (k, x) :: y :: ys)%list with ((acc ++ [(k, x)]) ++ y :: ys)%list
      by (now rewrite <- app_assoc).
    apply IH; (assumption || congruence || lia).
Qed.

Lemma wf_list_items (items : list Json.value) :
  wf (Json.List items) -> Forall wf items.
Proof.
  cbn [wf]. induction items as [|x xs IH]; cbn [fold_right]; intros H;
    constructor; [apply H | apply IH, H].
Qed.

Lemma wf_dict_items (items : list (Unicode.str * Json.value)) :
  wf (Json.Dict items) ->
  NoDup (map fst items)
  /\ Forall (fun kv => plain (fst kv) /\ wf (snd kv)) items.
Proof.
  cbn [wf]. intros [Hnd H]. split; [exact Hnd|]. clear Hnd.
  induction items as [|x xs IH]; cbn [fold_right] in *;
    constructor; [apply H | apply IH, H].
Qed.

Lemma Forall_modus (A : Type) (P Q : A -> Prop) (l : list A) :
  Forall (fun a => P a -> Q a) l -> Forall P l -> Forall Q l.
Proof.
  induction 1 as [|a l Ha _ IH]; intros HP; constructor;
    inversion HP; subst; auto.
Qed.

Lemma Forall_proj2 (A : Type) (P Q : A -> Prop) (l : list A) :
  Forall (fun a => P a /\ Q a) l -> Forall Q l.
Proof. intros H. eapply Forall_impl; [|exact H]. now intros a [_ Ha]. Qed.

(** Every well-formed value is read back from its text. *)
Lemma reads_back_wf (v : Json.value) : wf v -> reads_back v.
Proof.
  induction v as [ | b | n | literal | s | items IH | items IH ]
    using value_nested_ind; intros Hwf indent level fuel rest Hfuel Hrest.
  - destruct fuel; [simpl in Hfuel; lia | reflexivity].
  - destruct fuel; [simpl in Hfuel; lia | destruct b; reflexivity].
  - destruct fuel; [simpl in Hfuel; lia |]. now apply parse_value_int.
  - destruct Hwf.
  - destruct fuel; [simpl in Hfuel; lia |]. now apply parse_value_string.
  - pose proof (wf_list_items items Hwf) as Hwfs.
    pose proof (Forall_modus _ _ _ _ IH Hwfs) as Hrb.
    cbn [size] in Hfuel. fold (sum_sizes items) in Hfuel.
    destruct fuel as [|fuel]; [lia|].
    destruct items as [|x xs]; [reflexivity|].
    cbn [text_of]. rewrite !append_assoc. cbn [append].
    rewrite parse_value_open_list.
    + rewrite <- (List.app_nil_l (x :: xs)) at 2.
      apply parse_items_encoded; (assumption || congruence || lia).
    + apply head_opens_app. inversion Hwfs; subst. unfold Py.join. cbn [map].
      destruct xs; cbn [String.concat map]; [now apply text_of_head|].
      apply head_opens_app. now apply text_of_head.
  - destruct (wf_dict_items items Hwf) as [Hnd Hwfs].
    pose proof (Forall_modus _ _ _ _ IH (Forall_proj2 _ _ _ _ Hwfs)) as Hrb.
    cbn [size] in Hfuel. fold (sum_member_sizes items) in Hfuel.
    destruct fuel as [|fuel]; [lia|].
    destruct items as [|x xs]; [reflexivity|].
    cbn [text_of]. rewrite !append_assoc. cbn [append].
    rewrite parse_value_open_dict.
    + rewrite <- (List.app_nil_l (x :: xs)) at 2.
      apply (parse_members_encoded indent level (x :: xs));
        (assumption || congruence || lia).
    + unfold Py.join. cbn [map].
      destruct xs; cbn [String.concat map]; [|rewrite append_assoc];
        destruct x as [k v]; now eexists _, _.
Qed.

(** The text is at least as long as the reader's calls are deep. *)
Lemma concat_length_bound (A : Type) (f : A -> string) (sz : A -> nat)
      (sep : string) (items : list A) :
  Forall (fun a => sz a <= String.length (f a)) items ->
  items <> [] ->
  1 <= String.length sep ->
  fold_right (fun a n => S (sz a) + n) 0 items
  <= String.length (String.concat sep (map f items)) + 1.
Proof.
  intros H Hne Hsep. induction items as [|x xs IH]; [congruence|].
  inversion H as [|? ? Hx Hxs]; subst. cbn [fold_right].
  destruct xs as [|y ys].
  - cbn [map String.concat fold_right]. lia.
  - change (String.concat sep (map f (x :: y :: ys)))
      with (f x ++ sep ++ String.concat sep (map f (y :: ys))).
    rewrite !append_length.
    assert (fold_right (fun a n => S (sz a) + n) 0 (y :: ys)
            <= String.length (String.concat sep (map f (y :: ys))) + 1)
      by (apply IH; [assumption | congruence]).
    lia.
Qed.

Lemma size_le_length (v : Json.value) :
  wf v -> forall indent level, size v <= String.length (text_of indent level v).
Proof.
  induction v as [ | b | n | literal | s | items IH | items IH ]
    using value_nested_ind; intros Hwf indent level.
  - simpl. lia.
  - destruct b; simpl; lia.
  - destruct (str_of_int_head n) as (c & r & E & _).
    cbn [text_of size]. rewrite E. simpl. lia.
  - destruct Hwf.
  - simpl. lia.
  - pose proof (wf_list_items items Hwf) as Hwfs.
    pose proof (Forall_modus _ _ _ _ IH Hwfs) as Hlen.
    destruct items as [|x xs]; [simpl; lia|].
    cbn [text_of size]. unfold Py.join. rewrite !append_length.
    assert (Hb : fold_right (fun a n => S (size a) + n) 0 (x :: xs)
                 <= String.length
                      (String.concat ("," ++ Json.newline_indent indent (S level))
                         (map (text_of indent (S level)) (x :: xs))) + 1).
    { apply concat_length_bound; [|congruence|simpl; lia].
      eapply Forall_impl; [|exact Hlen]. intros a Ha. apply Ha. }
    change (String.length "[") with 1. change (String.length "]") with 1. lia.
  - destruct (wf_dict_items items Hwf) as [_ Hwfs].
    pose proof (Forall_modus _ _ _ _ IH (Forall_proj2 _ _ _ _ Hwfs)) as Hlen.
    destruct items as [|x xs]; [simpl; lia|].
    cbn [text_of size]. unfold Py.join. rewrite !append_length.
    assert (Hb : fold_right (fun kv n => S (size (snd kv)) + n) 0 (x :: xs)
                 <= String.length
                      (String.concat ("," ++ Json.newline_indent indent (S level))
                         (map (fun '(k, x0) =>
                                 Json.encode_basestring_ascii k ++ ": "
                                 ++ text_of indent (S level) x0) (x :: xs))) + 1).
    { apply (concat_length_bound _ _ (fun kv => size (snd kv)));
        [|congruence|simpl; lia].
      eapply Forall_impl; [|exact Hlen]. intros [k a] Ha. cbn [snd] in *.
      rewrite !append_length. specialize (Ha indent (S level)). lia. }
    change (String.length "{") with 1. change (String.length "}") with 1. lia.
Qed.

(** Reading back the text of a value returns the value. *)
Lemma loads_text_of (v : Json.value) (indent : nat) :
  wf v -> Json.loads (text_of indent 0 v) = Some v.
Proof.
  intros Hwf. unfold Json.loads.
  rewrite skip_ws_head by (now apply text_of_head).
  pose proof (reads_back_wf v Hwf indent 0 (S (String.length (text_of indent 0 v))) "")
    as H.
  rewrite append_empty_r in H. rewrite H; [reflexivity | | reflexivity].
  pose proof (size_le_length v Hwf indent 0). lia.
Qed.

(** ** What the encoder returns *)

Lemma sequence_map_return (A B : Type) (f : A -> result B) (g : A -> B)
      (l : list A) :
  Forall (fun a => f a = Return (g a)) l ->
  sequence (map f l) = Return (map g l).
Proof.
  induction 1 as [|a l Ha _ IH]; [reflexivity|].
  cbn [map sequence]. rewrite Ha. cbn [bind]. rewrite IH. reflexivity.
Qed.

Lemma sequence_map_return_inv (A B : Type) (f : A -> result B) (l : list A)
      (ys : list B) :
  sequence (map f l) = Return ys ->
  Forall (fun a => exists b, f a = Return b) l.
Proof.
  revert ys; induction l as [|a l IH]; intros ys H; [constructor|].
  cbn [map sequence] in H. destruct (f a) as [b|e] eqn:E; [|discriminate].
  cbn [bind] in H. destruct (sequence (map f l)) as [xs|e] eqn:S; [|discriminate].
  constructor; [now exists b | now apply (IH xs)].
Qed.

(** The encoder accepts every well-formed value and writes its text. *)
Lemma encode_wf (v : Json.value) :
  wf v -> forall indent level,
    Json.encode indent level v = Return (text_of indent level v).
Proof.
  induction v as [ | b | n | literal | s | items IH | items IH ]
    using value_nested_ind; intros Hwf indent level.
  - reflexivity.
  - destruct b; reflexivity.
  - cbn [Json.encode text_of]. now apply str_within.
  - destruct Hwf.
  - reflexivity.
  - pose proof (wf_list_items items Hwf) as Hwfs.
    pose proof (Forall_modus _ _ _ _ IH Hwfs) as Henc.
    destruct items as [|x xs]; [reflexivity|].
    cbn [Json.encode text_of].
    rewrite (sequence_map_return _ _ _ (text_of indent (S level))).
    + reflexivity.
    + eapply Forall_impl; [|exact Henc]. intros a Ha. apply Ha.
  - destruct (wf_dict_items items Hwf) as [_ Hwfs].
    pose proof (Forall_modus _ _ _ _ IH (Forall_proj2 _ _ _ _ Hwfs)) as Henc.
    destruct items as [|x xs]; [reflexivity|].
    cbn [Json.encode text_of].
    rewrite (sequence_map_return _ _ _
               (fun '(k, x0) => Json.encode_basestring_ascii k ++ ": "
                                ++ text_of indent (S level) x0)).
    + reflexivity.
    + eapply Forall_impl; [|exact Henc]. intros [k a] Ha. cbn [snd] in Ha.
      now rewrite Ha.
Qed.

(** What [dumps] writes for a well-formed value, [loads] reads back. *)
Lemma loads_dumps (v : Json.value) (indent : nat) :
  wf v ->
  exists text, Json.dumps v indent = Return text /\ Json.loads text = Some v.
Proof.
  intros Hwf. exists (text_of indent 0 v). split.
  - now apply encode_wf.
  - now apply loads_text_of.
Qed.

(** ** Extraction *)

Lemma src_not_list_valued (name : string) : Bs4.list_valued name "src" = false.
Proof. unfold Bs4.list_valued. cbn. now rewrite !andb_false_r. Qed.

Lemma href_not_list_valued (name : string) : Bs4.list_valued name "href" = false.
Proof. unfold Bs4.list_valued. cbn. now rewrite !andb_false_r. Qed.

Lemma first_if_list_src (sel : string) (soup : Bs4.soup) :
  first_if_list (match Bs4.select_one sel soup with
                 | Some t => Bs4.get t "src"
                 | None => None
                 end)
  = Return (found_attr sel "src" soup).
Proof.
  unfold found_attr. destruct (Bs4.select_one sel soup) as [[s|name attrs cs|k s]|];
    try reflexivity.
  unfold Bs4.get. rewrite src_not_list_valued.
  now destruct (Bs4.lookup "src" attrs).
Qed.

Lemma first_if_list_href (sel : string) (soup : Bs4.soup) :
  first_if_list (match Bs4.select_one sel soup with
                 | Some t => Bs4.get t "href"
                 | None => None
                 end)
  = Return (found_attr sel "href" soup).
Proof.
  unfold found_attr. destruct (Bs4.select_one sel soup) as [[s|name attrs cs|k s]|];
    try reflexivity.
  unfold Bs4.get. rewrite href_not_list_valued.
  now destruct (Bs4.lookup "href" attrs).
Qed.

(** The extraction, step by step. *)
Lemma parse_listing_with_soup_eq (soup : Bs4.soup) :
  parse_listing_with_soup soup =
    (price <- price_of (found_text PRICE_SELECTOR soup) ;;
     assemble (found_attr IMAGE_SELECTOR "src" soup)
              (found_text TITLE_SELECTOR soup)
              price
              (link_of (found_attr URL_SELECTOR "href" soup))
              (found_text LOCATION_SELECTOR soup)).
Proof.
  unfold parse_listing_with_soup.
  rewrite first_if_list_src, first_if_list_href. cbn [bind].
  fold (found_text TITLE_SELECTOR soup). fold (found_text PRICE_SELECTOR soup).
  fold (found_text LOCATION_SELECTOR soup).
  fold (price_of (found_text PRICE_SELECTOR soup)).
  destruct (price_of (found_text PRICE_SELECTOR soup)) as [price|e]; [|reflexivity].
  cbn [bind]. unfold link_of.
  destruct (found_attr URL_SELECTOR "href" soup) as [l|]; [|reflexivity].
  destruct (Py.truthy l); [|reflexivity].
  rewrite clean_listing_url_eq. reflexivity.
Qed.

Lemma truthy_nonempty (s : string) : Py.truthy s = true <-> s <> "".
Proof. destruct s; simpl; split; congruence. Qed.

Lemma assemble_return (i t : option string) (p : option Z) (l loc : option string)
      (listing : Listing) :
  assemble i t p l loc = Return listing ->
  i = Some (image_url listing) /\ t = Some (title listing)
  /\ p = Some (price listing) /\ l = Some (post_url listing)
  /\ loc = Some (location listing) /\ description listing = None
  /\ image_url listing <> "" /\ title listing <> "" /\ price listing <> 0%Z
  /\ post_url listing <> "" /\ location listing <> "".
Proof.
  unfold assemble.
  destruct i as [[|? ?]|], t as [[|? ?]|], p as [[|?|?]|], l as [[|? ?]|],
    loc as [[|? ?]|]; cbn; try discriminate;
    intros [= <-]; cbn; repeat split; congruence.
Qed.

Lemma assemble_ok (i t : string) (p : Z) (l loc : string) :
  i <> "" -> t <> "" -> p <> 0%Z -> l <> "" -> loc <> "" ->
  assemble (Some i) (Some t) (Some p) (Some l) (Some loc)
  = Return (mkListing i t p l loc None).
Proof.
  intros Hi Ht Hp Hl Hloc. unfold assemble. cbn [truthy_str truthy_int forallb].
  apply truthy_nonempty in Hi, Ht, Hl, Hloc. rewrite Hi, Ht, Hl, Hloc.
  apply Z.eqb_neq in Hp. rewrite Hp. reflexivity.
Qed.

Lemma assemble_raise (i t : option string) (p : option Z) (l loc : option string)
      (e : exn) :
  assemble i t p l loc = Raise e ->
  e = ParseError "Failed to parse listing."
  /\ (i = None \/ i = Some "" \/ t = None \/ t = Some ""
      \/ p = None \/ p = Some 0%Z \/ l = None \/ l = Some ""
      \/ loc = None \/ loc = Some "").
Proof.
  unfold assemble.
  destruct i as [[|? ?]|], t as [[|? ?]|], p as [[|?|?]|], l as [[|? ?]|],
    loc as [[|? ?]|]; cbn; try discriminate;
    intros [= <-]; (split; [reflexivity | tauto]).
Qed.

Lemma convert_price_to_int_nonneg (price_text : string) (n : Z) :
  convert_price_to_int price_text = Return n -> (0 <= n)%Z.
Proof.
  intros H. apply convert_price_to_int_return in H as (_ & E & _ & ->).
  now apply horner_nonneg.
Qed.

(** What the conversion raises is one of the two errors of [int]. *)
Lemma convert_price_to_int_raise (price_text : string) (e : exn) :
  convert_price_to_int price_text = Raise e ->
  let digits := keep Py.isdigit price_text in
  ((Py.MAX_STR_DIGITS < leading_decimals digits)%N
   /\ e = Py.too_many_digits (leading_decimals digits))
  \/ ((digits = "" \/ Py.all_chars Py.isdecimal digits = false)
      /\ e = Py.invalid_literal digits).
Proof.
  rewrite convert_price_to_int_cases. cbv zeta.
  destruct (Py.MAX_STR_DIGITS <? _)%N eqn:L.
  - intros [= <-]. left. apply N.ltb_lt in L. now split.
  - destruct (keep Py.isdigit price_text) as [|c r] eqn:K.
    + intros [= <-]. right. split; [now left | reflexivity].
    + cbn [Py.truthy andb].
      destruct (Py.all_chars Py.isdecimal (String c r)) eqn:E; [discriminate|].
      intros [= <-]. right. split; [now right | reflexivity].
Qed.

Lemma price_of_return (price_text : option string) (p : Z) :
  price_of price_text = Return (Some p) ->
  exists text, price_text = Some text /\ text <> ""
               /\ convert_price_to_int text = Return p /\ (0 <= p)%Z.
Proof.
  unfold price_of. destruct price_text as [text|]; [|discriminate].
  destruct (Py.truthy text) eqn:T; [|discriminate].
  destruct (convert_price_to_int text) as [n|e] eqn:E; [|discriminate].
  cbn [bind]. intros [= <-]. exists text. repeat split; try assumption.
  - now apply truthy_nonempty.
  - now apply (convert_price_to_int_nonneg text).
Qed.

Lemma price_of_raise (price_text : option string) (e : exn) :
  price_of price_text = Raise e ->
  exists text, price_text = Some text /\ text <> ""
               /\ convert_price_to_int text = Raise e
               /\ exists msg, e = ValueError msg.
Proof.
  unfold price_of. destruct price_text as [text|]; [|discriminate].
  destruct (Py.truthy text) eqn:T; [|discriminate].
  destruct (convert_price_to_int text) as [n|e'] eqn:E; [discriminate|].
  cbn [bind]. intros [= <-]. exists text. repeat split; try assumption.
  - now apply truthy_nonempty.
  - apply convert_price_to_int_raise in E as [[_ ->]|[_ ->]]; now eexists.
Qed.

(** ** The extraction loop *)

Lemma parse_each_skip (before after : list Bs4.soup) (fragment : Bs4.soup)
      (msg : string) (acc : list Listing) :
  parse_listing_with_soup fragment = Raise (ParseError msg) ->
  parse_each (before ++ fragment :: after) acc = parse_each (before ++ after) acc.
Proof.
  intros Hf. revert acc. induction before as [|x xs IH]; intros acc; cbn [app parse_each].
  - now rewrite Hf.
  - destruct (parse_listing_with_soup x) as [l|e]; [apply IH|].
    destruct (is_ParseError e); [apply IH | reflexivity].
Qed.

Lemma parse_each_return (fragment : Bs4.soup) (rest : list Bs4.soup)
      (listing : Listing) (acc : list Listing) :
  parse_listing_with_soup fragment = Return listing ->
  parse_each (fragment :: rest) acc = parse_each rest (acc ++ [listing]).
Proof. intros H. cbn [parse_each]. now rewrite H. Qed.

Lemma parse_each_abort (fragment : Bs4.soup) (rest : list Bs4.soup)
      (e : exn) (acc : list Listing) :
  parse_listing_with_soup fragment = Raise e ->
  is_ParseError e = false ->
  parse_each (fragment :: rest) acc = Raise e.
Proof. intros H He. cbn [parse_each]. now rewrite H, He. Qed.

(* ===================================================================== *)
(** * Specification properties *)
(* ===================================================================== *)

(** ** Resource request filter *)

(** C4. For every request: a resource type on the blocked list is aborted
    whatever the URL; otherwise a URL that contains one of the blocked names
    as a contiguous, case-sensitive run of characters is aborted; otherwise
    the request continues. *)
Theorem blocking_intercept_policy (request : Request) :
  (In (resource_type request) BLOCK_RESOURCE_TYPES ->
   blocking_intercept request = Abort)
  /\ (~ In (resource_type request) BLOCK_RESOURCE_TYPES ->
      (exists key, In key BLOCK_RESOURCE_NAMES /\ substring_of key (url request)) ->
      blocking_intercept request = Abort)
  /\ (~ In (resource_type request) BLOCK_RESOURCE_TYPES ->
      ~ (exists key, In key BLOCK_RESOURCE_NAMES /\ substring_of key (url request)) ->
      blocking_intercept request = Continue).
Proof.
  unfold blocking_intercept.
  destruct (existsb (String.eqb (resource_type request)) BLOCK_RESOURCE_TYPES) eqn:T.
  - apply existsb_eqb_In in T. split; [|split]; intros; [reflexivity | tauto | tauto].
  - assert (Hnot : ~ In (resource_type request) BLOCK_RESOURCE_TYPES).
    { intros Hin. apply existsb_eqb_In in Hin. congruence. }
    destruct (existsb (fun key => Py.contains key (url request)) BLOCK_RESOURCE_NAMES)
      eqn:U.
    + split; [|split]; intros; [tauto | reflexivity |].
      apply existsb_exists in U as (key & Hin & Hc).
      apply contains_spec in Hc. elim H0. now exists key.
    + split; [|split]; intros; [tauto | | reflexivity].
      destruct H0 as (key & Hin & Hsub). apply contains_spec in Hsub.
      assert (existsb (fun key => Py.contains key (url request)) BLOCK_RESOURCE_NAMES
              = true) by (apply existsb_exists; now exists key).
      congruence.
Qed.

Lemma blocking_intercept_policy_witness :
  blocking_intercept (mkRequest "image" "https://static.example/app.js") = Abort
  /\ blocking_intercept (mkRequest "script" "https://www.googletagmanager.com/gtm.js")
     = Abort
  /\ blocking_intercept (mkRequest "script" "https://static.example/GOOGLE/app.js")
     = Continue.
Proof.
  split; [|split].
  - apply (proj1 (blocking_intercept_policy
                    (mkRequest "image" "https://static.example/app.js"))).
    simpl. tauto.
  - apply (proj1 (proj2 (blocking_intercept_policy
                    (mkRequest "script" "https://www.googletagmanager.com/gtm.js")))).
    + simpl. intuition discriminate.
    + exists "google". split; [simpl; tauto|].
      exists "https://www.", "tagmanager.com/gtm.js". reflexivity.
  - apply (proj2 (proj2 (blocking_intercept_policy
                    (mkRequest "script" "https://static.example/GOOGLE/app.js")))).
    + simpl. intuition discriminate.
    + intros (key & Hin & Hsub). apply contains_spec in Hsub.
      simpl in Hin.
      repeat (destruct Hin as [<- | Hin]; [vm_compute in Hsub; discriminate|]).
      exact Hin.
Defined.

(** ** Field cleanup utilities *)

(** C7. URL normalization never fails: for every input it returns the origin
    followed by the part of the input before its first question mark.  An
    input with no question mark comes back whole behind the origin, as the two
    sample inputs show. *)
Theorem clean_listing_url_total (url : string) :
  exists head rest,
    clean_listing_url url = Return (ORIGIN ++ head)
    /\ url = head ++ rest
    /\ ~ occurs "?" head
    /\ (rest = "" \/ exists tail, rest = String "?" tail)
    /\ (~ occurs "?" url -> head = url)
    /\ clean_listing_url "/marketplace/item/123?ref=abc"
       = Return "https://www.facebook.com/marketplace/item/123"
    /\ clean_listing_url "/marketplace/item/123"
       = Return "https://www.facebook.com/marketplace/item/123".
Proof.
  destruct (before_question_spec url) as (rest & Hsplit & Hno & Hrest).
  exists (before_question url), rest.
  repeat split; try assumption; try reflexivity.
  - apply clean_listing_url_eq.
  - intros Hq. unfold before_question. now rewrite (find_cut_no_question url Hq).
Qed.

(** C10. URL normalization is not idempotent.  Normalizing its own output
    puts the origin in front a second time, so the second result differs from
    the first; any input that already starts with the origin comes back with
    the origin twice. *)
Theorem clean_listing_url_not_idempotent :
  (forall url, exists once twice,
      clean_listing_url url = Return once
      /\ clean_listing_url once = Return twice
      /\ twice = ORIGIN ++ once
      /\ twice <> once)
  /\ (forall path,
         clean_listing_url (ORIGIN ++ path)
         = Return (ORIGIN ++ ORIGIN ++ before_question path))
  /\ clean_listing_url "https://www.facebook.com/marketplace/item/123"
     = Return "https://www.facebook.comhttps://www.facebook.com/marketplace/item/123".
Proof.
  split; [|split].
  - intros url. exists (ORIGIN ++ before_question url),
                       (ORIGIN ++ ORIGIN ++ before_question url).
    repeat split.
    + apply clean_listing_url_eq.
    + rewrite clean_listing_url_eq, before_question_origin, before_question_idem.
      reflexivity.
    + apply origin_append_neq.
  - intros path. now rewrite clean_listing_url_eq, before_question_origin.
  - reflexivity.
Qed.

(** C6, as the code behaves: a price string that has a decimal digit and a
    digit character that is not decimal.  The text "5" followed by U+00B2
    keeps both characters through the [str.isdigit] filter, and [int] rejects
    the result: the conversion raises [ValueError] where the specification
    gives 5. *)
Theorem superscript_digit_price_raises :
  Py.isdecimal "5" = true
  /\ keep Py.isdecimal five_squared = "5"
  /\ keep Py.isdigit five_squared = five_squared
  /\ convert_price_to_int five_squared
     = Raise (ValueError ("invalid literal for int() with base 10: '"
                          ++ five_squared ++ "'")).
Proof. repeat split. Qed.

(** For a price string whose digit characters are all decimal, at least one
    and at most 4300 of them, the conversion returns the non-negative number
    those digits spell in base 10, read in their original order; the two
    samples give 1000 and 1234. *)
Theorem convert_price_to_int_decimal (price_text : string) :
  keep Py.isdigit price_text <> "" ->
  Py.all_chars Py.isdecimal (keep Py.isdigit price_text) = true ->
  String.length (keep Py.isdigit price_text) <= 4300 ->
  convert_price_to_int price_text = Return (decimal_value (keep Py.isdigit price_text))
  /\ (0 <= decimal_value (keep Py.isdigit price_text))%Z
  /\ convert_price_to_int "$CA1,000" = Return 1000%Z
  /\ convert_price_to_int "1234" = Return 1234%Z.
Proof.
  intros Hne Hdec Hlen. split; [now apply convert_price_to_int_within|].
  repeat split. now apply horner_nonneg.
Qed.

Lemma convert_price_to_int_decimal_witness :
  convert_price_to_int "CA$ 1,250" = Return 1250%Z.
Proof.
  apply (proj1 (convert_price_to_int_decimal "CA$ 1,250"
                  ltac:(discriminate) eq_refl ltac:(simpl; lia))).
Defined.

(** For a price string with no digit character the conversion raises
    [ValueError]; it never returns zero for it.  The empty string and "$CA"
    are such strings. *)
Theorem convert_price_to_int_no_digit (price_text : string) :
  keep Py.isdigit price_text = "" ->
  convert_price_to_int price_text
  = Raise (ValueError "invalid literal for int() with base 10: ''")
  /\ keep Py.isdigit "" = "" /\ keep Py.isdigit "$CA" = "".
Proof.
  intros H. rewrite convert_price_to_int_cases, H. repeat split.
Qed.

Lemma convert_price_to_int_no_digit_witness :
  convert_price_to_int "$CA"
  = Raise (ValueError "invalid literal for int() with base 10: ''").
Proof. apply (proj1 (convert_price_to_int_no_digit "$CA" eq_refl)). Defined.

(** ** Listing extraction *)

(** C1, as the code behaves: the card of a free listing has every element, and its
    price text "Free" has no digit.  Its extraction raises [ValueError], which
    [except ParseError] does not catch: the loop stops there and the whole
    batch raises, the cards after it unread. *)
Theorem digitless_price_aborts_batch :
  found_text PRICE_SELECTOR card_free = Some "Free"
  /\ keep Py.isdigit "Free" = ""
  /\ parse_listing_with_soup card_free
     = Raise (ValueError "invalid literal for int() with base 10: ''")
  /\ is_ParseError (ValueError "invalid literal for int() with base 10: ''") = false
  /\ fetch_marketplace_listings [card_500; card_free; card_500] 0
     = Raise (ValueError "invalid literal for int() with base 10: ''")
  /\ fetch_marketplace_listings [card_500; card_500] 0
     = Return [listing_500; listing_500].
Proof. repeat split. Qed.

(** C2, as the code behaves: the card priced "$0" has all five elements, none of its
    values is empty, and its price text has a digit, yet its extraction raises
    [ParseError]: [all] counts the price 0 as missing. *)
Theorem zero_price_card_is_rejected :
  found_attr IMAGE_SELECTOR "src" card_zero = Some "https://scontent.example/desk.jpg"
  /\ found_text TITLE_SELECTOR card_zero = Some "Desk"
  /\ found_text PRICE_SELECTOR card_zero = Some "$0"
  /\ found_attr URL_SELECTOR "href" card_zero = Some "/marketplace/item/8"
  /\ found_text LOCATION_SELECTOR card_zero = Some "Guelph, ON"
  /\ convert_price_to_int "$0" = Return 0%Z
  /\ parse_listing_with_soup card_zero = Raise (ParseError "Failed to parse listing.").
Proof. repeat split. Qed.

(** C5, as the code behaves: extraction has a third outcome.  For the free listing's
    card it returns no [Listing] and does not raise [ParseError] either; it
    raises [ValueError].  The card with no price element does raise
    [ParseError]. *)
Theorem extraction_outcome_outside_contract :
  (exists msg, parse_listing_with_soup card_free = Raise (ValueError msg))
  /\ match parse_listing_with_soup card_free with
     | Return _ => true
     | Raise e => is_ParseError e
     end = false
  /\ Bs4.select_one PRICE_SELECTOR card_without_price = None
  /\ parse_listing_with_soup card_without_price
     = Raise (ParseError "Failed to parse listing.").
Proof. split; [now eexists | repeat split]. Qed.

(** C9. Every [Listing] the extraction returns has its five required fields
    taken from the fragment and non-empty: the image address, the trimmed
    title and location, the address built from a non-empty link, and a price
    converted from the price text that is positive, hence non-negative.  Its
    description is absent. *)
Theorem extracted_listing_is_valid (soup : Bs4.soup) (listing : Listing) :
  parse_listing_with_soup soup = Return listing ->
  (found_attr IMAGE_SELECTOR "src" soup = Some (image_url listing)
   /\ image_url listing <> "")
  /\ (found_text TITLE_SELECTOR soup = Some (title listing)
      /\ title listing <> "")
  /\ (exists text, found_text PRICE_SELECTOR soup = Some text
                   /\ convert_price_to_int text = Return (price listing))
  /\ (0 <= price listing /\ price listing <> 0)%Z
  /\ (exists href, found_attr URL_SELECTOR "href" soup = Some href /\ href <> ""
                   /\ post_url listing = ORIGIN ++ before_question href)
  /\ post_url listing <> ""
  /\ (found_text LOCATION_SELECTOR soup = Some (location listing)
      /\ location listing <> "")
  /\ description listing = None.
Proof.
  rewrite parse_listing_with_soup_eq.
  destruct (price_of (found_text PRICE_SELECTOR soup)) as [p|e] eqn:P; [|discriminate].
  cbn [bind]. intros H.
  apply assemble_return in H
    as (Hi & Ht & Hp & Hl & Hloc & Hd & Ni & Nt & Np & Nl & Nloc).
  subst p. apply price_of_return in P as (text & Htext & _ & Hconv & Hpos).
  unfold link_of in Hl.
  destruct (found_attr URL_SELECTOR "href" soup) as [href|]; [|discriminate].
  destruct (Py.truthy href) eqn:T; [|discriminate]. injection Hl as Hl.
  apply truthy_nonempty in T.
  repeat split; try assumption.
  - now exists text.
  - exists href. repeat split; [assumption | now symmetry].
Qed.

Lemma extracted_listing_is_valid_witness :
  parse_listing_with_soup card_500 = Return listing_500
  /\ (0 <= price listing_500 /\ price listing_500 <> 0)%Z
  /\ description listing_500 = None.
Proof.
  pose proof (extracted_listing_is_valid card_500 listing_500 eq_refl) as H.
  split; [reflexivity|]. split; apply H.
Defined.

(** When all five lookups of a fragment find a value, none of them empty, and
    the digit characters of the price text are decimal, at most 4300, and
    spell a number other than zero, the extraction returns the [Listing] made
    of those values.  The sample card with price text "$500" and link
    /marketplace/item/42?x=1 gives price 500, the link without its query
    behind the origin, and no description. *)
Theorem extraction_succeeds (soup : Bs4.soup)
        (src title_text price_text href location_text : string) :
  found_attr IMAGE_SELECTOR "src" soup = Some src ->
  found_text TITLE_SELECTOR soup = Some title_text ->
  found_text PRICE_SELECTOR soup = Some price_text ->
  found_attr URL_SELECTOR "href" soup = Some href ->
  found_text LOCATION_SELECTOR soup = Some location_text ->
  src <> "" -> title_text <> "" -> href <> "" -> location_text <> "" ->
  keep Py.isdigit price_text <> "" ->
  Py.all_chars Py.isdecimal (keep Py.isdigit price_text) = true ->
  String.length (keep Py.isdigit price_text) <= 4300 ->
  decimal_value (keep Py.isdigit price_text) <> 0%Z ->
  parse_listing_with_soup soup
  = Return (mkListing src title_text (decimal_value (keep Py.isdigit price_text))
              (ORIGIN ++ before_question href) location_text None)
  /\ parse_listing_with_soup card_500
     = Return (mkListing "https://scontent.example/bike.jpg" "Mountain bike" 500
                 "https://www.facebook.com/marketplace/item/42" "Toronto, ON" None).
Proof.
  intros Hi Ht Hp Hl Hloc Ni Nt Nl Nloc Nd Hdec Hlen Nz.
  split; [|reflexivity].
  rewrite parse_listing_with_soup_eq, Hi, Ht, Hp, Hl, Hloc.
  unfold price_of, link_of.
  assert (Py.truthy price_text = true) as ->.
  { apply truthy_nonempty. intros ->. now apply Nd. }
  rewrite (convert_price_to_int_within price_text Nd Hdec Hlen).
  apply truthy_nonempty in Nl. rewrite Nl. cbn [bind].
  apply assemble_ok; try assumption.
  unfold ORIGIN. discriminate.
Qed.

Lemma extraction_succeeds_witness :
  parse_listing_with_soup card_500 = Return listing_500.
Proof.
  apply (proj1 (extraction_succeeds card_500
                  "https://scontent.example/bike.jpg" "Mountain bike" "$500"
                  "/marketplace/item/42?x=1" "Toronto, ON"
                  eq_refl eq_refl eq_refl eq_refl eq_refl
                  ltac:(discriminate) ltac:(discriminate) ltac:(discriminate)
                  ltac:(discriminate) ltac:(discriminate) eq_refl
                  ltac:(simpl; lia) ltac:(discriminate))).
Defined.

(** Every outcome of the extraction, from the markup on: what the parser
    raised, when it rejects the markup; a [Listing]; [ParseError]; or, when
    the price text is not empty, one of the two [ValueError]s of the
    conversion: that of more than 4300 decimal digits at the head of its digit
    characters, or that of digit characters that are none or not all
    decimal. *)
Theorem extraction_outcomes (BeautifulSoup : string -> result Bs4.soup)
        (html_content : string) :
  (exists e, BeautifulSoup html_content = Raise e
             /\ parse_listing_html BeautifulSoup html_content = Raise e)
  \/ (exists soup,
         BeautifulSoup html_content = Return soup
         /\ parse_listing_html BeautifulSoup html_content
            = parse_listing_with_soup soup
         /\ ((exists listing, parse_listing_with_soup soup = Return listing)
             \/ parse_listing_with_soup soup
                = Raise (ParseError "Failed to parse listing.")
             \/ (exists text,
                    found_text PRICE_SELECTOR soup = Some text /\ text <> ""
                    /\ (((Py.MAX_STR_DIGITS < leading_decimals (keep Py.isdigit text))%N
                         /\ parse_listing_with_soup soup
                            = Raise (Py.too_many_digits
                                       (leading_decimals (keep Py.isdigit text))))
                        \/ ((keep Py.isdigit text = ""
                             \/ Py.all_chars Py.isdecimal (keep Py.isdigit text)
                                = false)
                            /\ parse_listing_with_soup soup
                               = Raise (Py.invalid_literal
                                          (keep Py.isdigit text))))))).
Proof.
  unfold parse_listing_html.
  destruct (BeautifulSoup html_content) as [soup|e]; [right | left; now exists e].
  exists soup. split; [reflexivity|]. split; [reflexivity|].
  rewrite parse_listing_with_soup_eq.
  destruct (price_of (found_text PRICE_SELECTOR soup)) as [p|e] eqn:P.
  - cbn [bind].
    destruct (assemble (found_attr IMAGE_SELECTOR "src" soup)
                (found_text TITLE_SELECTOR soup) p
                (link_of (found_attr URL_SELECTOR "href" soup))
                (found_text LOCATION_SELECTOR soup)) as [listing|e] eqn:A.
    + left. now exists listing.
    + right; left. apply assemble_raise in A as [-> _]. reflexivity.
  - right; right. apply price_of_raise in P as (text & Htext & Hne & Hconv & _).
    exists text. split; [assumption|]. split; [assumption|].
    apply convert_price_to_int_raise in Hconv as [[L ->]|[K ->]].
    + left. now split.
    + right. now split.
Qed.

(** The extraction raises [ParseError] only when a lookup found nothing, or a
    value is empty, or the price converts to zero. *)
Theorem parse_error_only_when (soup : Bs4.soup) (msg : string) :
  parse_listing_with_soup soup = Raise (ParseError msg) ->
  msg = "Failed to parse listing."
  /\ (found_attr IMAGE_SELECTOR "src" soup = None
      \/ found_attr IMAGE_SELECTOR "src" soup = Some ""
      \/ found_text TITLE_SELECTOR soup = None
      \/ found_text TITLE_SELECTOR soup = Some ""
      \/ found_text PRICE_SELECTOR soup = None
      \/ found_text PRICE_SELECTOR soup = Some ""
      \/ (exists text, found_text PRICE_SELECTOR soup = Some text
                       /\ convert_price_to_int text = Return 0%Z)
      \/ found_attr URL_SELECTOR "href" soup = None
      \/ found_attr URL_SELECTOR "href" soup = Some ""
      \/ found_text LOCATION_SELECTOR soup = None
      \/ found_text LOCATION_SELECTOR soup = Some "").
Proof.
  rewrite parse_listing_with_soup_eq.
  destruct (price_of (found_text PRICE_SELECTOR soup)) as [p|e] eqn:P.
  - cbn [bind]. intros A. apply assemble_raise in A as [E A].
    injection E as ->. split; [reflexivity|].
    destruct A as [A|[A|[A|[A|[A|[A|[A|[A|[A|A]]]]]]]]]; try tauto.
    + subst p. unfold price_of in P.
      destruct (found_text PRICE_SELECTOR soup) as [text|]; [|tauto].
      destruct text as [|c r]; [tauto|]. cbn [Py.truthy] in P.
      destruct (convert_price_to_int (String c r)); discriminate.
    + subst p. apply price_of_return in P as (text & Htext & _ & Hconv & _).
      do 6 right. left. now exists text.
    + unfold link_of in A.
      destruct (found_attr URL_SELECTOR "href" soup) as [[|c r]|]; try tauto.
      discriminate.
    + unfold link_of in A.
      destruct (found_attr URL_SELECTOR "href" soup) as [[|c r]|]; try tauto.
      discriminate.
  - cbn [bind]. intros [= ->].
    apply price_of_raise in P as (text & _ & _ & _ & m & H). discriminate.
Qed.

Lemma parse_error_only_when_witness :
  parse_listing_with_soup card_without_price
  = Raise (ParseError "Failed to parse listing.")
  /\ found_text PRICE_SELECTOR card_without_price = None.
Proof.
  split; [reflexivity|].
  destruct (parse_error_only_when card_without_price "Failed to parse listing." eq_refl)
    as [_ [H|[H|[H|[H|[H|[H|[H|[H|[H|[H|H]]]]]]]]]]];
    try discriminate H; try exact H.
  destruct H as (text & H & _). discriminate H.
Defined.

(** A fragment with no price element raises [ParseError]. *)
Theorem missing_price_raises_parse_error (soup : Bs4.soup) :
  Bs4.select_one PRICE_SELECTOR soup = None ->
  parse_listing_with_soup soup = Raise (ParseError "Failed to parse listing.").
Proof.
  intros H. rewrite parse_listing_with_soup_eq.
  unfold found_text at 1. rewrite H. cbn [price_of bind].
  unfold assemble. cbn [truthy_int forallb].
  destruct (truthy_str _), (truthy_str _); reflexivity.
Qed.

Lemma missing_price_raises_parse_error_witness :
  parse_listing_with_soup card_without_price
  = Raise (ParseError "Failed to parse listing.").
Proof. apply (missing_price_raises_parse_error card_without_price eq_refl). Defined.

(** ** The extraction loop *)

(** C3. A fragment whose extraction raises [ParseError] is skipped: the loop
    gives what it gives on the same fragments without that one, so the other
    fragments' results are untouched.  With three fragments of which the
    second fails, the result is the first's and the third's [Listing], in that
    order. *)
Theorem batch_skips_failed_fragment
        (before after : list Bs4.soup) (fragment : Bs4.soup) (msg : string) :
  parse_listing_with_soup fragment = Raise (ParseError msg) ->
  (forall acc,
      parse_each (before ++ fragment :: after) acc = parse_each (before ++ after) acc)
  /\ fetch_marketplace_listings (before ++ fragment :: after) 0
     = fetch_marketplace_listings (before ++ after) 0
  /\ (forall first third listing1 listing3 max_listings,
         parse_listing_with_soup first = Return listing1 ->
         parse_listing_with_soup third = Return listing3 ->
         (max_listings = 0 \/ 3 <= max_listings)%Z ->
         fetch_marketplace_listings [first; fragment; third] max_listings
         = Return [listing1; listing3]).
Proof.
  intros Hf. split; [|split].
  - intros acc. now apply (parse_each_skip before after fragment msg).
  - unfold fetch_marketplace_listings, num_listings. cbn [Z.eqb].
    rewrite !Nat2Z.id, !firstn_all.
    now apply (parse_each_skip before after fragment msg).
  - intros first third listing1 listing3 max_listings H1 H3 Hmax.
    unfold fetch_marketplace_listings, num_listings.
    assert (firstn
              (Z.to_nat (if (max_listings =? 0)%Z
                         then Z.of_nat (List.length [first; fragment; third])
                         else Z.min (Z.of_nat (List.length [first; fragment; third]))
                                max_listings))
              [first; fragment; third] = [first; fragment; third]) as ->.
    { destruct Hmax as [-> | Hmax]; [reflexivity|].
      destruct (Z.eqb_spec max_listings 0); [lia|].
      cbn [List.length]. rewrite Z.min_l by lia. reflexivity. }
    cbn [parse_each]. now rewrite H1, Hf, H3.
Qed.

Lemma batch_skips_failed_fragment_witness :
  parse_listing_with_soup card_without_price
  = Raise (ParseError "Failed to parse listing.")
  /\ fetch_marketplace_listings [card_500; card_without_price; card_500] 15
     = Return [listing_500; listing_500].
Proof.
  split; [reflexivity|].
  apply (proj2 (proj2 (batch_skips_failed_fragment [] [] card_without_price
                         "Failed to parse listing." eq_refl))
           card_500 card_500 listing_500 listing_500 15%Z eq_refl eq_refl).
  right. lia.
Defined.

(** ** Record serialization *)

Lemma of_string_code_points (s : string) :
  Forall (fun c => (c < 256)%N) (Unicode.of_string s).
Proof.
  unfold Unicode.of_string. induction s as [|a r IH]; cbn [list_ascii_of_string map];
    constructor; [|exact IH].
  unfold Py.ord. apply N_ascii_bounded.
Qed.

Lemma latin_no_surrogate_pair (s : Unicode.str) :
  Forall (fun c => (c < 256)%N) s -> has_surrogate_pair s = false.
Proof.
  induction 1 as [|c r Hc _ IH]; [reflexivity|]. cbv beta in Hc.
  cbn [has_surrogate_pair]. rewrite IH, orb_false_r.
  destruct r; [reflexivity|].
  unfold Unicode.is_high_surrogate.
  destruct (N.leb_spec 55296 c); [lia | reflexivity].
Qed.

(** The strings of the pages are plain. *)
Lemma plain_of_string (s : string) : plain (Unicode.of_string s).
Proof.
  pose proof (of_string_code_points s) as H. split.
  - eapply Forall_impl; [|exact H]. intros c Hc. cbv beta in Hc.
    unfold Unicode.is_code_point. apply N.ltb_lt. lia.
  - now apply latin_no_surrogate_pair.
Qed.

Lemma wf___dict__ (listing : WideListing) :
  serializable listing -> wf (__dict__ listing).
Proof.
  intros (Hi & Ht & Hp & Hl & Hloc & Hd).
  cbn [wf __dict__ map fst fold_right snd]. split.
  - vm_compute. repeat constructor; cbn [In]; intuition discriminate.
  - destruct (wide_description listing); cbn [wf];
      repeat match goal with
             | |- plain _ => first [apply plain_of_string | assumption]
             | |- _ /\ _ => split
             | |- True => exact I
             | |- _ <= _ => assumption
             end.
Qed.

Lemma wf_listings (listings : list WideListing) :
  Forall serializable listings -> wf (Json.List (map __dict__ listings)).
Proof.
  cbn [wf]. induction 1 as [|l ls Hl _ IH]; cbn [map fold_right]; [exact I|].
  split; [now apply wf___dict__ | exact IH].
Qed.

Lemma serializable_widen (listing : Listing) :
  digits_of (price listing) <= 4300 -> serializable (widen listing).
Proof.
  intros H. unfold serializable, widen.
  cbn [wide_image_url wide_title wide_price wide_post_url wide_location
       wide_description].
  destruct (description listing); cbn [option_map];
    repeat match goal with
           | |- plain _ => apply plain_of_string
           | |- _ /\ _ => split
           | |- True => exact I
           | |- _ <= _ => assumption
           end.
Qed.

(** What [listings_to_json] returns it has written for prices within the
    limit. *)
Lemma listings_to_json_return (listings : list WideListing) (text : string) :
  listings_to_json listings = Return text ->
  Forall (fun listing => digits_of (wide_price listing) <= 4300) listings.
Proof.
  unfold listings_to_json, Json.dumps. destruct listings as [|l ls]; [constructor|].
  generalize (l :: ls) as listings. clear l ls. intros listings.
  destruct (map __dict__ listings) as [|d ds] eqn:M.
  { destruct listings; [constructor | discriminate]. }
  cbn [Json.encode]. rewrite <- M. clear M d ds.
  destruct (sequence (map (Json.encode 4 1) (map __dict__ listings)))
    as [chunks|e] eqn:S; [|discriminate].
  intros _. rewrite map_map in S.
  apply sequence_map_return_inv in S.
  eapply Forall_impl; [|exact S].
  intros l [chunk H]. cbn [__dict__ Json.encode map sequence] in H.
  cbn [bind] in H.
  destruct (Py.str (wide_price l)) as [t|e] eqn:P.
  - now apply str_return in P as [P _].
  - cbn [bind] in H. discriminate.
Qed.

(** C8, amended.  For listings whose prices have at most 4300 digits and in
    whose strings no high surrogate is directly followed by a low one, the
    serialization is written, and reading it back gives as many mappings, in
    the same order; each has exactly the keys image_url, title, price,
    post_url, location and description, in that order, with the listing's
    values; an unset description reads back as null, not as the string
    "None". *)
Theorem listings_json_round_trip (listings : list WideListing) :
  Forall serializable listings ->
  exists (text : string) (mappings : list (list (Unicode.str * Json.value))),
    listings_to_json listings = Return text
    /\ Json.loads text = Some (Json.List (map Json.Dict mappings))
    /\ List.length mappings = List.length listings
    /\ (forall i listing,
           nth_error listings i = Some listing ->
           exists mapping,
             nth_error mappings i = Some mapping
             /\ map fst mapping
                = map Unicode.of_string
                    ["image_url"; "title"; "price"; "post_url"; "location";
                     "description"]
             /\ map snd mapping
                = [ Json.Str (wide_image_url listing); Json.Str (wide_title listing);
                    Json.Int (wide_price listing); Json.Str (wide_post_url listing);
                    Json.Str (wide_location listing);
                    match wide_description listing with
                    | Some d => Json.Str d
                    | None => Json.Null
                    end ]
             /\ (wide_description listing = None ->
                 In (Unicode.of_string "description", Json.Null) mapping
                 /\ ~ In (Unicode.of_string "description",
                          Json.Str (Unicode.of_string "None")) mapping)).
Proof.
  intros Hs.
  destruct (loads_dumps (Json.List (map __dict__ listings)) 4 (wf_listings _ Hs))
    as (text & Hdumps & Hloads).
  exists text, (map mapping_of listings).
  split; [exact Hdumps|]. split; [|split].
  - rewrite Hloads, map_map. reflexivity.
  - apply length_map.
  - intros i listing Hi. exists (mapping_of listing). split; [|split; [|split]].
    + rewrite nth_error_map, Hi. reflexivity.
    + reflexivity.
    + reflexivity.
    + intros Hd. unfold mapping_of. rewrite Hd. split.
      * cbn [In]. tauto.
      * cbn [In]. intuition discriminate.
Qed.

Lemma listings_json_round_trip_witness :
  exists (text : string) (mappings : list (list (Unicode.str * Json.value))),
    listings_to_json [widen listing_500; widen listing_500] = Return text
    /\ Json.loads text = Some (Json.List (map Json.Dict mappings))
    /\ List.length mappings = 2.
Proof.
  destruct (listings_json_round_trip [widen listing_500; widen listing_500])
    as (text & mappings & H1 & H2 & H3 & _).
  - constructor; [|constructor; [|constructor]];
      apply serializable_widen; vm_compute; lia.
  - exists text, mappings. repeat split; assumption.
Defined.

(** C8, as stated: the field values read back are not always the originals,
    and the serialization is not always written. *)
Theorem listings_json_round_trip_fails :
  (exists text,
      listings_to_json [surrogate_listing] = Return text
      /\ Json.loads text
         = Some (Json.List
                   [Json.Dict
                      [ (Unicode.of_string "image_url",
                         Json.Str (wide_image_url surrogate_listing));
                        (Unicode.of_string "title", Json.Str [0x1F6B2]%N);
                        (Unicode.of_string "price", Json.Int 500);
                        (Unicode.of_string "post_url",
                         Json.Str (wide_post_url surrogate_listing));
                        (Unicode.of_string "location",
                         Json.Str (wide_location surrogate_listing));
                        (Unicode.of_string "description", Json.Null) ]]))
  /\ wide_title surrogate_listing = [0xD83D; 0xDEB2]%N
  /\ [0x1F6B2]%N <> wide_title surrogate_listing
  /\ digits_of (wide_price overpriced_listing) = 4301
  /\ listings_to_json [overpriced_listing]
     = Raise (ValueError
                ("Exceeds the limit (4300 digits) for integer string conversion; "
                 ++ "use sys.set_int_max_str_digits() to increase the limit")).
Proof.
  split; [|split; [|split; [|split]]].
  - eexists. split; [vm_compute; reflexivity | vm_compute; reflexivity].
  - reflexivity.
  - discriminate.
  - vm_compute. reflexivity.
  - vm_compute. reflexivity.
Qed.

(** A fragment whose price text is not empty and has no digit character
    raises the [ValueError] of the conversion, and the loop that reaches it
    raises the same error whatever it has collected and whatever follows. *)
Theorem digitless_price_raises_value_error (soup : Bs4.soup) (text : string) :
  found_text PRICE_SELECTOR soup = Some text ->
  text <> "" ->
  keep Py.isdigit text = "" ->
  parse_listing_with_soup soup
  = Raise (ValueError "invalid literal for int() with base 10: ''")
  /\ (forall rest acc,
         parse_each (soup :: rest) acc
         = Raise (ValueError "invalid literal for int() with base 10: ''")).
Proof.
  intros Htext Hne Hnone.
  assert (H : parse_listing_with_soup soup
              = Raise (ValueError "invalid literal for int() with base 10: ''")).
  { rewrite parse_listing_with_soup_eq, Htext. unfold price_of.
    apply truthy_nonempty in Hne. rewrite Hne.
    rewrite convert_price_to_int_cases, Hnone. reflexivity. }
  split; [exact H|]. intros rest acc. now apply parse_each_abort.
Qed.

Lemma digitless_price_raises_value_error_witness :
  parse_listing_with_soup card_free
  = Raise (ValueError "invalid literal for int() with base 10: ''").
Proof.
  apply (proj1 (digitless_price_raises_value_error card_free "Free"
                  eq_refl ltac:(discriminate) eq_refl)).
Defined.

(* ===================================================================== *)
(** * Further properties of the code *)
(* ===================================================================== *)

(** ** The search address and the request filter *)






(** ** The extraction loop, in full *)

Lemma parse_each_spec (fragments : list Bs4.soup) (acc : list Listing) :
  (Forall (fun f => uncaught f = None) fragments
   /\ parse_each fragments acc = Return (acc ++ flat_map extracted fragments)%list)
  \/ (exists before f after e,
         fragments = (before ++ f :: after)%list
         /\ Forall (fun x => uncaught x = None) before
         /\ parse_listing_with_soup f = Raise e
         /\ is_ParseError e = false
         /\ parse_each fragments acc = Raise e).
Proof.
  revert acc. induction fragments as [|x xs IH]; intros acc.
  - left. split; [constructor|]. cbn. now rewrite List.app_nil_r.
  - cbn [parse_each flat_map]. unfold extracted at 1, uncaught.
    destruct (parse_listing_with_soup x) as [l|e] eqn:P.
    + destruct (IH (acc ++ [l])%list) as [[HF HR] | (b & f & a & e & -> & HF & Hf & He & HR)].
      * left. split.
        -- constructor; [unfold uncaught; now rewrite P | exact HF].
        -- rewrite HR, <- app_assoc. reflexivity.
      * right. exists (x :: b), f, a, e. repeat split; try assumption.
        constructor; [unfold uncaught; now rewrite P | exact HF].
    + destruct (is_ParseError e) eqn:E.
      * destruct (IH acc) as [[HF HR] | (b & f & a & e' & -> & HF & Hf & He & HR)].
        -- left. split.
           ++ constructor; [unfold uncaught; now rewrite P, E | exact HF].
           ++ exact HR.
        -- right. exists (x :: b), f, a, e'. repeat split; try assumption.
           constructor; [unfold uncaught; now rewrite P, E | exact HF].
      * right. exists [], x, xs, e. repeat split; try assumption. constructor.
Qed.

Lemma parse_listing_valid (soup : Bs4.soup) (listing : Listing) :
  parse_listing_with_soup soup = Return listing ->
  valid_listing listing /\ description listing = None.
Proof.
  rewrite parse_listing_with_soup_eq.
  destruct (price_of (found_text PRICE_SELECTOR soup)) as [p|e] eqn:P; [|discriminate].
  cbn [bind]. intros H.
  apply assemble_return in H
    as (Hi & Ht & Hp & Hl & Hloc & Hd & Ni & Nt & Np & Nl & Nloc).
  subst p. apply price_of_return in P as (text & _ & _ & _ & Hpos).
  unfold valid_listing. repeat split; try assumption. lia.
Qed.

Lemma extracted_valid (fragments : list Bs4.soup) :
  Forall (fun l => valid_listing l /\ description l = None)
         (flat_map extracted fragments).
Proof.
  induction fragments as [|x xs IH]; [constructor|].
  cbn [flat_map]. apply Forall_app. split; [|exact IH].
  unfold extracted. destruct (parse_listing_with_soup x) as [l|e] eqn:P;
    constructor; [now apply (parse_listing_valid x) | constructor].
Qed.

Lemma extracted_length (fragments : list Bs4.soup) :
  List.length (flat_map extracted fragments) <= List.length fragments.
Proof.
  induction fragments as [|x xs IH]; [reflexivity|].
  cbn [flat_map]. rewrite List.length_app. unfold extracted at 1.
  destruct (parse_listing_with_soup x); cbn [List.length]; lia.
Qed.

Lemma limit_bounds (count : nat) (max_listings : Z) :
  Z.to_nat (num_listings count max_listings) <= count
  /\ ((0 < max_listings)%Z ->
      (Z.of_nat (Z.to_nat (num_listings count max_listings)) <= max_listings)%Z)
  /\ ((max_listings < 0)%Z -> Z.to_nat (num_listings count max_listings) = 0).
Proof.
  unfold num_listings. destruct (Z.eqb_spec max_listings 0); lia.
Qed.

Lemma fetch_return_spec (page : list Bs4.soup) (max_listings : Z)
        (listings : list Listing) :
  fetch_marketplace_listings page max_listings = Return listings ->
  listings
  = flat_map extracted
      (firstn (Z.to_nat (num_listings (List.length page) max_listings)) page)
  /\ List.length listings <= List.length page
  /\ ((0 < max_listings)%Z -> (Z.of_nat (List.length listings) <= max_listings)%Z)
  /\ ((max_listings < 0)%Z -> listings = [])
  /\ Forall (fun l => valid_listing l /\ description l = None) listings.
Proof.
  unfold fetch_marketplace_listings.
  set (n := Z.to_nat (num_listings (List.length page) max_listings)).
  destruct (limit_bounds (List.length page) max_listings) as (Hn & Hpos & Hneg).
  fold n in Hn, Hpos, Hneg.
  destruct (parse_each_spec (firstn n page) [])
    as [[_ HR] | (b & f & a & e & _ & _ & _ & _ & HR)];
    rewrite HR; [|discriminate].
  cbn [app]. intros [= <-]. split; [reflexivity|].
  pose proof (extracted_length (firstn n page)) as Hlen.
  pose proof (firstn_le_length n page) as Hf.
  assert (Hfn : List.length (firstn n page) <= n)
    by (rewrite List.length_firstn; lia).
  repeat split.
  - lia.
  - intros H. specialize (Hpos H). lia.
  - intros H. rewrite (Hneg H). reflexivity.
  - apply extracted_valid.
Qed.

(** When the fetch returns, its result is what the fragments within the limit
    extract to, in page order, the ones that raised [ParseError] left out.
    So it has at most as many listings as the page has fragments, at most
    [max_listings] when that is positive, none when it is negative, and every
    listing in it has its five required fields non-empty, a positive price and
    no description. *)
Theorem fetch_result (page : list Bs4.soup) (max_listings : Z)
        (listings : list Listing) :
  fetch_marketplace_listings page max_listings = Return listings ->
  listings
  = flat_map extracted
      (firstn (Z.to_nat (num_listings (List.length page) max_listings)) page)
  /\ List.length listings <= List.length page
  /\ ((0 < max_listings)%Z -> (Z.of_nat (List.length listings) <= max_listings)%Z)
  /\ ((max_listings < 0)%Z -> listings = [])
  /\ Forall (fun l => valid_listing l /\ description l = None) listings.
Proof. apply fetch_return_spec. Qed.

Lemma fetch_result_witness :
  fetch_marketplace_listings [card_500; card_zero; card_free] 2 = Return [listing_500]
  /\ (Z.of_nat (List.length [listing_500]) <= 2)%Z
  /\ valid_listing listing_500.
Proof.
  pose proof (fetch_result [card_500; card_zero; card_free] 2 [listing_500] eq_refl)
    as (_ & _ & Hmax & _ & Hvalid).
  split; [reflexivity|]. split; [apply Hmax; lia|].
  inversion Hvalid as [|? ? [Hv _] _]. exact Hv.
Defined.

(** Fragments beyond a positive [max_listings] play no part: what follows the
    first [max_listings] fragments changes neither the listings returned nor
    whether the fetch raises. *)
Theorem fetch_ignores_fragments_beyond_limit
        (page more : list Bs4.soup) (max_listings : Z) :
  (0 < max_listings <= Z.of_nat (List.length page))%Z ->
  fetch_marketplace_listings (page ++ more) max_listings
  = fetch_marketplace_listings page max_listings.
Proof.
  intros [Hpos Hle]. unfold fetch_marketplace_listings, num_listings.
  destruct (Z.eqb_spec max_listings 0); [lia|].
  rewrite List.length_app, Nat2Z.inj_add.
  rewrite !Z.min_r by lia.
  rewrite firstn_app.
  replace (Z.to_nat max_listings - List.length page) with 0 by lia.
  cbn [firstn]. now rewrite List.app_nil_r.
Qed.

Lemma fetch_ignores_fragments_beyond_limit_witness :
  fetch_marketplace_listings ([card_500; card_zero] ++ [card_free]) 2
  = Return [listing_500].
Proof.
  rewrite (fetch_ignores_fragments_beyond_limit [card_500; card_zero] [card_free] 2).
  - reflexivity.
  - cbn. lia.
Defined.

(** The fetch raises exactly when, within the limit, some fragment's
    extraction raises something other than [ParseError]; what it raises is
    the error of the first such fragment. *)
Theorem fetch_raises_first_uncaught (page : list Bs4.soup) (max_listings : Z)
        (e : exn) :
  fetch_marketplace_listings page max_listings = Raise e
  <-> exists before fragment after,
        firstn (Z.to_nat (num_listings (List.length page) max_listings)) page
        = (before ++ fragment :: after)%list
        /\ Forall (fun f => uncaught f = None) before
        /\ parse_listing_with_soup fragment = Raise e
        /\ is_ParseError e = false.
Proof.
  unfold fetch_marketplace_listings.
  set (fragments := firstn _ page).
  destruct (parse_each_spec fragments [])
    as [[HF HR] | (b & f & a & e' & Hsplit & HFb & Hf & He & HR)]; rewrite HR.
  - split; [discriminate|].
    intros (b & f & a & Hsplit & _ & Hf & He). exfalso.
    rewrite Hsplit in HF. apply Forall_app in HF as [_ HF].
    inversion HF as [|? ? Hu _]. unfold uncaught in Hu. rewrite Hf, He in Hu.
    discriminate.
  - split.
    + intros [= <-]. now exists b, f, a.
    + intros (b2 & f2 & a2 & Hsplit2 & HFb2 & Hf2 & He2). f_equal.
      assert (Hu : uncaught f = Some e') by (unfold uncaught; now rewrite Hf, He).
      assert (Hu2 : uncaught f2 = Some e) by (unfold uncaught; now rewrite Hf2, He2).
      rewrite Hsplit in Hsplit2. clear - Hsplit2 HFb HFb2 Hu Hu2.
      revert b2 Hsplit2 HFb2. induction b as [|x b IH]; intros [|y b2] H HF2.
      * injection H as -> _. congruence.
      * injection H as -> _. inversion HF2; subst. congruence.
      * injection H as <- _. inversion HFb; subst. congruence.
      * injection H as _ H. inversion HFb; subst. inversion HF2; subst.
        now apply (IH ltac:(assumption) b2).
Qed.

(** ** Descriptions, written into the listings in place *)

Lemma same_required_fields_refl (l : Listing) : same_required_fields l l.
Proof. unfold same_required_fields. tauto. Qed.

Lemma same_required_fields_trans (a b c : Listing) :
  same_required_fields a b -> same_required_fields b c -> same_required_fields a c.
Proof. unfold same_required_fields. intuition congruence. Qed.

Lemma set_description_fields (h : heap) (address : nat) (text : string) (a : nat) :
  same_required_fields (set_description h address text a) (h a)
  /\ (a <> address -> set_description h address text a = h a)
  /\ description (set_description h address text address) = Some text.
Proof.
  unfold set_description, same_required_fields. rewrite Nat.eqb_refl.
  destruct (Nat.eqb_spec a address); cbn; intuition congruence.
Qed.

Lemma describe_each_frame (session : Session) (listings : list nat) :
  forall visit h a,
    same_required_fields (fst (describe_each session visit h listings) a) (h a)
    /\ (~ In a listings -> fst (describe_each session visit h listings) a = h a).
Proof.
  induction listings as [|r rest IH]; intros visit h a; cbn [describe_each].
  - split; [apply same_required_fields_refl | reflexivity].
  - destruct (description_at session visit (post_url (h r))) as [text|e].
    + destruct (IH (S visit) (set_description h r text) a) as [Hs Hn].
      destruct (set_description_fields h r text a) as (Hs' & Hn' & _).
      split.
      * eapply same_required_fields_trans; eassumption.
      * intros Hin. rewrite Hn by (intros H; apply Hin; now right).
        apply Hn'. intros ->. apply Hin. now left.
    + split; [apply same_required_fields_refl | reflexivity].
Qed.

Lemma describe_each_success (session : Session) (listings : list nat) :
  forall visit h h',
    describe_each session visit h listings = (h', Return tt) ->
    forall i r,
      nth_error listings i = Some r ->
      exists text,
        description_at session (visit + i) (post_url (h r)) = Return text
        /\ ((forall j, i < j -> nth_error listings j <> Some r) ->
            description (h' r) = Some text).
Proof.
  induction listings as [|r0 rest IH]; intros visit h h' H i r Hi.
  - destruct i; discriminate.
  - cbn [describe_each] in H.
    destruct (description_at session visit (post_url (h r0))) as [text0|e] eqn:D;
      [|discriminate].
    destruct i as [|i].
    + injection Hi as <-. exists text0. rewrite Nat.add_0_r. split; [exact D|].
      intros Hlast.
      assert (Hnot : ~ In r0 rest).
      { intros Hin. apply In_nth_error in Hin as [j Hj].
        apply (Hlast (S j)); [lia | exact Hj]. }
      pose proof (describe_each_frame session rest (S visit)
                    (set_description h r0 text0) r0) as [_ Hn].
      rewrite H in Hn. cbn [fst] in Hn. rewrite (Hn Hnot).
      apply (set_description_fields h r0 text0 r0).
    + cbn [nth_error] in Hi.
      destruct (IH _ _ _ H i r Hi) as (text & Hv & Hd).
      exists text. split.
      * destruct (set_description_fields h r0 text0 r) as ((_ & _ & _ & Hu & _) & _).
        rewrite <- Hu, Nat.add_succ_r. exact Hv.
      * intros Hlast. apply Hd. intros j Hj. apply (Hlast (S j)). lia.
Qed.

Lemma describe_each_failure (session : Session) (listings : list nat) :
  forall visit h h' e,
    describe_each session visit h listings = (h', Raise e) ->
    exists k r,
      nth_error listings k = Some r
      /\ description_at session (visit + k) (post_url (h r)) = Raise e
      /\ describe_each session visit h (firstn k listings) = (h', Return tt).
Proof.
  induction listings as [|r0 rest IH]; intros visit h h' e H; [discriminate|].
  cbn [describe_each] in H.
  destruct (description_at session visit (post_url (h r0))) as [text0|e0] eqn:D.
  - destruct (IH _ _ _ _ H) as (k & r & Hk & Hv & Hpre).
    exists (S k), r. repeat split.
    + exact Hk.
    + destruct (set_description_fields h r0 text0 r) as ((_ & _ & _ & Hu & _) & _).
      rewrite <- Hu, Nat.add_succ_r. exact Hv.
    + cbn [firstn describe_each]. now rewrite D.
  - injection H as <- <-. exists 0, r0. rewrite Nat.add_0_r. now repeat split.
Qed.

Lemma last_occurrence (r : nat) (listings : list nat) :
  In r listings ->
  exists i, nth_error listings i = Some r
            /\ forall j, i < j -> nth_error listings j <> Some r.
Proof.
  induction listings as [|x xs IH]; intros Hin; [destruct Hin|].
  destruct (in_dec Nat.eq_dec r xs) as [Hxs | Hxs].
  - destruct (IH Hxs) as (i & Hi & Hl). exists (S i). split; [exact Hi|].
    intros [|j] Hj; [lia|]. apply Hl. lia.
  - destruct Hin as [-> | Hin]; [|contradiction].
    exists 0. split; [reflexivity|].
    intros [|j] Hj; [lia|]. cbn [nth_error]. intros H.
    apply Hxs. eapply nth_error_In. exact H.
Qed.

Lemma get_descriptions_frame
        (session : Session) (h : heap) (listings : list nat) (a : nat) :
  same_required_fields (fst (get_descriptions session h listings) a) (h a)
  /\ (~ In a listings -> fst (get_descriptions session h listings) a = h a).
Proof.
  unfold get_descriptions. destruct (session_login session).
  - apply describe_each_frame.
  - split; [apply same_required_fields_refl | reflexivity].
Qed.

(** Whatever happens during the pass, [get_descriptions] changes nothing but
    descriptions: every object keeps its image, title, price, address and
    location, and an object that is not in the list is not touched at all. *)
Theorem get_descriptions_keeps_required_fields
        (session : Session) (h : heap) (listings : list nat) (a : nat) :
  same_required_fields (fst (get_descriptions session h listings) a) (h a)
  /\ (~ In a listings -> fst (get_descriptions session h listings) a = h a).
Proof. apply get_descriptions_frame. Qed.

(** When the pass completes, the session was logged in, the [i]-th navigation
    went to the address of the [i]-th listing and gave a text, and each
    listing holds the text of the last navigation made for it: with no object
    twice in the list, the [i]-th listing holds the [i]-th text. *)
Theorem get_descriptions_success
        (session : Session) (h h' : heap) (listings : list nat) :
  get_descriptions session h listings = (h', Return tt) ->
  session_login session = Return tt
  /\ forall i r,
       nth_error listings i = Some r ->
       exists text,
         description_at session i (post_url (h r)) = Return text
         /\ ((forall j, i < j -> nth_error listings j <> Some r) ->
             description (h' r) = Some text)
         /\ (NoDup listings -> description (h' r) = Some text).
Proof.
  unfold get_descriptions. destruct (session_login session) as [[]|e]; [|discriminate].
  intros H. split; [reflexivity|]. intros i r Hi.
  destruct (describe_each_success session listings 0 h h' H i r Hi) as (text & Hv & Hd).
  exists text. split; [exact Hv|]. split; [exact Hd|].
  intros Hnd. apply Hd. intros j Hj Hr.
  assert (i = j); [|lia].
  apply (proj1 (NoDup_nth_error listings) Hnd); [|congruence].
  apply nth_error_Some. congruence.
Qed.

(** When the pass raises, either the login raised and no object changed, or
    some navigation [k] raised: then the heap is left as a completed pass over
    the first [k] listings leaves it, so the listings before the failure keep
    their new descriptions. *)
Theorem get_descriptions_failure
        (session : Session) (h h' : heap) (listings : list nat) (e : exn) :
  get_descriptions session h listings = (h', Raise e) ->
  (session_login session = Raise e /\ h' = h)
  \/ (exists k r,
         nth_error listings k = Some r
         /\ description_at session k (post_url (h r)) = Raise e
         /\ get_descriptions session h (firstn k listings) = (h', Return tt)).
Proof.
  unfold get_descriptions. destruct (session_login session) as [[]|e0].
  - intros H. right. now apply describe_each_failure in H.
  - intros [= <- <-]. now left.
Qed.

Lemma get_descriptions_success_witness :
  description
    (fst (get_descriptions sample_session (allocate [listing_500; listing_500]) [0; 1]) 1)
  = Some "Seen at https://www.facebook.com/marketplace/item/42".
Proof.
  destruct (get_descriptions_success sample_session
              (allocate [listing_500; listing_500])
              (fst (get_descriptions sample_session
                      (allocate [listing_500; listing_500]) [0; 1]))
              [0; 1] eq_refl) as [_ H].
  destruct (H 1 1 eq_refl) as (text & Hv & _ & Hd).
  injection Hv as <-. apply Hd.
  repeat constructor; cbn [In]; intuition discriminate.
Defined.

Lemma get_descriptions_failure_witness :
  description
    (fst (get_descriptions stalling_session (allocate [listing_500; listing_500]) [0; 1]) 0)
  = Some "Seen at https://www.facebook.com/marketplace/item/42"
  /\ snd (get_descriptions stalling_session (allocate [listing_500; listing_500]) [0; 1])
     = Raise (ValueError "Timeout 30000ms exceeded.").
Proof.
  destruct (get_descriptions_failure stalling_session
              (allocate [listing_500; listing_500])
              (fst (get_descriptions stalling_session
                      (allocate [listing_500; listing_500]) [0; 1]))
              [0; 1] (ValueError "Timeout 30000ms exceeded.") eq_refl)
    as [[H _] | _]; [discriminate H|].
  split; reflexivity.
Defined.

Lemma described_after_success (session : Session) (h h' : heap) (listings : list nat) :
  get_descriptions session h listings = (h', Return tt) ->
  Forall (fun l => exists d, description l = Some d) (map h' listings).
Proof.
  unfold get_descriptions. destruct (session_login session) as [[]|e]; [|discriminate].
  intros H. apply Forall_map, Forall_forall. intros r Hin.
  destruct (last_occurrence r listings Hin) as (i & Hi & Hlast).
  destruct (describe_each_success session listings 0 h h' H i r Hi) as (text & _ & Hd).
  exists text. now apply Hd.
Qed.

(** The listings of the pages, serialized: with prices within the limit the
    text is written and reads back as their mappings. *)
Lemma listings_to_json_widen (listings : list Listing) :
  Forall (fun listing => digits_of (price listing) <= 4300) listings ->
  exists text,
    listings_to_json (map widen listings) = Return text
    /\ Json.loads text
       = Some (Json.List (map Json.Dict (map mapping_of (map widen listings)))).
Proof.
  intros H.
  assert (Hs : Forall serializable (map widen listings)).
  { apply Forall_map. eapply Forall_impl; [|exact H].
    intros l Hl. now apply serializable_widen. }
  destruct (loads_dumps (Json.List (map __dict__ (map widen listings))) 4
              (wf_listings _ Hs)) as (text & Hdumps & Hloads).
  exists text. split; [exact Hdumps|].
  rewrite Hloads, (map_map mapping_of Json.Dict). reflexivity.
Qed.

(** After a completed pass over listings whose prices have at most 4300
    digits, the serialization is written, and it reads back with a string
    under "description" in every mapping, never null. *)
Theorem described_listings_serialize_without_null
        (session : Session) (h h' : heap) (listings : list nat) :
  get_descriptions session h listings = (h', Return tt) ->
  Forall (fun listing => digits_of (price (h' listing)) <= 4300) listings ->
  exists (text : string) (mappings : list (list (Unicode.str * Json.value))),
    listings_to_json (map widen (map h' listings)) = Return text
    /\ Json.loads text = Some (Json.List (map Json.Dict mappings))
    /\ List.length mappings = List.length listings
    /\ Forall (fun m => (exists d, In (Unicode.of_string "description", Json.Str d) m)
                        /\ ~ In (Unicode.of_string "description", Json.Null) m)
              mappings.
Proof.
  intros H Hp. pose proof (described_after_success session h h' listings H) as Hd.
  destruct (listings_to_json_widen (map h' listings)) as (text & Htext & Hloads).
  { now apply Forall_map. }
  exists text, (map mapping_of (map widen (map h' listings))).
  split; [exact Htext|]. split; [exact Hloads|]. split.
  - now rewrite !List.length_map.
  - apply Forall_map, Forall_map. eapply Forall_impl; [|exact Hd].
    intros l (d & Hl). unfold mapping_of, widen. cbn [wide_description].
    rewrite Hl. cbn [option_map]. split.
    + exists (Unicode.of_string d). cbn [In]. tauto.
    + cbn [In]. intuition discriminate.
Qed.

Lemma described_listings_serialize_without_null_witness :
  exists (text : string) (mappings : list (list (Unicode.str * Json.value))),
    listings_to_json
      (map widen
         (map (fst (get_descriptions sample_session (allocate [listing_500]) [0])) [0]))
    = Return text
    /\ Json.loads text = Some (Json.List (map Json.Dict mappings))
    /\ List.length mappings = 1
    /\ Forall (fun m => (exists d, In (Unicode.of_string "description", Json.Str d) m)
                        /\ ~ In (Unicode.of_string "description", Json.Null) m)
              mappings.
Proof.
  apply (described_listings_serialize_without_null sample_session
           (allocate [listing_500])
           (fst (get_descriptions sample_session (allocate [listing_500]) [0]))
           [0] eq_refl).
  constructor; [vm_compute; lia | constructor].
Defined.

(** ** The script from end to end *)

Lemma valid_listing_same_fields (a b : Listing) :
  same_required_fields a b -> valid_listing b -> valid_listing a.
Proof.
  unfold same_required_fields, valid_listing.
  intros (-> & -> & -> & -> & ->). tauto.
Qed.

Lemma allocate_nth (listings : list Listing) (a : nat) (P : Listing -> Prop) :
  Forall P listings -> a < List.length listings -> P (allocate listings a).
Proof.
  intros HF Ha. unfold allocate.
  apply (proj1 (Forall_forall P listings) HF). now apply nth_In.
Qed.

(** The script as a whole.  Without both credentials it raises
    [CredentialsError], whatever the sessions would answer.  When it returns
    the text to write, both credentials were non-empty and the text reads back
    as at most 15 mappings of listings, each with its five required fields
    non-empty, a positive price and a description. *)
Theorem main_outcomes (email password : option string) (first second : Session) :
  (email = None \/ email = Some "" \/ password = None \/ password = Some "" ->
   main email password first second
   = Raise (CredentialsError
              "Facebook email and password must be set as environment variables."))
  /\ (forall text,
         main email password first second = Return text ->
         (exists e p, email = Some e /\ e <> "" /\ password = Some p /\ p <> "")
         /\ exists listings,
              List.length listings <= 15
              /\ Json.loads text
                 = Some (Json.List (map __dict__ (map widen listings)))
              /\ Forall (fun l => valid_listing l
                                  /\ exists d, description l = Some d) listings).
Proof.
  split.
  - unfold main, check_credentials.
    intros [-> | [-> | [-> | ->]]]; cbn; try reflexivity;
      destruct email as [[|? ?]|]; reflexivity.
  - intros text. unfold main.
    destruct (check_credentials email password) as [[e p]|x] eqn:C; [|discriminate].
    cbn [bind].
    destruct (fetch_in_session first "toronto" "mountain bike" (Some 500%Z) None 15)
      as [scraped|x] eqn:F; [|discriminate].
    cbn [bind].
    destruct (get_descriptions second (allocate scraped)
                (seq 0 (List.length scraped))) as [h outcome] eqn:G.
    destruct outcome as [[]|x]; [|discriminate]. cbn [bind]. intros Htext.
    split.
    + unfold check_credentials in C.
      destruct email as [[|? ?]|], password as [[|? ?]|]; try discriminate C.
      do 2 eexists. repeat split; discriminate.
    + exists (map h (seq 0 (List.length scraped))).
      unfold fetch_in_session in F.
      destruct (session_login first) as [[]|x]; [|discriminate].
      cbn [bind] in F.
      destruct (listings_on first _) as [page|x]; [|discriminate].
      cbn [bind] in F. apply fetch_return_spec in F as (_ & _ & Hlen & _ & Hvalid).
      split; [|split].
      * rewrite List.length_map, List.length_seq.
        specialize (Hlen ltac:(lia)). lia.
      * pose proof (listings_to_json_return _ _ Htext) as Hp.
        destruct (listings_to_json_widen (map h (seq 0 (List.length scraped))))
          as (text' & Htext' & Hloads).
        { apply (proj1 (Forall_map _ _ _)) in Hp. exact Hp. }
        rewrite Htext in Htext'. injection Htext' as <-.
        rewrite Hloads. do 2 f_equal.
        rewrite (map_map mapping_of Json.Dict). reflexivity.
      * pose proof (described_after_success second _ h _ G) as Hd.
        apply Forall_map, Forall_forall. intros a Ha.
        split.
        -- pose proof (get_descriptions_frame second (allocate scraped)
                         (seq 0 (List.length scraped)) a) as Hs.
           rewrite G in Hs. cbn [fst] in Hs.
           apply (valid_listing_same_fields _ _ (proj1 Hs)).
           apply in_seq in Ha.
           apply (allocate_nth scraped a valid_listing); [|lia].
           eapply Forall_impl; [|exact Hvalid]. intros l Hl. apply Hl.
        -- apply (proj1 (Forall_forall _ _) (proj1 (Forall_map _ _ _) Hd) a Ha).
Qed.

Lemma main_outcomes_witness :
  exists text,
    main (Some "me@example.org") (Some "secret") sample_session sample_session
    = Return text
    /\ exists listings,
         List.length listings <= 15
         /\ Json.loads text = Some (Json.List (map __dict__ (map widen listings)))
         /\ Forall (fun l => valid_listing l /\ exists d, description l = Some d)
                   listings.
Proof.
  eexists. split; [vm_compute; reflexivity|].
  apply (proj2 (main_outcomes (Some "me@example.org") (Some "secret")
                  sample_session sample_session) _).
  vm_compute. reflexivity.
Defined.

(** ** Prices, printed and read *)

Lemma keep_app (p : ascii -> bool) (a b : string) :
  keep p (a ++ b) = keep p a ++ keep p b.
Proof.
  induction a as [|c a IH]; [reflexivity|]. cbn [append keep].
  destruct (p c); cbn [append]; now rewrite IH.
Qed.

Lemma keep_isdigit_str_of_int (n : Z) :
  keep Py.isdigit (Py.str_of_int n) = Py.str_of_int (Z.abs n).
Proof.
  assert (Hpos : forall p, keep Py.isdigit (NilEmpty.string_of_uint (Pos.to_uint p))
                           = NilEmpty.string_of_uint (Pos.to_uint p)).
  { intros p. apply keep_id. apply (all_chars_impl Py.isdecimal).
    - apply isdecimal_isdigit.
    - apply string_of_uint_decimal. }
  destruct (str_of_int_cases n) as [[-> ->]|[(p & -> & ->)|(p & -> & E)]].
  - reflexivity.
  - cbn [Z.abs].
    destruct (str_of_int_cases (Zpos p)) as [[H _]|[(q & [= <-] & ->)|(q & H & _)]];
      try discriminate H. apply Hpos.
  - rewrite E. cbn [Z.abs].
    destruct (str_of_int_cases (Zpos p)) as [[H _]|[(q & [= <-] & ->)|(q & H & _)]];
      try discriminate H.
    change (keep Py.isdigit (String "-" (NilEmpty.string_of_uint (Pos.to_uint p))))
      with (keep Py.isdigit (NilEmpty.string_of_uint (Pos.to_uint p))).
    apply Hpos.
Qed.

(** Reading a printed integer: around the text [str] returns for an integer
    [n], with text before and after that has no digit character, the
    conversion returns the absolute value of [n]; a minus sign is dropped with
    the other non-digits. *)
Theorem convert_price_to_int_reads_printed_integer
        (before after printed : string) (n : Z) :
  keep Py.isdigit before = "" ->
  keep Py.isdigit after = "" ->
  Py.str n = Return printed ->
  convert_price_to_int (before ++ printed ++ after) = Return (Z.abs n).
Proof.
  intros Hb Ha Hn. apply str_return in Hn as [Hd ->].
  rewrite convert_price_to_int_eq, !keep_app, Hb, Ha.
  cbn [append]. rewrite append_empty_r, keep_isdigit_str_of_int.
  apply int_str_of_int. unfold digits_of in *. now rewrite Z.abs_idemp.
Qed.

Lemma convert_price_to_int_reads_printed_integer_witness :
  convert_price_to_int ("CA$" ++ "-1250" ++ " each") = Return 1250%Z.
Proof.
  apply (convert_price_to_int_reads_printed_integer "CA$" " each" "-1250" (-1250)
           eq_refl eq_refl eq_refl).
Defined.








(** ** Prices over the limit on digits *)

(** A fragment whose price text has more than 4300 decimal digits at the head
    of its digit characters raises the [ValueError] of [int] for too many
    digits, whatever follows them, and the loop that reaches it raises the
    same error whatever it has collected and whatever fragments follow. *)
Theorem overlong_price_raises_value_error (soup : Bs4.soup) (text : string) :
  found_text PRICE_SELECTOR soup = Some text ->
  (Py.MAX_STR_DIGITS < leading_decimals (keep Py.isdigit text))%N ->
  parse_listing_with_soup soup
  = Raise (Py.too_many_digits (leading_decimals (keep Py.isdigit text)))
  /\ is_ParseError (Py.too_many_digits (leading_decimals (keep Py.isdigit text)))
     = false
  /\ (forall rest acc,
         parse_each (soup :: rest) acc
         = Raise (Py.too_many_digits (leading_decimals (keep Py.isdigit text)))).
Proof.
  intros Htext Hlong.
  assert (H : parse_listing_with_soup soup
              = Raise (Py.too_many_digits (leading_decimals (keep Py.isdigit text)))).
  { rewrite parse_listing_with_soup_eq, Htext. unfold price_of.
    assert (Py.truthy text = true) as ->.
    { destruct text; [|reflexivity]. cbn in Hlong. unfold Py.MAX_STR_DIGITS in Hlong. lia. }
    rewrite convert_price_to_int_cases. cbv zeta.
    apply N.ltb_lt in Hlong. now rewrite Hlong. }
  split; [exact H|]. split; [reflexivity|].
  intros rest acc. now apply parse_each_abort.
Qed.

Lemma overlong_price_raises_value_error_witness :
  parse_listing_with_soup card_overlong = Raise (Py.too_many_digits 4301).
Proof.
  apply (proj1 (overlong_price_raises_value_error card_overlong ("$" ++ nines 4301)
                  ltac:(vm_compute; reflexivity) ltac:(vm_compute; reflexivity))).
Defined.

(** ** The text of an element *)


(** ** The selectors and the blocked names, as written *)

Lemma substring_of_trans (a b c : string) :
  substring_of a b -> substring_of b c -> substring_of a c.
Proof.
  intros (p1 & q1 & ->) (p2 & q2 & ->). exists (p2 ++ p1), (q1 ++ q2).
  now rewrite !append_assoc.
Qed.

Lemma contains_trans (a b c : string) :
  Py.contains a b = true -> Py.contains b c = true -> Py.contains a c = true.
Proof.
  rewrite !contains_spec. apply substring_of_trans.
Qed.

(** Two of the blocked names never decide anything: "google-analytics" and
    "googletagmanager" both contain "google", so the filter acts on every
    request as it would with the seven other names alone. *)
Theorem blocked_names_subsumed (request : Request) :
  blocking_intercept request
  = if existsb (String.eqb (resource_type request)) BLOCK_RESOURCE_TYPES then Abort
    else if existsb (fun key => Py.contains key (url request))
              [ "adzerk"; "analytics"; "cdn.api.twitter"; "doubleclick";
                "exelator"; "fontawesome"; "google" ]
         then Abort
         else Continue.
Proof.
  unfold blocking_intercept, BLOCK_RESOURCE_NAMES.
  destruct (existsb (String.eqb (resource_type request)) BLOCK_RESOURCE_TYPES);
    [reflexivity|].
  cbn [existsb].
  destruct (Py.contains "google" (url request)) eqn:G.
  - now rewrite !orb_true_r.
  - assert (Py.contains "google-analytics" (url request) = false) as ->.
    { destruct (Py.contains "google-analytics" (url request)) eqn:E; [|reflexivity].
      rewrite <- G. symmetry.
      apply (contains_trans "google" "google-analytics"); [reflexivity | exact E]. }
    assert (Py.contains "googletagmanager" (url request) = false) as ->.
    { destruct (Py.contains "googletagmanager" (url request)) eqn:E; [|reflexivity].
      rewrite <- G. symmetry.
      apply (contains_trans "google" "googletagmanager"); [reflexivity | exact E]. }
    reflexivity.
Qed.

Lemma location_match_is_title_match (t : Bs4.node) :
  Bs4.matches LOCATION_SELECTOR t = true -> Bs4.matches TITLE_SELECTOR t = true.
Proof.
  destruct t as [s|name attrs contents|k s]; [discriminate| |discriminate].
  unfold Bs4.matches.
  change (Bs4.selector_parts LOCATION_SELECTOR)
    with ("span", ["x1lliihq"; "x6ikm8r"; "x10wlt62"; "x1n2onr6"; "xlyipyv"; "xuxw1ft"]).
  change (Bs4.selector_parts TITLE_SELECTOR)
    with ("span", ["x1lliihq"; "x6ikm8r"; "x10wlt62"; "x1n2onr6"]).
  cbn [forallb]. intros H.
  repeat (apply andb_true_iff in H as [? H]).
  repeat (apply andb_true_iff; split); assumption || reflexivity.
Qed.

(** The location selector is the title selector with two more classes, so a
    fragment in which the location lookup finds an element never misses its
    title lookup: the title lookup finds an element too, the location element
    itself or one before it. *)
Theorem location_found_implies_title_found (soup : Bs4.soup) (t : Bs4.node) :
  Bs4.select_one LOCATION_SELECTOR soup = Some t ->
  exists t', Bs4.select_one TITLE_SELECTOR soup = Some t'
             /\ Bs4.matches TITLE_SELECTOR t' = true
             /\ Bs4.matches TITLE_SELECTOR t = true.
Proof.
  unfold Bs4.select_one. intros H. apply find_some in H as [Hin Hm].
  apply location_match_is_title_match in Hm.
  destruct (find (Bs4.matches TITLE_SELECTOR) (Bs4.all_nodes (Bs4.built soup)))
    as [t'|] eqn:F.
  - exists t'. apply find_some in F as [_ F]. now repeat split.
  - pose proof (find_none _ _ F t Hin). congruence.
Qed.

Lemma location_found_implies_title_found_witness :
  exists t', Bs4.select_one TITLE_SELECTOR card_500 = Some t'
             /\ Bs4.matches TITLE_SELECTOR t' = true
             /\ Bs4.matches TITLE_SELECTOR
                  (span "x1lliihq x6ikm8r x10wlt62 x1n2onr6 xlyipyv xuxw1ft" "Toronto, ON")
                = true.
Proof.
  apply (location_found_implies_title_found card_500
           (span "x1lliihq x6ikm8r x10wlt62 x1n2onr6 xlyipyv xuxw1ft" "Toronto, ON")
           eq_refl).
Defined.
